(** * stockmonitor: the aggregation, storage, comparison and alert layer

    A shallow embedding of [src/stock_monitor.py] and
    [src/utils/data_storage.py], and the properties of the specification
    settled against it.

    Conventions of the embedding:
    - a Python [float] is an IEEE 754 binary64 value, [SpecFloat.spec_float]
      at precision 53 and maximal exponent 1024, with the operations of
      [SpecFloat] (round to nearest, ties to even);
    - a Python [str] is a [string]; the program's strings are ASCII text;
    - a [DataFrame] is the list of its rows, a row is a record of cells;
    - a [try ... except Exception] block is a computation in the error
      monad [outcome] closed by a handler; the logger is an explicit list
      of events returned next to the value. *)

From Stdlib Require Import ZArith Lia List Bool Ascii String SpecFloat.
From Stdlib Require Import DecimalString DecimalN DecimalPos.
Import ListNotations.

Local Open Scope string_scope.
Local Open Scope Z_scope.

(* ===================================================================== *)
(** ** Python values and exceptions *)
(* ===================================================================== *)

(** The exceptions the modelled code can meet. [DuckDBError] stands for
    whatever [conn.execute] raises. *)
Inductive db_error : Type :=
| ConnectionClosed
| ConstraintViolation
| ConversionError.

Inductive exn : Type :=
| ValueError
| AttributeError
| TypeError
| ZeroDivisionError
| DuckDBError (e : db_error).

(** The result of running a block of Python: a value or a raised
    exception. *)
Inductive outcome (A : Type) : Type :=
| Ok (a : A)
| Raise (e : exn).
Arguments Ok {A} a.
Arguments Raise {A} e.

Definition bind {A B : Type} (c : outcome A) (k : A -> outcome B) : outcome B :=
  match c with
  | Ok a => k a
  | Raise e => Raise e
  end.

Declare Scope py_scope.
Delimit Scope py_scope with py.
Notation "x <- c ;; k" := (bind c (fun x => k))
  (at level 61, c at next level, right associativity) : py_scope.
Notation "' pat <- c ;; k" := (bind c (fun x => match x with pat => k end))
  (at level 61, pat pattern, c at next level, right associativity) : py_scope.

(* ===================================================================== *)
(** ** Binary64 floats *)
(* ===================================================================== *)

Module PyFloat.

Definition prec : Z := 53.
Definition emax : Z := 1024.

Definition float : Type := spec_float.

Definition add : float -> float -> float := SFadd prec emax.
Definition sub : float -> float -> float := SFsub prec emax.
Definition mul : float -> float -> float := SFmul prec emax.
Definition div : float -> float -> float := SFdiv prec emax.
Definition abs : float -> float := SFabs.
Definition leb : float -> float -> bool := SFleb.
Definition ltb : float -> float -> bool := SFltb.

(** [float(n)] for an integer [n]. *)
Definition of_Z (n : Z) : float := binary_normalize prec emax n 0 false.

Definition nan : float := S754_nan.

Definition is_nan (x : float) : bool :=
  match x with S754_nan => true | _ => false end.

(** [x == 0]: true of both zeros. *)
Definition is_zero (x : float) : bool :=
  match x with S754_zero _ => true | _ => false end.

(** Truth value of a float: [bool(x)] is [x != 0] (a NaN is true). *)
Definition truthy (x : float) : bool := negb (is_zero x).

(** [a / b] in Python: a zero divisor raises. *)
Definition truediv (a b : float) : outcome float :=
  if is_zero b then Raise ZeroDivisionError else Ok (div a b).

(** Round [p / q] to the nearest integer, ties to even ([0 < q]). *)
Definition rne (p q : Z) : Z :=
  let d := p / q in
  match 2 * (p mod q) ?= q with
  | Lt => d
  | Gt => d + 1
  | Eq => if Z.even d then d else d + 1
  end.

(** Where [p / q] stands between the integers around it ([0 < q]). *)
Definition loc_of (p q : Z) : location :=
  if p mod q =? 0 then loc_Exact else loc_Inexact (2 * (p mod q) ?= q).

(** The float of sign [s], mantissa [m] and exponent [e], infinite when
    the exponent is beyond the format. *)
Definition pack (s : bool) (m e : Z) : float :=
  match m with
  | 0 => S754_zero s
  | Z.pos p => if e <=? emax - prec then S754_finite s p e else S754_infinity s
  | Z.neg _ => S754_nan
  end.

(** The same, for a rounded mantissa that may have reached [2^prec]. *)
Definition pack_carry (s : bool) (m e : Z) : float :=
  if m <? 2 ^ prec then pack s m e else pack s (2 ^ (prec - 1)) (e + 1).

(** [p / q] scaled by [2^(-e)], as a quotient of integers: its floor
    and its rounding to nearest even. *)
Definition scaled_floor (p q e : Z) : Z :=
  (p * 2 ^ Z.max 0 (- e)) / (q * 2 ^ Z.max 0 e).

Definition scaled_rne (p q e : Z) : Z :=
  rne (p * 2 ^ Z.max 0 (- e)) (q * 2 ^ Z.max 0 e).

(** [e] is the exponent of the binade of [p / q]: the mantissa of
    [p / q] at [e] has [prec] bits. *)
Definition binade (p q e : Z) : Prop :=
  2 ^ (prec - 1) <= scaled_floor p q e < 2 ^ prec.

(** A shifted mantissa with its round and sticky bits stands for the
    quotient [p / q]. *)
Definition represents (x : shr_record) (p q : Z) : Prop :=
  shr_m x = p / q /\ loc_of_shr_record x = loc_of p q.

(** The binary64 nearest to [(-1)^s * p / q], for [0 <= p] and [0 < q]:
    the quotient with its rounding position, then [SpecFloat]'s rounding. *)
Definition div_round (s : bool) (p q : Z) : float :=
  match p with
  | 0 => S754_zero s
  | _ => let '(mz, ez, lz) := SFdiv_core_binary prec emax p 0 q 0 in
         binary_round_aux prec emax s mz ez lz
  end.

(** The binary64 nearest to [(-1)^s * m * 10^e], for [0 <= m]. *)
Definition of_decimal (s : bool) (m e : Z) : float :=
  if 0 <=? e
  then binary_normalize prec emax (cond_Zopp s (m * 10 ^ e)) 0 s
  else div_round s m (10 ^ (- e)).

End PyFloat.

(* ===================================================================== *)
(** ** Strings: [str.replace], [float(str)] and the [.2f] format *)
(* ===================================================================== *)

Module PyStr.

(** [s.replace(c, '')] for a one-character [c]: every occurrence goes. *)
Fixpoint remove_char (c : ascii) (s : string) : string :=
  match s with
  | EmptyString => EmptyString
  | String a r =>
      if Ascii.eqb a c then remove_char c r else String a (remove_char c r)
  end.

Definition is_digit (a : ascii) : bool :=
  let n := N_of_ascii a in (48 <=? n)%N && (n <=? 57)%N.

Definition digit_val (a : ascii) : Z := Z.of_N (N_of_ascii a) - 48.

(** Whitespace that [float] strips at both ends of an ASCII text: tab,
    line feed, vertical tab, form feed, carriage return and space. *)
Definition is_space (a : ascii) : bool :=
  let n := N_of_ascii a in
  ((9 <=? n)%N && (n <=? 13)%N) || (n =? 32)%N.

Fixpoint lstrip (s : string) : string :=
  match s with
  | String a r => if is_space a then lstrip r else s
  | EmptyString => EmptyString
  end.

(** [rstrip] keeps a character when it or something after it is not
    whitespace. *)
Fixpoint rstrip (s : string) : string :=
  match s with
  | EmptyString => EmptyString
  | String a r =>
      match rstrip r with
      | EmptyString => if is_space a then EmptyString else String a EmptyString
      | r' => String a r'
      end
  end.

Definition strip (s : string) : string := rstrip (lstrip s).

(** Digit-group underscores: one is legal only between two digits. The
    result is the text without them. [prev_digit] tells whether the
    character before is a digit, [prev_us] whether it is an underscore. *)
Fixpoint drop_underscores (prev_digit prev_us : bool) (s : string)
  : option string :=
  match s with
  | EmptyString => if prev_us then None else Some EmptyString
  | String a r =>
      if Ascii.eqb a "_"%char
      then if prev_digit then drop_underscores false true r else None
      else if prev_us && negb (is_digit a) then None
      else option_map (String a) (drop_underscores (is_digit a) false r)
  end.

(** The longest prefix of digits, as the number it denotes (starting from
    [acc]), the count of digits read, and the rest. *)
Fixpoint read_digits (acc : Z) (n : Z) (s : string) : Z * Z * string :=
  match s with
  | String a r =>
      if is_digit a then read_digits (10 * acc + digit_val a) (n + 1) r
      else (acc, n, s)
  | EmptyString => (acc, n, s)
  end.

Definition read_sign (s : string) : bool * string :=
  match s with
  | String "-"%char r => (true, r)
  | String "+"%char r => (false, r)
  | _ => (false, s)
  end.

Definition lower (a : ascii) : ascii :=
  let n := N_of_ascii a in
  if (65 <=? n)%N && (n <=? 90)%N then ascii_of_N (n + 32) else a.

Fixpoint lowercase (s : string) : string :=
  match s with
  | EmptyString => EmptyString
  | String a r => String (lower a) (lowercase r)
  end.

(** The exponent part, after the mantissa: nothing, or [e], a sign and at
    least one digit up to the end of the text. *)
Definition read_exponent (s : string) : option Z :=
  match s with
  | EmptyString => Some 0
  | String a r =>
      if Ascii.eqb (lower a) "e"%char then
        let '(neg, r1) := read_sign r in
        match read_digits 0 0 r1 with
        | (v, n, EmptyString) =>
            if n =? 0 then None else Some (if neg then - v else v)
        | _ => None
        end
      else None
  end.

(** The number after the sign: [inf], [infinity], [nan] in any case, or
    digits with an optional point and exponent, at least one digit in the
    mantissa. *)
Definition read_number (neg : bool) (s : string) : option PyFloat.float :=
  let l := lowercase s in
  if String.eqb l "inf" || String.eqb l "infinity" then Some (S754_infinity neg)
  else if String.eqb l "nan" then Some S754_nan
  else
    let '(ip, ni, r1) := read_digits 0 0 s in
    let '(m, nf, r2) :=
      match r1 with
      | String "."%char r => read_digits ip 0 r
      | _ => (ip, 0, r1)
      end in
    if ni + nf =? 0 then None
    else match read_exponent r2 with
         | Some e => Some (PyFloat.of_decimal neg m (e - nf))
         | None => None
         end.

(** [float(s)]: [None] stands for the [ValueError] of a text that is not a
    number. *)
Definition parse_float (s : string) : option PyFloat.float :=
  match drop_underscores false false (strip s) with
  | Some t => let '(neg, r) := read_sign t in read_number neg r
  | None => None
  end.

Definition float_of_str (s : string) : outcome PyFloat.float :=
  match parse_float s with
  | Some x => Ok x
  | None => Raise ValueError
  end.

(** Decimal digits of a natural number, ["0"] for zero. *)
Definition decimal (n : Z) : string :=
  NilZero.string_of_uint (N.to_uint (Z.to_N n)).

Definition digit_char (d : Z) : ascii := ascii_of_N (Z.to_N (48 + d)).

Definition two_digits (n : Z) : string :=
  String (digit_char (n / 10)) (String (digit_char (n mod 10)) EmptyString).

Definition sign_str (s : bool) : string := if s then "-" else "".

(** Hundredths nearest to [m * 2^e], ties to even. *)
Definition cents_of (m : positive) (e : Z) : Z :=
  if 0 <=? e then 100 * Z.pos m * 2 ^ e
  else PyFloat.rne (100 * Z.pos m) (2 ^ (- e)).

(** The text of a count of hundredths: ["123.45"] for [12345]. *)
Definition fixed2 (c : Z) : string :=
  decimal (c / 100) ++ "." ++ two_digits (c mod 100).

(** [format(x, '.2f')], the [{x:.2f}] of an f-string. *)
Definition format_2f (x : PyFloat.float) : string :=
  match x with
  | S754_nan => "nan"
  | S754_infinity s => sign_str s ++ "inf"
  | S754_zero s => sign_str s ++ "0.00"
  | S754_finite s m e => sign_str s ++ fixed2 (cents_of m e)
  end.

(** No digit follows: the text is over or goes on with something else. *)
Definition stops (s : string) : Prop :=
  match s with
  | EmptyString => True
  | String a _ => is_digit a = false
  end.

(** Every character of [s] passes the test [f]. *)
Fixpoint all_chars (f : ascii -> bool) (s : string) : bool :=
  match s with
  | EmptyString => true
  | String a r => f a && all_chars f r
  end.

(** The characters of a number in fixed notation: digits and the point. *)
Definition is_plain (a : ascii) : bool := is_digit a || Ascii.eqb a "."%char.

(** [sep.join(xs)]. *)
Fixpoint join (sep : string) (xs : list string) : string :=
  match xs with
  | [] => ""
  | [x] => x
  | x :: r => x ++ sep ++ join sep r
  end.

End PyStr.

(* ===================================================================== *)
(** ** Cells and frames *)
(* ===================================================================== *)

(** A cell of a [DataFrame] column of objects: [None], a float or a
    string. *)
Inductive pyval : Type :=
| PNone
| PFloat (x : PyFloat.float)
| PStr (s : string).

(** [pd.isna(v)]: [None] and NaN are missing, a string never is. *)
Definition isna (v : pyval) : bool :=
  match v with
  | PNone => true
  | PFloat x => PyFloat.is_nan x
  | PStr _ => false
  end.

Definition notna (v : pyval) : bool := negb (isna v).

(** [v.replace(c, '')]: only a string has the method. *)
Definition str_replace (v : pyval) (c : ascii) : outcome string :=
  match v with
  | PStr s => Ok (PyStr.remove_char c s)
  | _ => Raise AttributeError
  end.

(** A row of the frame that [get_stock_status] builds and that
    [get_latest_data] returns; [q_timestamp] is the [timestamp] column of
    the latter. The name and the sources are strings or missing, the
    other cells are objects. *)
Record quote_row : Type := mk_quote_row {
  q_timestamp : option Z;
  q_Symbol : string;
  q_Company : option string;
  q_Current_Price : pyval;
  q_Previous_Close : pyval;
  q_Daily_Change : pyval;
  q_Sources : option string
}.

Inductive level : Type := DEBUG | INFO | WARNING | ERROR.

(* ===================================================================== *)
(** ** [stock_monitor.py]: the aggregator *)
(* ===================================================================== *)

Module StockMonitor.

Import PyFloat.

(** What a client returns for a symbol, per [StockDataClient]:
    [{'price': float, 'prev_close': float, 'company_name': str}], where a
    price can be [None]. *)
Record reading : Type := mk_reading {
  price : option float;
  prev_close : option float;
  company_name : string
}.

Inductive event : Type :=
| No_valid_prices
| No_valid_previous_close
| Calculated_average (avg_price avg_prev_close : float)
| Error_calculating_average (e : exn)
| Cannot_calculate_daily_change
| Calculated_daily_change (daily_change : float)
| Error_calculating_daily_change (e : exn)
| No_data_sources (symbol : string)
| Processed (symbol : string).

Definition level_of (e : event) : level :=
  match e with
  | No_valid_prices | No_valid_previous_close
  | Cannot_calculate_daily_change | No_data_sources _ => WARNING
  | Calculated_average _ _ | Calculated_daily_change _ => DEBUG
  | Error_calculating_average _ | Error_calculating_daily_change _ => ERROR
  | Processed _ => INFO
  end.

(** Truth value of an optional float: [None] and zero are false. *)
Definition truthy_opt (v : option float) : bool :=
  match v with
  | Some x => truthy x
  | None => false
  end.

(** [v == 0] for an optional float: [None == 0] is false. *)
Definition eq_zero (v : option float) : bool :=
  match v with
  | Some x => is_zero x
  | None => false
  end.

(** [sum(xs)]: from the integer [0], left to right. (From Python 3.12
    [sum] carries a correction term along; with up to two floats, which is
    what two clients give, the result is the same.) *)
Definition sum (xs : list float) : float := fold_left add xs (of_Z 0).

(** One turn of the loop of [calculate_average_price]: [data] is an entry
    of [data_sources], [None] for an entry that is [None]. *)
Definition collect (acc : list float * list float) (data : option reading)
  : list float * list float :=
  let '(prices, prev_closes) := acc in
  let prices :=
    match data with
    | Some d => match price d with
                | Some p => if truthy p then (prices ++ [p])%list else prices
                | None => prices
                end
    | None => prices
    end in
  let prev_closes :=
    match data with
    | Some d => match prev_close d with
                | Some p => if truthy p then (prev_closes ++ [p])%list else prev_closes
                | None => prev_closes
                end
    | None => prev_closes
    end in
  (prices, prev_closes).

(** The [try] block of [calculate_average_price]. *)
Definition average_price_body (data_sources : list (option reading))
  : outcome ((option float * option float) * list event) :=
  let '(prices, prev_closes) := fold_left collect data_sources ([], []) in
  match prices with
  | [] => Ok ((None, None), [No_valid_prices])
  | _ =>
      match prev_closes with
      | [] => Ok ((None, None), [No_valid_previous_close])
      | _ =>
          (avg_price <-
             truediv (sum prices) (of_Z (Z.of_nat (List.length prices))) ;;
           avg_prev_close <-
             truediv (sum prev_closes)
                     (of_Z (Z.of_nat (List.length prev_closes))) ;;
           Ok ((Some avg_price, Some avg_prev_close),
               [Calculated_average avg_price avg_prev_close]))%py
      end
  end.

Definition calculate_average_price (data_sources : list (option reading))
  : (option float * option float) * list event :=
  match average_price_body data_sources with
  | Ok r => r
  | Raise e => ((None, None), [Error_calculating_average e])
  end.

(** The [try] block of [calculate_daily_change]. *)
Definition daily_change_body (current_price prev_close : option float)
  : outcome (option float * list event) :=
  if negb (truthy_opt current_price) || negb (truthy_opt prev_close)
     || eq_zero prev_close
  then Ok (None, [Cannot_calculate_daily_change])
  else
    match current_price, prev_close with
    | Some cp, Some pc =>
        (q <- truediv (sub cp pc) pc ;;
         let daily_change := mul q (of_Z 100) in
         Ok (Some daily_change, [Calculated_daily_change daily_change]))%py
    | _, _ => Raise TypeError
    end.

Definition calculate_daily_change (current_price prev_close : option float)
  : option float * list event :=
  match daily_change_body current_price prev_close with
  | Ok r => r
  | Raise e => (None, [Error_calculating_daily_change e])
  end.

Definition na : pyval := PStr "N/A".

(** The body of the loop of [get_stock_status] for one symbol, once the
    clients have answered: [data_sources] holds the answers that are not
    empty and [source_names] the names of their clients. *)
Definition stock_status_row (symbol : string) (data_sources : list reading)
    (source_names : list string) : quote_row * list event :=
  match data_sources with
  | [] =>
      (mk_quote_row None symbol (Some "N/A") na na na (Some "N/A"),
       [No_data_sources symbol])
  | _ =>
      let '((avg_price, avg_prev_close), log1) :=
        calculate_average_price (map Some data_sources) in
      let '(daily_change, log2) :=
        calculate_daily_change avg_price avg_prev_close in
      let company :=
        match find (fun d => negb (String.eqb (company_name d) "N/A"))
                   data_sources with
        | Some d => company_name d
        | None => "N/A"
        end in
      (mk_quote_row None symbol (Some company)
         (match avg_price with
          | Some p => if truthy p then PStr ("$" ++ PyStr.format_2f p) else na
          | None => na
          end)
         (match avg_prev_close with
          | Some p => if truthy p then PStr ("$" ++ PyStr.format_2f p) else na
          | None => na
          end)
         (match daily_change with
          | Some d => PStr (PyStr.format_2f d ++ "%")
          | None => na
          end)
         (match source_names with
          | [] => Some "N/A"
          | _ => Some (PyStr.join " + " source_names)
          end),
       (log1 ++ log2 ++ [Processed symbol])%list)
  end.

End StockMonitor.

(* ===================================================================== *)
(** ** [utils/data_storage.py]: the snapshot store *)
(* ===================================================================== *)

Module DataStorage.

Import PyFloat.

(** A row of the table [stock_snapshots]. A [TIMESTAMP] is a count of
    microseconds since the epoch; a [DECIMAL(w,2)] is a count of
    hundredths; a column outside the primary key can hold [NULL]. *)
Record snapshot : Type := mk_snapshot {
  timestamp : Z;
  symbol : string;
  company : option string;
  current_price : option Z;
  previous_close : option Z;
  daily_change : option Z;
  sources : option string
}.

(** The DuckDB connection: whether it can run a statement, and the table
    behind it. *)
Record connection : Type := mk_connection {
  is_open : bool;
  stock_snapshots : list snapshot
}.

(** The fields of a [StockDataStorage] that the methods read. *)
Record StockDataStorage : Type := mk_storage {
  price_change_threshold : float;
  conn : connection
}.

Inductive event : Type :=
| Saved_stock_data (ts : Z)
| Error_saving_stock_data (e : exn)
| Retrieved_latest_data
| Error_retrieving_latest_data (e : exn)
| Retrieved_daily_summary (date : Z)
| Error_retrieving_daily_summary (e : exn)
| No_previous_data
| Could_not_convert (sym : string)
| Error_processing_comparison (sym : string) (e : exn)
| Compared
| Analyzed (total : Z)
| Error_analyzing (e : exn).

Definition level_of (e : event) : level :=
  match e with
  | Saved_stock_data _ | Retrieved_latest_data | Retrieved_daily_summary _
  | No_previous_data | Compared | Analyzed _ => INFO
  | Could_not_convert _ => WARNING
  | Error_saving_stock_data _ | Error_retrieving_latest_data _
  | Error_retrieving_daily_summary _ | Error_processing_comparison _ _
  | Error_analyzing _ => ERROR
  end.

(** *** The table and its primary key *)

Definition same_key (a b : snapshot) : bool :=
  (timestamp a =? timestamp b) && String.eqb (symbol a) (symbol b).

(** [PRIMARY KEY (timestamp, symbol)]: no two rows share both. *)
Fixpoint pk_unique (rows : list snapshot) : bool :=
  match rows with
  | [] => true
  | r :: rest => negb (existsb (same_key r) rest) && pk_unique rest
  end.

(** The table after an [INSERT] of [new], when the primary key allows
    it. *)
Definition append_rows (c : connection) (new : list snapshot)
  : outcome connection :=
  let rows := (stock_snapshots c ++ new)%list in
  if pk_unique rows then Ok (mk_connection (is_open c) rows)
  else Raise (DuckDBError ConstraintViolation).

(** *** [get_latest_data] *)

(** [SELECT MAX(timestamp)]: [NULL] on an empty table. *)
Definition max_timestamp (rows : list snapshot) : option Z :=
  fold_left (fun acc r => match acc with
                          | None => Some (timestamp r)
                          | Some m => Some (Z.max m (timestamp r))
                          end) rows None.

(** The text of a [DECIMAL(w,2)] value. *)
Definition decimal_text (v : Z) : string :=
  PyStr.sign_str (v <? 0) ++ PyStr.fixed2 (Z.abs v).

(** [CONCAT] skips a [NULL] argument. *)
Definition concat_text (v : option Z) : string :=
  match v with
  | Some d => decimal_text d
  | None => ""
  end.

(** The [SELECT] list of [get_latest_data]. *)
Definition latest_row (r : snapshot) : quote_row :=
  mk_quote_row (Some (timestamp r)) (symbol r) (company r)
    (PStr ("$" ++ concat_text (current_price r)))
    (PStr ("$" ++ concat_text (previous_close r)))
    (PStr (concat_text (daily_change r) ++ "%"))
    (sources r).

(** [WHERE timestamp = (SELECT max_ts FROM latest_timestamp)]: a
    comparison with [NULL] holds of no row. *)
Definition is_latest (max_ts : option Z) (r : snapshot) : bool :=
  match max_ts with
  | Some m => timestamp r =? m
  | None => false
  end.

Definition execute_latest (c : connection) : outcome (list quote_row) :=
  if negb (is_open c) then Raise (DuckDBError ConnectionClosed)
  else
    let rows := stock_snapshots c in
    Ok (map latest_row (filter (is_latest (max_timestamp rows)) rows)).

Definition get_latest_data (self : StockDataStorage)
  : option (list quote_row) * list event :=
  match execute_latest (conn self) with
  | Ok df => (Some df, [Retrieved_latest_data])
  | Raise e => (None, [Error_retrieving_latest_data e])
  end.

(** *** [save_stock_data] *)

Fixpoint map_outcome {A B : Type} (f : A -> outcome B) (xs : list A)
  : outcome (list B) :=
  match xs with
  | [] => Ok []
  | x :: r => (y <- f x ;; ys <- map_outcome f r ;; Ok (y :: ys))%py
  end.

Definition is_str (v : pyval) : bool :=
  match v with PStr _ => true | _ => false end.

Definition is_none (v : pyval) : bool :=
  match v with PNone => true | _ => false end.

(** [col.str.replace(c, '').astype(float)], the pattern being literal.
    The accessor [.str] needs a column of strings (some cells may be
    missing) and raises on a column of numbers; a cell that is not a string
    becomes NaN; [astype] applies [float] to every string. *)
Definition column_to_float (c : ascii) (col : list pyval)
  : outcome (list float) :=
  if existsb is_str col || forallb is_none col
  then map_outcome (fun v => match v with
                             | PStr s => PyStr.float_of_str (PyStr.remove_char c s)
                             | _ => Ok nan
                             end) col
  else Raise AttributeError.

Section Save.

(** The cast of a [DOUBLE] to [DECIMAL(w,2)] that the [INSERT] applies,
    given the width [w]: a count of hundredths, [NULL], or an error for a
    value the column cannot hold. It is DuckDB's, not this program's; the
    model takes it as it comes. *)
Variable cast_decimal : Z -> float -> outcome (option Z).

(** The three columns that [save_stock_data] adds to [df] before the
    [INSERT], each converted as a whole. *)
Definition numeric_columns (df : list quote_row)
  : outcome (list float * list float * list float) :=
  (cp <- column_to_float "$" (map q_Current_Price df) ;;
   pc <- column_to_float "$" (map q_Previous_Close df) ;;
   dc <- column_to_float "%" (map q_Daily_Change df) ;;
   Ok (cp, pc, dc))%py.

(** [conn.execute] of the [INSERT ... SELECT ... FROM df]: it needs the
    connection, casts every row to the types of the table and appends the
    rows. The statement is atomic: it appends every row, or it raises and
    leaves the table as it was. *)
Definition execute_insert (c : connection) (ts : Z) (df : list quote_row)
    (cols : list float * list float * list float) : outcome connection :=
  let '(cp, pc, dc) := cols in
  if negb (is_open c) then Raise (DuckDBError ConnectionClosed)
  else
    (rows <- map_outcome
       (fun '(r, (x, (y, z))) =>
          x' <- cast_decimal 10 x ;;
          y' <- cast_decimal 10 y ;;
          z' <- cast_decimal 5 z ;;
          Ok (mk_snapshot ts (q_Symbol r) (q_Company r) x' y' z'
                (q_Sources r)))
       (combine df (combine cp (combine pc dc))) ;;
     append_rows c rows)%py.

(** The [try] block of [save_stock_data]: the conversions of the columns,
    then the [INSERT]. *)
Definition save_attempt (self : StockDataStorage) (df : list quote_row)
    (ts : Z) : outcome connection :=
  (cols <- numeric_columns df ;; execute_insert (conn self) ts df cols)%py.

(** [save_stock_data(df, timestamp)], with [now] for [datetime.now()]. The
    first component is how the call ends for its caller: the method has no
    [return], and its handler logs the exception and ends. The columns that
    the method adds to the frame of its caller are left out. *)
Definition save_stock_data (self : StockDataStorage) (df : list quote_row)
    (timestamp : option Z) (now : Z)
  : outcome unit * StockDataStorage * list event :=
  let ts := match timestamp with Some t => t | None => now end in
  match save_attempt self df ts with
  | Ok c => (Ok tt, mk_storage (price_change_threshold self) c,
             [Saved_stock_data ts])
  | Raise e => (Ok tt, self, [Error_saving_stock_data e])
  end.

End Save.

(** *** The view [daily_summary] and [get_daily_summary] *)

(** [CAST(timestamp AS DATE)]: the day, counted from the epoch. *)
Definition date_of (ts : Z) : Z := ts / 86400000000.

(** [PARTITION BY CAST(timestamp AS DATE), symbol]. *)
Definition same_partition (a b : snapshot) : bool :=
  (date_of (timestamp a) =? date_of (timestamp b))
  && String.eqb (symbol a) (symbol b).

Definition count {A : Type} (f : A -> bool) (xs : list A) : Z :=
  Z.of_nat (List.length (filter f xs)).

(** [ROW_NUMBER() OVER (PARTITION BY ... ORDER BY timestamp)] of the row
    [r] that stands between [before] and [after] in the table: one more
    than the rows of its partition sorted before it. Rows of equal
    timestamp keep the order of the table; the primary key leaves none in
    a partition. *)
Definition rn_asc (before after : list snapshot) (r : snapshot) : Z :=
  1 + count (fun x => same_partition x r && (timestamp x <=? timestamp r)) before
    + count (fun x => same_partition x r && (timestamp x <? timestamp r)) after.

(** The same with [ORDER BY timestamp DESC]. *)
Definition rn_desc (before after : list snapshot) (r : snapshot) : Z :=
  1 + count (fun x => same_partition x r && (timestamp r <=? timestamp x)) before
    + count (fun x => same_partition x r && (timestamp r <? timestamp x)) after.

Record ranked : Type := mk_ranked {
  row : snapshot;
  asc : Z;
  desc : Z
}.

(** The common table expression [ranked_data]. *)
Fixpoint ranked_from (before rest : list snapshot) : list ranked :=
  match rest with
  | [] => []
  | r :: after =>
      mk_ranked r (rn_asc before after r) (rn_desc before after r)
      :: ranked_from (before ++ [r])%list after
  end.

Definition ranked_data (rows : list snapshot) : list ranked :=
  ranked_from [] rows.

(** [GROUP BY date, symbol, company, sources]; two [NULL]s fall in one
    group. *)
Definition group_key : Type := Z * string * option string * option string.

Definition key_of (x : ranked) : group_key :=
  (date_of (timestamp (row x)), symbol (row x), company (row x),
   sources (row x)).

Definition opt_eqb (a b : option string) : bool :=
  match a, b with
  | Some x, Some y => String.eqb x y
  | None, None => true
  | _, _ => false
  end.

Definition key_eqb (a b : group_key) : bool :=
  let '(da, sa, ca, oa) := a in
  let '(db, sb, cb, ob) := b in
  (da =? db) && String.eqb sa sb && opt_eqb ca cb && opt_eqb oa ob.

(** The keys, each once, in the order of their first row. *)
Fixpoint distinct (ks : list group_key) : list group_key :=
  match ks with
  | [] => []
  | k :: r => k :: filter (fun k' => negb (key_eqb k k')) (distinct r)
  end.

(** [MAX], [MIN] and [AVG] skip [NULL] and are [NULL] when nothing is
    left. *)
Definition max_opt (a v : option Z) : option Z :=
  match a, v with
  | None, _ => v
  | _, None => a
  | Some x, Some y => Some (Z.max x y)
  end.

Definition min_opt (a v : option Z) : option Z :=
  match a, v with
  | None, _ => v
  | _, None => a
  | Some x, Some y => Some (Z.min x y)
  end.

Definition sql_max (xs : list (option Z)) : option Z := fold_left max_opt xs None.
Definition sql_min (xs : list (option Z)) : option Z := fold_left min_opt xs None.

Definition non_null (xs : list (option Z)) : list Z :=
  flat_map (fun v => match v with Some x => [x] | None => [] end) xs.

(** [AVG] of a [DECIMAL(w,2)] column is a [DOUBLE]: the sum of the
    hundredths, as a double, over the count times one hundred. *)
Definition sql_avg (xs : list (option Z)) : option float :=
  match non_null xs with
  | [] => None
  | vs => Some (div (of_Z (fold_left Z.add vs 0))
                    (mul (of_Z (Z.of_nat (List.length vs))) (of_Z 100)))
  end.

(** [CASE WHEN c THEN v END]. *)
Definition case_when (c : bool) (v : option Z) : option Z :=
  if c then v else None.

(** A row of the view [daily_summary]. *)
Record rollup : Type := mk_rollup {
  date : Z;
  r_symbol : string;
  r_company : option string;
  opening_price : option Z;
  closing_price : option Z;
  high_price : option Z;
  low_price : option Z;
  average_price : option float;
  opening_change : option Z;
  closing_change : option Z;
  r_sources : option string
}.

(** The [SELECT] list of the view over the rows of one group. *)
Definition summarize (k : group_key) (g : list ranked) : rollup :=
  let '(d, s, c, o) := k in
  mk_rollup d s c
    (sql_max (map (fun x => case_when (asc x =? 1) (current_price (row x))) g))
    (sql_max (map (fun x => case_when (desc x =? 1) (current_price (row x))) g))
    (sql_max (map (fun x => current_price (row x)) g))
    (sql_min (map (fun x => current_price (row x)) g))
    (sql_avg (map (fun x => current_price (row x)) g))
    (sql_max (map (fun x => case_when (asc x =? 1) (daily_change (row x))) g))
    (sql_max (map (fun x => case_when (desc x =? 1) (daily_change (row x))) g))
    o.

Definition group (k : group_key) (xs : list ranked) : list ranked :=
  filter (fun x => key_eqb (key_of x) k) xs.

(** The view [daily_summary] over the table. *)
Definition daily_summary (rows : list snapshot) : list rollup :=
  let rd := ranked_data rows in
  map (fun k => summarize k (group k rd)) (distinct (map key_of rd)).

(** A row of the frame of [get_daily_summary]. *)
Record summary_row : Type := mk_summary_row {
  s_Symbol : string;
  s_Company : option string;
  s_Opening_Price : string;
  s_Closing_Price : string;
  s_High_Price : string;
  s_Low_Price : string;
  s_Average_Price : string;
  s_Opening_Change : string;
  s_Closing_Change : string;
  s_Sources : option string
}.

Section Summary.

(** The text of a [DOUBLE] in a [CONCAT], DuckDB's. *)
Variable varchar_of_double : float -> string.

Definition summary_of (r : rollup) : summary_row :=
  mk_summary_row (r_symbol r) (r_company r)
    ("$" ++ concat_text (opening_price r))
    ("$" ++ concat_text (closing_price r))
    ("$" ++ concat_text (high_price r))
    ("$" ++ concat_text (low_price r))
    ("$" ++ match average_price r with
            | Some a => varchar_of_double a
            | None => ""
            end)
    (concat_text (opening_change r) ++ "%")
    (concat_text (closing_change r) ++ "%")
    (r_sources r).

(** [get_daily_summary(date)]; [day] is [date.date()], of the argument or
    of [datetime.now()]. *)
Definition get_daily_summary (self : StockDataStorage) (day : Z)
  : option (list summary_row) * list event :=
  if is_open (conn self)
  then (Some (map summary_of
                (filter (fun r => date r =? day)
                        (daily_summary (stock_snapshots (conn self))))),
        [Retrieved_daily_summary day])
  else (None, [Error_retrieving_daily_summary (DuckDBError ConnectionClosed)]).

End Summary.

(** *** [compare_with_previous] *)

(** A row of the comparison frame: the current row and the four columns
    that [compare_with_previous] adds. *)
Record comparison_row : Type := mk_comparison_row {
  current : quote_row;
  Previous_Price : pyval;
  Price_Change : pyval;
  Previous_Daily_Change : pyval;
  Change_in_Daily_Change : pyval
}.

Definition Symbol (r : comparison_row) : string := q_Symbol (current r).
Definition Company (r : comparison_row) : option string := q_Company (current r).
Definition Current_Price (r : comparison_row) : pyval := q_Current_Price (current r).
Definition Daily_Change (r : comparison_row) : pyval := q_Daily_Change (current r).

(** The helper [safe_price_convert]; [Ok None] is its [return None]. *)
Definition safe_price_convert (price_str : pyval) : outcome (option float) :=
  match price_str with
  | PFloat x => Ok (Some x)
  | PStr s =>
      (x <- PyStr.float_of_str
              (PyStr.remove_char "," (PyStr.remove_char "$" s)) ;;
       Ok (Some x))%py
  | PNone => Ok None
  end.

(** The helper [safe_percent_convert]. *)
Definition safe_percent_convert (percent_str : pyval) : outcome (option float) :=
  match percent_str with
  | PFloat x => Ok (Some x)
  | PStr s =>
      (x <- PyStr.float_of_str
              (PyStr.remove_char "," (PyStr.remove_char "%" s)) ;;
       Ok (Some x))%py
  | PNone => Ok None
  end.

(** The columns start as [None]. *)
Definition unset (r : quote_row) : comparison_row :=
  mk_comparison_row r PNone PNone PNone PNone.

(** The inner [try] of the loop: the four conversions, then the four
    texts when each conversion gave a value. [Ok None] is the [else] of
    the [if all(...)]. *)
Definition compared_fields (prev_row r : quote_row)
  : outcome (option comparison_row) :=
  (prev_price <- safe_price_convert (q_Current_Price prev_row) ;;
   prev_daily_change <- safe_percent_convert (q_Daily_Change prev_row) ;;
   current_price <- safe_price_convert (q_Current_Price r) ;;
   current_daily_change <- safe_percent_convert (q_Daily_Change r) ;;
   match prev_price, current_price, prev_daily_change, current_daily_change with
   | Some pp, Some cp, Some pd, Some cd =>
       let price_change := sub cp pp in
       let daily_change_diff := sub cd pd in
       Ok (Some (mk_comparison_row r
                   (PStr ("$" ++ PyStr.format_2f pp))
                   (PStr ("$" ++ PyStr.format_2f price_change))
                   (PStr (PyStr.format_2f pd ++ "%"))
                   (PStr (PyStr.format_2f daily_change_diff ++ "%"))))
   | _, _, _, _ => Ok None
   end)%py.

(** The body of the loop for one row of the current frame. *)
Definition compare_row (previous_df : list quote_row) (r : quote_row)
  : comparison_row * list event :=
  match find (fun p => String.eqb (q_Symbol p) (q_Symbol r)) previous_df with
  | None => (unset r, [])
  | Some prev_row =>
      match compared_fields prev_row r with
      | Ok (Some c) => (c, [])
      | Ok None => (unset r, [Could_not_convert (q_Symbol r)])
      | Raise e => (unset r, [Error_processing_comparison (q_Symbol r) e])
      end
  end.

Definition compare_with_previous (self : StockDataStorage)
    (current_df : list quote_row)
  : option (list comparison_row) * list event :=
  let '(previous, log1) := get_latest_data self in
  match previous with
  | None => (None, log1 ++ [No_previous_data])%list
  | Some previous_df =>
      let out := map (compare_row previous_df) current_df in
      (Some (map fst out),
       log1 ++ flat_map snd out ++ [Compared])%list
  end.

(** *** [analyze_price_changes] *)

(** An entry of [alerts['significant_changes']]. *)
Record price_alert : Type := mk_price_alert {
  pa_symbol : string;
  pa_company : option string;
  pa_current_price : float;
  pa_previous_price : float;
  change_pct : float;
  direction : string
}.

(** An entry of [alerts['daily_change_alerts']]. *)
Record daily_alert : Type := mk_daily_alert {
  da_symbol : string;
  da_company : option string;
  current_daily_change : float;
  previous_daily_change : float;
  change_diff : float
}.

(** The dictionary [alerts]; the last four fields are its ['summary']. *)
Record alerts : Type := mk_alerts {
  significant_changes : list price_alert;
  daily_change_alerts : list daily_alert;
  total_symbols : Z;
  n_significant_changes : Z;
  positive_changes : Z;
  negative_changes : Z
}.

(** [float(v.replace(c, ''))]. *)
Definition to_float (v : pyval) (c : ascii) : outcome float :=
  (s <- str_replace v c ;; PyStr.float_of_str s)%py.

(** The first half of the loop body: the price alert. *)
Definition check_price (threshold : float) (a : alerts) (r : comparison_row)
  : outcome alerts :=
  (current_price <- to_float (Current_Price r) "$" ;;
   previous_price <- to_float (Previous_Price r) "$" ;;
   q <- truediv (sub current_price previous_price) previous_price ;;
   let price_change_pct := mul q (of_Z 100) in
   if leb threshold (abs price_change_pct)
   then
     let up := ltb (of_Z 0) price_change_pct in
     Ok (mk_alerts
           (significant_changes a ++
            [mk_price_alert (Symbol r) (Company r) current_price
               previous_price price_change_pct
               (if up then "increase" else "decrease")])%list
           (daily_change_alerts a)
           (total_symbols a)
           (n_significant_changes a + 1)
           (if up then positive_changes a + 1 else positive_changes a)
           (if up then negative_changes a else negative_changes a + 1))
   else Ok a)%py.

(** The second half: the alert on the change of the daily change. *)
Definition check_daily (threshold : float) (a : alerts) (r : comparison_row)
  : outcome alerts :=
  if notna (Change_in_Daily_Change r)
  then
    (daily_change_diff <- to_float (Change_in_Daily_Change r) "%" ;;
     if leb threshold (abs daily_change_diff)
     then
       cur <- to_float (Daily_Change r) "%" ;;
       prev <- to_float (Previous_Daily_Change r) "%" ;;
       Ok (mk_alerts
             (significant_changes a)
             (daily_change_alerts a ++
              [mk_daily_alert (Symbol r) (Company r) cur prev
                 daily_change_diff])%list
             (total_symbols a)
             (n_significant_changes a)
             (positive_changes a)
             (negative_changes a))
     else Ok a)%py
  else Ok a.

(** The loop body: a row without a previous or a current price is
    skipped. *)
Definition analyze_row (threshold : float) (a : alerts) (r : comparison_row)
  : outcome alerts :=
  if isna (Previous_Price r) || isna (Current_Price r) then Ok a
  else (a1 <- check_price threshold a r ;; check_daily threshold a1 r)%py.

Fixpoint analyze_rows (threshold : float) (a : alerts)
    (rows : list comparison_row) : outcome alerts :=
  match rows with
  | [] => Ok a
  | r :: rest => (a1 <- analyze_row threshold a r ;;
                  analyze_rows threshold a1 rest)%py
  end.

Definition analyze_price_changes (self : StockDataStorage)
    (comparison_df : list comparison_row) : option alerts * list event :=
  let start :=
    mk_alerts [] [] (Z.of_nat (List.length comparison_df)) 0 0 0 in
  match analyze_rows (price_change_threshold self) start comparison_df with
  | Ok a => (Some a, [Analyzed (total_symbols a)])
  | Raise e => (None, [Error_analyzing e])
  end.

(** *** [generate_report] *)

Fixpoint repeat_str (s : string) (n : nat) : string :=
  match n with
  | O => ""
  | S k => s ++ repeat_str s k
  end.

Definition newline : string := String (ascii_of_nat 10) "".

Definition name_text (v : option string) : string :=
  match v with
  | Some s => s
  | None => "None"
  end.

Definition price_line (c : price_alert) : string :=
  (if String.eqb (direction c) "increase" then "↑" else "↓")
  ++ " " ++ pa_symbol c ++ " (" ++ name_text (pa_company c) ++ "): "
  ++ "$" ++ PyStr.format_2f (pa_previous_price c) ++ " → $"
  ++ PyStr.format_2f (pa_current_price c) ++ " "
  ++ "(" ++ PyStr.format_2f (change_pct c) ++ "%)".

Definition daily_line (d : daily_alert) : string :=
  (if ltb (of_Z 0) (change_diff d) then "↑" else "↓")
  ++ " " ++ da_symbol d ++ " (" ++ name_text (da_company d) ++ "): "
  ++ "Daily Change: " ++ PyStr.format_2f (previous_daily_change d) ++ "% → "
  ++ PyStr.format_2f (current_daily_change d) ++ "% "
  ++ "(Change: " ++ PyStr.format_2f (change_diff d) ++ "%)".

Definition no_changes : string := "No significant changes detected.".

(** The header and the summary block. *)
Definition summary_lines (a : alerts) : list string :=
  [ newline ++ "Price Movement Analysis Report";
    repeat_str "=" 50;
    newline ++ "Summary:";
    "Total Symbols Analyzed: " ++ PyStr.decimal (total_symbols a);
    "Significant Changes Detected: " ++ PyStr.decimal (n_significant_changes a);
    "Positive Changes: " ++ PyStr.decimal (positive_changes a);
    "Negative Changes: " ++ PyStr.decimal (negative_changes a) ].

Definition price_section (a : alerts) : list string :=
  match significant_changes a with
  | [] => []
  | cs => (newline ++ "Significant Price Changes:") :: repeat_str "-" 50
          :: map price_line cs
  end.

Definition daily_section (a : alerts) : list string :=
  match daily_change_alerts a with
  | [] => []
  | ds => (newline ++ "Significant Daily Change Changes:") :: repeat_str "-" 50
          :: map daily_line ds
  end.

(** The lines of the report, for the [alerts] that the analysis
    returned. *)
Definition report_lines (a : alerts) : list string :=
  (summary_lines a ++ price_section a ++ daily_section a)%list.

(** [generate_report]: [not alerts] holds of [None], not of the
    dictionary, which always has its three keys. Nothing in the body
    raises, so its handler, which returns another text, never runs. *)
Definition generate_report (self : StockDataStorage)
    (comparison_df : list comparison_row) : string * list event :=
  let '(result, log) := analyze_price_changes self comparison_df in
  match result with
  | None => (no_changes, log)
  | Some a => (PyStr.join newline (report_lines a), log)
  end.

End DataStorage.

(* ===================================================================== *)
(** ** The words of the specification, and inputs for the examples *)
(* ===================================================================== *)

Module Spec.

Import PyFloat.

(** The percentage the specification gives:
    [(current_price - previous_close) / previous_close * 100]. *)
Definition change_formula (cp pc : float) : float :=
  mul (div (sub cp pc) pc) (of_Z 100).

(** The values of a field of the readings that are not null, in the
    order of the readings: what the specification averages. *)
Definition non_null_values (f : StockMonitor.reading -> option float)
    (data_sources : list (option StockMonitor.reading)) : list float :=
  flat_map (fun d => match d with
                     | Some r => match f r with
                                 | Some p => [p]
                                 | None => []
                                 end
                     | None => []
                     end) data_sources.

(** Those of them that are not zero. *)
Definition contributing (f : StockMonitor.reading -> option float)
    (data_sources : list (option StockMonitor.reading)) : list float :=
  filter truthy (non_null_values f data_sources).

(** The arithmetic mean: the sum over the count. *)
Definition mean (xs : list float) : float :=
  div (StockMonitor.sum xs) (of_Z (Z.of_nat (List.length xs))).

(** The float of a price of [c] hundredths, that is of a value with two
    decimal places: the binary64 nearest to [c / 100], as a literal such as
    [123.45] denotes it. *)
Definition price_of_cents (c : Z) : float := of_decimal false c (-2).

(** The four columns of a row of the comparison frame are all unset, or
    all set. *)
Definition all_unset (c : DataStorage.comparison_row) : Prop :=
  DataStorage.Previous_Price c = PNone
  /\ DataStorage.Price_Change c = PNone
  /\ DataStorage.Previous_Daily_Change c = PNone
  /\ DataStorage.Change_in_Daily_Change c = PNone.

Definition all_set (c : DataStorage.comparison_row) : Prop :=
  DataStorage.is_str (DataStorage.Previous_Price c) = true
  /\ DataStorage.is_str (DataStorage.Price_Change c) = true
  /\ DataStorage.is_str (DataStorage.Previous_Daily_Change c) = true
  /\ DataStorage.is_str (DataStorage.Change_in_Daily_Change c) = true.

(** A record with both prices present: the two cells are texts that,
    without the dollar sign, read as the numbers [cur] and [prev]. *)
Definition has_prices (r : DataStorage.comparison_row) (cur prev : float)
  : Prop :=
  exists sc sp,
    DataStorage.Current_Price r = PStr sc
    /\ DataStorage.Previous_Price r = PStr sp
    /\ PyStr.parse_float (PyStr.remove_char "$" sc) = Some cur
    /\ PyStr.parse_float (PyStr.remove_char "$" sp) = Some prev.

(** The alert that the specification asks for, from the two prices. *)
Definition expected_alert (r : DataStorage.comparison_row) (cur prev : float)
  : DataStorage.price_alert :=
  DataStorage.mk_price_alert (DataStorage.Symbol r) (DataStorage.Company r)
    cur prev (change_formula cur prev)
    (if ltb (of_Z 0) (change_formula cur prev) then "increase" else "decrease").

(** The alerts of a record: one when the absolute percentage reaches the
    threshold, none otherwise, and none without two prices. *)
Definition price_alerts_of (threshold : float) (r : DataStorage.comparison_row)
  : list DataStorage.price_alert :=
  match DataStorage.Current_Price r, DataStorage.Previous_Price r with
  | PStr sc, PStr sp =>
      match PyStr.parse_float (PyStr.remove_char "$" sc),
            PyStr.parse_float (PyStr.remove_char "$" sp) with
      | Some cur, Some prev =>
          if leb threshold (abs (change_formula cur prev))
          then [expected_alert r cur prev] else []
      | _, _ => []
      end
  | _, _ => []
  end.

(** The rows of the table for a calendar day and a symbol, and the rows
    of the view for them. *)
Definition in_group (d : Z) (sym : string) (r : DataStorage.snapshot) : bool :=
  (DataStorage.date_of (DataStorage.timestamp r) =? d)
  && String.eqb (DataStorage.symbol r) sym.

Definition rows_of (d : Z) (sym : string) (rows : list DataStorage.snapshot)
  : list DataStorage.snapshot :=
  filter (in_group d sym) rows.

Definition rollups_of (d : Z) (sym : string) (rows : list DataStorage.snapshot)
  : list DataStorage.rollup :=
  filter (fun s => (DataStorage.date s =? d)
                   && String.eqb (DataStorage.r_symbol s) sym)
         (DataStorage.daily_summary rows).

(** The rows of the day and the symbol agree on the company and on the
    sources. *)
Definition uniform (d : Z) (sym : string) (rows : list DataStorage.snapshot)
  : Prop :=
  forall r r', In r (rows_of d sym rows) -> In r' (rows_of d sym rows) ->
               DataStorage.company r = DataStorage.company r'
               /\ DataStorage.sources r = DataStorage.sources r'.

(** The comparison record of a symbol whose price went from
    [previous] to [current], that is by [change], the three as texts, with
    a small change of its daily change. *)
Definition moved (previous current change : string)
  : DataStorage.comparison_row :=
  DataStorage.mk_comparison_row
    (mk_quote_row None "AAPL" (Some "Apple") (PStr current) (PStr "$99.00")
       (PStr "1.51%") (Some "Yahoo Finance"))
    (PStr previous) (PStr change) (PStr "1.01%") (PStr "0.50%").

(** The integer nearest to a finite float of mantissa [m] and exponent
    [e], a half going away from zero: the magnitude of C's [round]. *)
Definition round_half_away (m : positive) (e : Z) : Z :=
  if 0 <=? e then Z.pos m * 2 ^ e
  else
    let d := 2 ^ (- e) in
    if d <=? 2 * (Z.pos m mod d) then Z.pos m / d + 1 else Z.pos m / d.

(** A cast of a [DOUBLE] to [DECIMAL(w,2)] to run the examples with, after
    what DuckDB does: the double is multiplied by one hundred, as a
    double, and the product is rounded to an integer, a half going away
    from zero; a product of [w] digits or more, an infinity among them, is
    an error. A NaN of a frame is a [NULL] for DuckDB. *)
Definition nearest_hundredth (w : Z) (x : float) : outcome (option Z) :=
  match mul x (of_Z 100) with
  | S754_nan => Ok None
  | S754_infinity _ => Raise (DuckDBError ConversionError)
  | S754_zero _ => Ok (Some 0)
  | S754_finite s m e =>
      let c := round_half_away m e in
      if c <? 10 ^ w then Ok (Some (cond_Zopp s c))
      else Raise (DuckDBError ConversionError)
  end.

End Spec.


(* ===================================================================== *)
(** ** [utils/config.py]: the configuration *)
(* ===================================================================== *)

Module Config.

(** [s.split(c)] for a one-character separator [c]: the fields between
    the separators, one more than there are separators. *)
Fixpoint split (c : ascii) (s : string) : list string :=
  match s with
  | EmptyString => [EmptyString]
  | String a r =>
      if Ascii.eqb a c then EmptyString :: split c r
      else match split c r with
           | x :: xs => String a x :: xs
           | [] => [String a EmptyString]
           end
  end.

(** Whitespace that [str.strip] takes off a text: what [float] strips,
    and the separators 28 to 31. *)
Definition is_space (a : ascii) : bool :=
  let n := N_of_ascii a in
  PyStr.is_space a || ((28 <=? n)%N && (n <=? 31)%N).

Fixpoint lstrip (s : string) : string :=
  match s with
  | String a r => if is_space a then lstrip r else s
  | EmptyString => EmptyString
  end.

Fixpoint rstrip (s : string) : string :=
  match s with
  | EmptyString => EmptyString
  | String a r =>
      match rstrip r with
      | EmptyString => if is_space a then EmptyString else String a EmptyString
      | r' => String a r'
      end
  end.

(** [s.strip()]. *)
Definition strip (s : string) : string := rstrip (lstrip s).

(** The process environment, once [load_dotenv] has run. *)
Definition environ : Type := string -> option string.

(** [os.getenv(name, default)]. *)
Definition getenv (env : environ) (name default : string) : string :=
  match env name with
  | Some v => v
  | None => default
  end.

(** The values of the dictionary that [load_config] returns. *)
Inductive value : Type :=
| VNone
| VStr (s : string)
| VList (l : list string).

(** A [dict] with string keys, as the list of its items. *)
Definition dict : Type := list (string * value).

(** [d.get(key, default)]. *)
Definition get (d : dict) (key : string) (default : value) : value :=
  match find (fun kv => String.eqb (fst kv) key) d with
  | Some kv => snd kv
  | None => default
  end.

(** Truth value: [None], the empty string and the empty list are
    false. *)
Definition truthy (v : value) : bool :=
  match v with
  | VNone | VStr EmptyString | VList [] => false
  | _ => true
  end.

Inductive event : Type :=
| No_symbols_found
| No_valid_symbols
| Loaded_symbols (n : Z)
| Key_not_configured
| Key_loaded
| Failed_to_load (e : exn).

Definition level_of (e : event) : level :=
  match e with
  | No_symbols_found | No_valid_symbols | Failed_to_load _ => ERROR
  | Key_not_configured => WARNING
  | Loaded_symbols _ | Key_loaded => INFO
  end.

(** The dictionary of a configuration that could not be read. *)
Definition no_config : dict :=
  [("symbols", VList []); ("alpha_vantage_key", VNone)].

(** The [try] block of [load_config], after [load_dotenv]. *)
Definition load_config_body (env : environ) : dict * list event :=
  let symbols_str := getenv env "STOCK_SYMBOLS" "" in
  if String.eqb symbols_str "" then (no_config, [No_symbols_found])
  else
    let symbols := map strip (split "," symbols_str) in
    match symbols with
    | [] => (no_config, [No_valid_symbols])
    | _ =>
        let alpha_vantage_key := getenv env "ALPHA_VANTAGE_API_KEY" "" in
        if String.eqb alpha_vantage_key ""
           || String.eqb alpha_vantage_key "your_api_key_here"
        then ([("symbols", VList symbols); ("alpha_vantage_key", VNone)],
              [Loaded_symbols (Z.of_nat (List.length symbols));
               Key_not_configured])
        else ([("symbols", VList symbols);
               ("alpha_vantage_key", VStr alpha_vantage_key)],
              [Loaded_symbols (Z.of_nat (List.length symbols)); Key_loaded])
    end.

(** [load_config()]; [dotenv] is how [load_dotenv()] ends, with the
    environment it leaves. *)
Definition load_config (dotenv : outcome environ) : dict * list event :=
  match dotenv with
  | Ok env => load_config_body env
  | Raise e => (no_config, [Failed_to_load e])
  end.

End Config.

(* ===================================================================== *)
(** ** [clients/]: the two providers *)
(* ===================================================================== *)

Module Clients.

Import PyFloat StockMonitor.

(** The entries of [yf.Ticker(symbol).info] that the program reads, each
    missing or a value of its type. *)
Record ticker_info : Type := mk_ticker_info {
  currentPrice : option float;
  regularMarketPrice : option float;
  previousClose : option float;
  regularMarketChangePercent : option float;
  longName : option string
}.

(** [YahooFinanceClient.get_stock_data]: [info] is how reading
    [stock.info] ends. The dictionary is built whatever the entries
    are. *)
Definition yahoo_get_stock_data (info : outcome ticker_info)
  : option reading :=
  match info with
  | Ok i => Some (mk_reading (currentPrice i) (previousClose i)
                    (match longName i with
                     | Some n => n
                     | None => "N/A"
                     end))
  | Raise _ => None
  end.

(** The first row of the frame of [get_quote_endpoint], its two cells
    that the client reads. *)
Record quote : Type := mk_quote {
  price_05 : pyval;
  previous_close_08 : pyval
}.

(** [float(v)] of a cell. *)
Definition float_of (v : pyval) : outcome float :=
  match v with
  | PFloat x => Ok x
  | PStr s => PyStr.float_of_str s
  | PNone => Raise TypeError
  end.

(** [AlphaVantageClient.get_stock_data]: [answer] is how
    [get_quote_endpoint] ends, with the first row of the frame ([None] for
    an empty frame) and the entry ['2. Symbol'] of the metadata. *)
Definition alpha_get_stock_data
    (answer : outcome (option quote * option string)) : option reading :=
  match answer with
  | Ok (Some q, meta) =>
      match (p <- float_of (price_05 q) ;;
             c <- float_of (previous_close_08 q) ;;
             Ok (p, c))%py with
      | Ok (p, c) => Some (mk_reading (Some p) (Some c)
                             (match meta with
                              | Some n => n
                              | None => "N/A"
                              end))
      | Raise _ => None
      end
  | Ok (None, _) => None
  | Raise _ => None
  end.

End Clients.

(* ===================================================================== *)
(** ** [stock_monitor.py]: fetching, the status frame and the loop *)
(* ===================================================================== *)

Module Monitor.

Import PyFloat StockMonitor Clients.

Inductive event : Type :=
| Starting
| Validating (symbol : string)
| Validated (symbol : string)
| Error_validating (symbol : string) (e : exn)
| Fetching (symbol : string)
| No_data_available (symbol : string)
| Fetched (symbol : string)
| Error_fetching (symbol : string)
| Processing (symbol : string)
| Status (e : StockMonitor.event)
| No_results
| No_symbols_configured
| Loaded (n : Z)
| Key_not_configured
| Processed (symbol : string)
| Failed_to_process (symbol : string)
| Storage (e : DataStorage.event).

Definition level_of (e : event) : level :=
  match e with
  | Starting | Validating _ | Validated _ | Fetching _ | Fetched _
  | Processing _ | Loaded _ | Processed _ => INFO
  | Key_not_configured => WARNING
  | Error_validating _ _ | No_data_available _ | Error_fetching _
  | No_results | No_symbols_configured | Failed_to_process _ => ERROR
  | Status e' => StockMonitor.level_of e'
  | Storage e' => DataStorage.level_of e'
  end.

(** [validate_symbol]: the entry ['regularMarketPrice'] is there. *)
Definition validate_symbol (symbol : string) (info : outcome ticker_info)
  : bool * list event :=
  match info with
  | Ok i =>
      match regularMarketPrice i with
      | Some _ => (true, [Validating symbol; Validated symbol])
      | None => (false, [Validating symbol])
      end
  | Raise e => (false, [Validating symbol; Error_validating symbol e])
  end.

(** [get_stock_data] of [stock_monitor.py]: a frame of one row, or
    [None]. A missing ['previousClose'] or ['regularMarketChangePercent']
    raises in the middle of the row and ends in the handler. *)
Definition get_stock_data (symbol : string) (info : outcome ticker_info)
  : option (list quote_row) * list event :=
  match info with
  | Ok i =>
      match regularMarketPrice i with
      | None => (None, [Fetching symbol; No_data_available symbol])
      | Some p =>
          match previousClose i, regularMarketChangePercent i with
          | Some c, Some d =>
              (Some [mk_quote_row None symbol
                       (Some (match longName i with
                              | Some n => n
                              | None => "Unknown"
                              end))
                       (PStr ("$" ++ PyStr.format_2f p))
                       (PStr ("$" ++ PyStr.format_2f c))
                       (PStr (PyStr.format_2f d ++ "%"))
                       (Some "Yahoo Finance")],
               [Fetching symbol; Fetched symbol])
          | _, _ => (None, [Fetching symbol; Error_fetching symbol])
          end
      end
  | Raise _ => (None, [Fetching symbol; Error_fetching symbol])
  end.

Section Status.

(** What the providers answer for a symbol. *)
Variable yahoo : string -> outcome ticker_info.
Variable alpha : string -> outcome (option quote * option string).

(** The body of the loop of [get_stock_status] for one symbol: the
    answers of the clients that gave one, with the names of these
    clients, then the row. The second client is there when a key is. *)
Definition status_of (alpha_vantage_key : option string) (symbol : string)
  : quote_row * list event :=
  let yahoo_data := yahoo_get_stock_data (yahoo symbol) in
  let alpha_vantage_data :=
    match alpha_vantage_key with
    | None | Some EmptyString => None
    | Some _ => alpha_get_stock_data (alpha symbol)
    end in
  let data_sources :=
    ((match yahoo_data with Some d => [d] | None => [] end)
     ++ (match alpha_vantage_data with Some d => [d] | None => [] end))%list in
  let source_names :=
    ((match yahoo_data with Some _ => ["Yahoo Finance"] | None => [] end)
     ++ (match alpha_vantage_data with
         | Some _ => ["Alpha Vantage"]
         | None => []
         end))%list in
  let '(r, log) := stock_status_row symbol data_sources source_names in
  (r, Processing symbol :: map Status log).

(** One turn of the loop: the row goes to the end of [results]. *)
Definition status_step (alpha_vantage_key : option string)
    (acc : list quote_row * list event) (symbol : string)
  : list quote_row * list event :=
  let '(results, log) := acc in
  let '(r, l) := status_of alpha_vantage_key symbol in
  ((results ++ [r])%list, (log ++ l)%list).

(** [get_stock_status]: the frame of the rows; without a row, the empty
    frame. *)
Definition get_stock_status (symbols : list string)
    (alpha_vantage_key : option string) : list quote_row * list event :=
  let '(results, log) :=
    fold_left (status_step alpha_vantage_key) symbols ([], []) in
  match results with
  | [] => ([], (log ++ [No_results])%list)
  | _ => (results, log)
  end.

End Status.

(** The head of [main]: the symbols and the key as it reads them from
    the configuration, [None] when it returns for want of symbols. *)
Definition settings (dotenv : outcome Config.environ)
  : option (Config.value * Config.value) * list Config.event * list event :=
  let '(config, log) := Config.load_config dotenv in
  let symbols := Config.get config "symbols" (Config.VList []) in
  let api_key := Config.get config "alpha_vantage_api_key" Config.VNone in
  if negb (Config.truthy symbols)
  then (None, log, [Starting; No_symbols_configured])
  else
    (Some (symbols, api_key), log,
     (Starting
      :: Loaded (match symbols with
                 | Config.VList l => Z.of_nat (List.length l)
                 | _ => 0
                 end)
      :: (if Config.truthy api_key then [] else [Key_not_configured]))%list).

Section Loop.

(** DuckDB's cast of the [INSERT], and what the provider answers. *)
Variable cast_decimal : Z -> float -> outcome (option Z).
Variable info : string -> outcome ticker_info.

(** [df['timestamp'] = timestamp]: the column that [save_stock_data] sets
    in the frame of its caller, the first thing it does. *)
Definition stamped (ts : Z) (df : list quote_row) : list quote_row :=
  map (fun r => mk_quote_row (Some ts) (q_Symbol r) (q_Company r)
                  (q_Current_Price r) (q_Previous_Close r) (q_Daily_Change r)
                  (q_Sources r)) df.

(** The loop over the symbols: each is fetched, and the frame that comes
    back is looked at for the log only. *)
Definition fetch_all (valid_symbols : list string) : list event :=
  flat_map (fun symbol =>
              let '(stock_data, log) := get_stock_data symbol (info symbol) in
              (Processing symbol :: log
               ++ [match stock_data with
                   | Some _ => Processed symbol
                   | None => Failed_to_process symbol
                   end])%list)
           valid_symbols.

(** One turn of the loop of [main], at the time [now]: what it prints,
    [None] for nothing, and the storage after it. The current data is the
    latest data of the storage, read a second time; it is saved, which
    stamps it, and compared with the storage. *)
Definition cycle (data_storage : DataStorage.StockDataStorage)
    (valid_symbols : list string) (now : Z)
  : option string * DataStorage.StockDataStorage * list event :=
  let '(previous_data, log1) := DataStorage.get_latest_data data_storage in
  let log2 := fetch_all valid_symbols in
  let '(current_data, log3) := DataStorage.get_latest_data data_storage in
  match current_data with
  | None =>
      (None, data_storage,
       (map Storage log1 ++ log2 ++ map Storage log3)%list)
  | Some df =>
      let '(_, saved, log4) :=
        DataStorage.save_stock_data cast_decimal data_storage df None now in
      let log := (map Storage log1 ++ log2 ++ map Storage log3
                  ++ map Storage log4)%list in
      match previous_data with
      | None => (None, saved, log)
      | Some _ =>
          let '(comparison, log5) :=
            DataStorage.compare_with_previous saved (stamped now df) in
          match comparison with
          | None => (None, saved, (log ++ map Storage log5)%list)
          | Some comparison_data =>
              let '(report, log6) := DataStorage.generate_report saved comparison_data in
              (Some (DataStorage.newline ++ report), saved,
               (log ++ map Storage log5 ++ map Storage log6)%list)
          end
      end
  end.

End Loop.

End Monitor.

(* ===================================================================== *)
(** ** [app.py]: what the page shows *)
(* ===================================================================== *)

Module App.

Import PyFloat DataStorage.

(** [df[df['Symbol'] == selected_symbol]]. *)
Definition select (selected_symbol : string) (df : list quote_row)
  : list quote_row :=
  filter (fun r => String.eqb (q_Symbol r) selected_symbol) df.

(** "Current Market Status": the value and the delta of the metric for
    the first row of the selected symbol, [None] without such a row. The
    two conversions stand outside any handler. *)
Definition market_status (latest_data : list quote_row)
    (selected_symbol : string) : outcome (option (string * string)) :=
  match select selected_symbol latest_data with
  | [] => Ok None
  | r :: _ =>
      (current_price <- to_float (q_Current_Price r) "$" ;;
       daily_change <- to_float (q_Daily_Change r) "%" ;;
       Ok (Some ("$" ++ PyStr.format_2f current_price,
                 PyStr.format_2f daily_change ++ "%")))%py
  end.

(** A line of "Price Alerts". *)
Definition alert_line (change : price_alert) : string :=
  (if String.eqb (direction change) "increase" then "↑" else "↓")
  ++ " " ++ pa_symbol change ++ ": "
  ++ "$" ++ PyStr.format_2f (pa_previous_price change) ++ " → "
  ++ "$" ++ PyStr.format_2f (pa_current_price change) ++ " "
  ++ "(" ++ PyStr.format_2f (change_pct change) ++ "%)".

(** What the page writes for the alerts of the analysis. *)
Definition alert_lines (result : option alerts) (selected_symbol : string)
  : list string :=
  match result with
  | Some a =>
      match significant_changes a with
      | [] => []
      | cs =>
          "Significant Price Changes:"
          :: map alert_line
               (filter (fun c => String.eqb (pa_symbol c) selected_symbol) cs)
      end
  | None => []
  end.

(** "Price Alerts": the page reads the latest data, compares it with
    what the storage holds and writes the alerts of the selected symbol.
    Nothing writes to the storage in between. *)
Definition price_alerts (self : StockDataStorage) (selected_symbol : string)
  : list string * list event :=
  let '(latest, log1) := get_latest_data self in
  match latest with
  | None => ([], log1)
  | Some latest_data =>
      let '(comparison, log2) := compare_with_previous self latest_data in
      match comparison with
      | None => ([], (log1 ++ log2)%list)
      | Some comparison_data =>
          let '(result, log3) :=
            analyze_price_changes self comparison_data in
          (alert_lines result selected_symbol, (log1 ++ log2 ++ log3)%list)
      end
  end.

End App.

(* ===================================================================== *)
(** ** Notions for the further properties *)
(* ===================================================================== *)

Module Terms.

Import PyFloat.

(** The float [x] with the sign [s]; a NaN has none. *)
Definition with_sign (s : bool) (x : float) : float :=
  match x with
  | S754_zero _ => S754_zero s
  | S754_infinity _ => S754_infinity s
  | S754_finite _ m e => S754_finite s m e
  | S754_nan => S754_nan
  end.

(** The float of a [DECIMAL(w,2)] value of [d] hundredths: the binary64
    nearest to [d / 100], as [float] reads it from the text of the
    value. *)
Definition decimal_value (d : Z) : float :=
  of_decimal (d <? 0) (Z.abs d) (-2).

(** A float rounded to two decimal places, as a float again: what
    [float(format(x, '.2f'))] is. *)
Definition hundredths (x : float) : float :=
  match x with
  | S754_finite s m e => of_decimal s (PyStr.cents_of m e) (-2)
  | _ => x
  end.

(** The characters that the conversions take out of a text. *)
Definition is_mark (c : ascii) : Prop :=
  c = "$"%char \/ c = ","%char \/ c = "%"%char.

(** A value fits a column [DECIMAL(w,2)]: it has at most [w] digits. *)
Definition fits (w : Z) (v : option Z) : Prop :=
  match v with
  | Some d => Z.abs d < 10 ^ w
  | None => True
  end.

(** A row holds what the types of the table [stock_snapshots] allow. *)
Definition well_typed (r : DataStorage.snapshot) : Prop :=
  fits 10 (DataStorage.current_price r)
  /\ fits 10 (DataStorage.previous_close r)
  /\ fits 5 (DataStorage.daily_change r).

(** The analysis divides by the price of this row: the price is zero,
    and the daily change is there, so that the comparison fills the row
    in. *)
Definition zero_priced (r : DataStorage.snapshot) : bool :=
  match DataStorage.current_price r, DataStorage.daily_change r with
  | Some p, Some _ => p =? 0
  | _, _ => false
  end.

(** The row [sn] of the table is the row [r] of a frame, stored at
    [ts]. *)
Definition stored_as (ts : Z) (r : quote_row) (sn : DataStorage.snapshot)
  : Prop :=
  DataStorage.timestamp sn = ts
  /\ DataStorage.symbol sn = q_Symbol r
  /\ DataStorage.company sn = q_Company r
  /\ DataStorage.sources sn = q_Sources r.

(** The cast gives a stored value back: the float that [float] reads
    from the text of the value is cast to the value. *)
Definition cast_back (cast : Z -> float -> outcome (option Z)) (w : Z)
    (v : option Z) : Prop :=
  match v with
  | Some d => cast w (decimal_value d) = Ok (Some d)
  | None => True
  end.

(** So it is for the price and the daily change of a row. *)
Definition kept_by (cast : Z -> float -> outcome (option Z))
    (sn : DataStorage.snapshot) : Prop :=
  cast_back cast 10 (DataStorage.current_price sn)
  /\ cast_back cast 5 (DataStorage.daily_change sn).

(** What [column_to_float] makes of a cell. *)
Definition cell_float (c : ascii) (v : pyval) (x : float) : Prop :=
  match v with
  | PStr s => PyStr.float_of_str (PyStr.remove_char c s) = Ok x
  | _ => x = nan
  end.

(** The row [sn'] of the table is a copy of the row [sn]: the symbol,
    the price and the daily change are the same. *)
Definition copy_of (sn sn' : DataStorage.snapshot) : Prop :=
  DataStorage.symbol sn' = DataStorage.symbol sn
  /\ DataStorage.current_price sn' = DataStorage.current_price sn
  /\ DataStorage.daily_change sn' = DataStorage.daily_change sn.

(** A cell holds a text that [float] does not read once the mark [c] is
    taken out. *)
Definition unreadable (c : ascii) (v : pyval) : Prop :=
  exists s, v = PStr s /\ PyStr.parse_float (PyStr.remove_char c s) = None.

(** A row has such a cell in one of the three columns that
    [save_stock_data] converts. *)
Definition unreadable_row (r : quote_row) : Prop :=
  unreadable "$" (q_Current_Price r)
  \/ unreadable "$" (q_Previous_Close r)
  \/ unreadable "%" (q_Daily_Change r).

(** The two cells of a row of a frame that the comparison reads hold the
    texts of the stored values [p] and [d], as [get_latest_data] writes
    them. *)
Definition quotes (r : quote_row) (p d : option Z) : Prop :=
  q_Current_Price r = PStr ("$" ++ DataStorage.concat_text p)
  /\ q_Daily_Change r = PStr (DataStorage.concat_text d ++ "%").

Definition zero_quote (p d : option Z) : bool :=
  match p, d with
  | Some p, Some _ => p =? 0
  | _, _ => false
  end.

(** The row [r] of a current frame echoes the row [sn] of the table in
    the frame [previous]: it holds the values of [sn], and so does the row
    of its symbol in [previous]. *)
Definition echoes (previous : list quote_row) (r : quote_row)
    (sn : DataStorage.snapshot) : Prop :=
  quotes r (DataStorage.current_price sn) (DataStorage.daily_change sn)
  /\ exists prev,
       find (fun x => String.eqb (q_Symbol x) (q_Symbol r)) previous
       = Some prev
       /\ quotes prev (DataStorage.current_price sn)
            (DataStorage.daily_change sn).

(** The report of an analysis that found nothing in [n] rows. *)
Definition quiet_report (n : nat) : string :=
  PyStr.join DataStorage.newline
    (DataStorage.summary_lines
       (DataStorage.mk_alerts [] [] (Z.of_nat n) 0 0 0)).

(** An alert on a price says what the analysis checked: the percentage
    is that of its two prices, it reaches the threshold, and the direction
    is its sign. *)
Definition justified (thr : float) (c : DataStorage.price_alert) : Prop :=
  DataStorage.change_pct c
  = Spec.change_formula (DataStorage.pa_current_price c)
      (DataStorage.pa_previous_price c)
  /\ leb thr (abs (DataStorage.change_pct c)) = true
  /\ DataStorage.direction c
     = (if ltb (of_Z 0) (DataStorage.change_pct c)
        then "increase" else "decrease").

Definition rising (c : DataStorage.price_alert) : bool :=
  String.eqb (DataStorage.direction c) "increase".

(** The counters of the summary count the alerts on prices. *)
Definition counted (a : DataStorage.alerts) : Prop :=
  DataStorage.n_significant_changes a
  = Z.of_nat (List.length (DataStorage.significant_changes a))
  /\ DataStorage.positive_changes a
     = Z.of_nat (List.length
                   (filter rising (DataStorage.significant_changes a)))
  /\ DataStorage.negative_changes a
     = Z.of_nat (List.length
                   (filter (fun c => negb (rising c))
                           (DataStorage.significant_changes a))).

(** What the loop of the analysis keeps true of the alerts, for the
    symbols [S] of the frame. *)
Definition sound (thr : float) (S : list string) (a : DataStorage.alerts)
  : Prop :=
  counted a
  /\ Forall (fun c => justified thr c /\ In (DataStorage.pa_symbol c) S)
            (DataStorage.significant_changes a)
  /\ Forall (fun d => leb thr (abs (DataStorage.change_diff d)) = true
                      /\ In (DataStorage.da_symbol d) S)
            (DataStorage.daily_change_alerts a).




End Terms.
(* ===================================================================== *)
(** * Properties *)
(* ===================================================================== *)

(** ** Rounding to binary64

    What [SpecFloat]'s rounding computes, as equations on integers: a
    mantissa with its position is a quotient [p / q] with [loc_of p q],
    a shift of [n] bits is the quotient by [2^n * q], and rounding to
    nearest even is [rne]. *)

Section Rounding.

Import PyFloat.

Lemma pow2_pred (k : Z) : 0 < k -> 2 ^ k = 2 * 2 ^ (k - 1).
Proof.
  intros Hk. replace k with (Z.succ (k - 1)) at 1 by lia.
  apply Z.pow_succ_r. lia.
Qed.

Lemma digits2_pos_bounds (p : positive) :
  2 ^ (Z.pos (digits2_pos p) - 1) <= Z.pos p < 2 ^ Z.pos (digits2_pos p).
Proof.
  induction p as [p IH | p IH |]; simpl digits2_pos.
  - rewrite Pos2Z.inj_succ.
    replace (Z.succ (Z.pos (digits2_pos p)) - 1) with (Z.pos (digits2_pos p)) by lia.
    rewrite Z.pow_succ_r by lia.
    rewrite (pow2_pred (Z.pos (digits2_pos p))) in * by lia. lia.
  - rewrite Pos2Z.inj_succ.
    replace (Z.succ (Z.pos (digits2_pos p)) - 1) with (Z.pos (digits2_pos p)) by lia.
    rewrite Z.pow_succ_r by lia.
    rewrite (pow2_pred (Z.pos (digits2_pos p))) in * by lia. lia.
  - simpl. lia.
Qed.

(** The number of binary digits is determined by the bounds. *)
Lemma Zdigits2_unique (m d : Z) :
  0 < d -> 2 ^ (d - 1) <= m < 2 ^ d -> Zdigits2 m = d.
Proof.
  intros Hd [Hlo Hhi].
  assert (0 < m) by (pose proof (Z.pow_pos_nonneg 2 (d - 1)); lia).
  destruct m as [| p | p]; try lia. simpl.
  pose proof (digits2_pos_bounds p) as [Plo Phi].
  set (k := Z.pos (digits2_pos p)) in *.
  destruct (Z.lt_trichotomy k d) as [Hlt | [Heq | Hgt]]; [| exact Heq |].
  - assert (2 ^ k <= 2 ^ (d - 1)) by (apply Z.pow_le_mono_r; lia). lia.
  - assert (2 ^ d <= 2 ^ (k - 1)) by (apply Z.pow_le_mono_r; lia). lia.
Qed.

Lemma Zdigits2_bounds (m : Z) :
  0 < m -> 2 ^ (Zdigits2 m - 1) <= m < 2 ^ Zdigits2 m.
Proof.
  destruct m as [| p | p]; try lia. intros _. apply digits2_pos_bounds.
Qed.

Lemma Zdigits2_pos (m : Z) : 0 < m -> 0 < Zdigits2 m.
Proof. destruct m; simpl; lia. Qed.

Lemma shr_1_m (x : shr_record) : 0 <= shr_m x -> shr_m (shr_1 x) = shr_m x / 2.
Proof.
  destruct x as [m r s]; simpl. intros Hm.
  destruct m as [| p | p]; try lia; [reflexivity |].
  destruct p as [p | p |]; simpl shr_m.
  - rewrite Pos2Z.inj_xI. apply Z.div_unique with 1; lia.
  - rewrite Pos2Z.inj_xO. apply Z.div_unique with 0; lia.
  - reflexivity.
Qed.

Lemma shr_1_loc (x : shr_record) :
  0 <= shr_m x ->
  loc_of_shr_record (shr_1 x)
  = match Z.odd (shr_m x), loc_of_shr_record x with
    | false, loc_Exact => loc_Exact
    | false, _ => loc_Inexact Lt
    | true, loc_Exact => loc_Inexact Eq
    | true, _ => loc_Inexact Gt
    end.
Proof.
  destruct x as [m r s]; simpl. intros Hm.
  destruct m as [| p | p]; try lia.
  - destruct r, s; reflexivity.
  - destruct p as [p | p |]; destruct r, s; reflexivity.
Qed.

Lemma shr_1_represents (x : shr_record) (p q : Z) :
  0 <= p -> 0 < q -> represents x p q -> represents (shr_1 x) p (2 * q).
Proof.
  intros Hp Hq [Hm Hl].
  assert (Hm0 : 0 <= shr_m x) by (rewrite Hm; apply Z.div_pos; lia).
  pose proof (Z.div_mod p q ltac:(lia)) as Hdm.
  pose proof (Z.mod_pos_bound p q Hq) as Hr.
  set (d := p / q) in *. set (r := p mod q) in *.
  pose proof (Z.div_mod d 2 ltac:(lia)) as Hd2.
  pose proof (Z.mod_pos_bound d 2 ltac:(lia)) as Hr2.
  assert (Hdiv : p / (2 * q) = d / 2).
  { symmetry. apply Z.div_unique with ((d mod 2) * q + r); nia. }
  assert (Hmod : p mod (2 * q) = (d mod 2) * q + r).
  { symmetry. apply Z.mod_unique with (d / 2); nia. }
  split.
  - rewrite shr_1_m, Hm, Hdiv by assumption. reflexivity.
  - rewrite shr_1_loc by assumption. rewrite Hl, Hm.
    unfold loc_of. fold r. rewrite Hmod.
    rewrite (Zmod_odd d) in *.
    destruct (Z.odd d); destruct (Z.eqb_spec r 0) as [Hr0 | Hr0].
    + replace (1 * q + r =? 0) with false by (symmetry; apply Z.eqb_neq; lia).
      replace (2 * (1 * q + r) ?= 2 * q) with Eq
        by (symmetry; apply Z.compare_eq_iff; lia).
      reflexivity.
    + replace (1 * q + r =? 0) with false by (symmetry; apply Z.eqb_neq; lia).
      replace (2 * (1 * q + r) ?= 2 * q) with Gt
        by (symmetry; apply Z.compare_gt_iff; lia).
      reflexivity.
    + replace (0 * q + r =? 0) with true by (symmetry; apply Z.eqb_eq; lia).
      reflexivity.
    + replace (0 * q + r =? 0) with false by (symmetry; apply Z.eqb_neq; lia).
      replace (2 * (0 * q + r) ?= 2 * q) with Lt
        by (symmetry; apply Z.compare_lt_iff; lia).
      reflexivity.
Qed.

Lemma iter_pos_nat {A : Type} (f : A -> A) (n : positive) (x : A) :
  iter_pos f n x = Nat.iter (Pos.to_nat n) f x.
Proof.
  revert x. induction n as [n IH | n IH |]; intros x; simpl iter_pos.
  - rewrite !IH, Pos2Nat.inj_xI.
    replace (S (2 * Pos.to_nat n))%nat
      with (Pos.to_nat n + (Pos.to_nat n + 1))%nat by lia.
    rewrite !Nat.iter_add. reflexivity.
  - rewrite !IH, Pos2Nat.inj_xO.
    replace (2 * Pos.to_nat n)%nat with (Pos.to_nat n + Pos.to_nat n)%nat by lia.
    rewrite Nat.iter_add. reflexivity.
  - reflexivity.
Qed.

Lemma iter_shr_represents (k : nat) (x : shr_record) (p q : Z) :
  0 <= p -> 0 < q -> represents x p q ->
  represents (Nat.iter k shr_1 x) p (2 ^ Z.of_nat k * q).
Proof.
  intros Hp Hq Hx. induction k as [| k IH].
  - simpl Nat.iter. change (Z.of_nat 0) with 0. rewrite Z.pow_0_r, Z.mul_1_l. exact Hx.
  - simpl Nat.iter. rewrite Nat2Z.inj_succ, Z.pow_succ_r by lia.
    replace (2 * 2 ^ Z.of_nat k * q) with (2 * (2 ^ Z.of_nat k * q)) by lia.
    apply shr_1_represents; try assumption.
    pose proof (Z.pow_pos_nonneg 2 (Z.of_nat k)). nia.
Qed.

(** A shift by [n] bits, as [shr] does it. *)
Lemma shr_represents (x : shr_record) (e n p q : Z) :
  0 <= p -> 0 < q -> represents x p q ->
  represents (fst (shr x e n)) p (2 ^ Z.max 0 n * q)
  /\ snd (shr x e n) = e + Z.max 0 n.
Proof.
  intros Hp Hq Hx. destruct n as [| n | n]; simpl shr; simpl fst; simpl snd.
  - split; [| lia]. change (Z.max 0 0) with 0. rewrite Z.pow_0_r, Z.mul_1_l. exact Hx.
  - split; [| lia]. rewrite iter_pos_nat.
    replace (Z.max 0 (Z.pos n)) with (Z.of_nat (Pos.to_nat n)) by lia.
    apply iter_shr_represents; assumption.
  - split; [| lia]. change (Z.max 0 (Z.neg n)) with 0. rewrite Z.pow_0_r, Z.mul_1_l. exact Hx.
Qed.

Lemma record_of_loc_represents (m : Z) (l : location) (p q : Z) :
  m = p / q -> l = loc_of p q -> represents (shr_record_of_loc m l) p q.
Proof.
  intros -> ->. split.
  - destruct (loc_of p q) as [| []]; reflexivity.
  - destruct (loc_of p q) as [| []]; reflexivity.
Qed.

Lemma round_represents (x : shr_record) (p q : Z) :
  0 < q -> represents x p q ->
  round_nearest_even (shr_m x) (loc_of_shr_record x) = rne p q.
Proof.
  intros Hq [Hm Hl]. rewrite Hm, Hl. unfold loc_of, rne.
  destruct (Z.eqb_spec (p mod q) 0) as [H0 | H0].
  - rewrite H0. replace (2 * 0 ?= q) with Lt by (symmetry; apply Z.compare_lt_iff; lia).
    reflexivity.
  - simpl. destruct (2 * (p mod q) ?= q); reflexivity.
Qed.

(** [SpecFloat]'s rounding of a mantissa that stands for [p / q] at the
    exponent [ex]. *)
Lemma binary_round_aux_eq (s : bool) (mx ex : Z) (lx : location) (p q : Z) :
  0 <= p -> 0 < q -> mx = p / q -> lx = loc_of p q ->
  binary_round_aux prec emax s mx ex lx
  = let n := Z.max 0 (fexp prec emax (Zdigits2 mx + ex) - ex) in
    let m1 := rne p (2 ^ n * q) in
    let e1 := ex + n in
    let n2 := Z.max 0 (fexp prec emax (Zdigits2 m1 + e1) - e1) in
    pack s (m1 / 2 ^ n2) (e1 + n2).
Proof.
  intros Hp Hq Hm Hl. unfold binary_round_aux, shr_fexp.
  set (n := fexp prec emax (Zdigits2 mx + ex) - ex).
  pose proof (shr_represents (shr_record_of_loc mx lx) ex n p q Hp Hq
                (record_of_loc_represents mx lx p q Hm Hl)) as [R1 E1].
  destruct (shr (shr_record_of_loc mx lx) ex n) as [mrs' e'].
  simpl fst in R1; simpl snd in E1. subst e'.
  assert (Hq1 : 0 < 2 ^ Z.max 0 n * q).
  { pose proof (Z.pow_pos_nonneg 2 (Z.max 0 n)). nia. }
  rewrite (round_represents mrs' p (2 ^ Z.max 0 n * q) Hq1 R1).
  cbv zeta.
  set (m1 := rne p (2 ^ Z.max 0 n * q)).
  set (e1 := ex + Z.max 0 n).
  set (n2 := fexp prec emax (Zdigits2 m1 + e1) - e1).
  assert (Hm1 : 0 <= m1).
  { unfold m1, rne.
    assert (0 <= p / (2 ^ Z.max 0 n * q)) by (apply Z.div_pos; lia).
    destruct (2 * (p mod (2 ^ Z.max 0 n * q)) ?= 2 ^ Z.max 0 n * q);
      [destruct (Z.even _) | |]; lia. }
  pose proof (shr_represents (shr_record_of_loc m1 loc_Exact) e1 n2 m1 1 Hm1
                ltac:(lia)) as [R2 E2].
  { apply record_of_loc_represents; [now rewrite Z.div_1_r |].
    unfold loc_of. now rewrite Z.mod_1_r. }
  destruct (shr (shr_record_of_loc m1 loc_Exact) e1 n2) as [mrs'' e''].
  simpl fst in R2; simpl snd in E2. subst e''.
  destruct R2 as [R2 _]. rewrite R2, Z.mul_1_r.
  unfold pack. reflexivity.
Qed.

(** *** Facts on [rne] *)

Lemma rne_bounds (p q : Z) : 0 < q -> p / q <= rne p q <= p / q + 1.
Proof.
  intros Hq. unfold rne.
  destruct (2 * (p mod q) ?= q); [destruct (Z.even _) | |]; lia.
Qed.

Lemma rne_near (p q : Z) : 0 < q -> 2 * Z.abs (q * rne p q - p) <= q.
Proof.
  intros Hq. unfold rne.
  pose proof (Z.div_mod p q ltac:(lia)) as Hdm.
  pose proof (Z.mod_pos_bound p q Hq) as Hr.
  destruct (Z.compare_spec (2 * (p mod q)) q) as [H | H | H];
    [destruct (Z.even _) | |]; nia.
Qed.

Lemma rne_unique (p q m : Z) :
  0 < q -> 2 * Z.abs (q * m - p) < q -> rne p q = m.
Proof.
  intros Hq Hm. unfold rne.
  pose proof (Z.div_mod p q ltac:(lia)) as Hdm.
  pose proof (Z.mod_pos_bound p q Hq) as Hr.
  destruct (Z.compare_spec (2 * (p mod q)) q) as [H | H | H];
    [destruct (Z.even _) | |]; nia.
Qed.

Lemma rne_scale (p q k : Z) : 0 < q -> 0 < k -> rne (p * k) (q * k) = rne p q.
Proof.
  intros Hq Hk. unfold rne.
  rewrite Z.div_mul_cancel_r by lia.
  rewrite Z.mul_mod_distr_r by lia.
  assert (Hc : (2 * (p mod q * k) ?= q * k) = (2 * (p mod q) ?= q)).
  { destruct (Z.compare_spec (2 * (p mod q)) q) as [H | H | H].
    - apply Z.compare_eq_iff. nia.
    - apply Z.compare_lt_iff. nia.
    - apply Z.compare_gt_iff. nia. }
  rewrite Hc. reflexivity.
Qed.

Lemma rne_exact (m q : Z) : 0 < q -> rne (m * q) q = m.
Proof. intros Hq. apply rne_unique; [assumption |]. 
  replace (q * m - m * q) with 0 by lia. simpl. lia. Qed.

Lemma fexp_normal (e : Z) : -1074 <= e - 53 -> fexp prec emax e = e - 53.
Proof. unfold fexp, SpecFloat.emin, prec, emax. lia. Qed.

(** Rounding a mantissa of at least [prec] digits, away from the
    subnormal range. *)
Lemma round_normal (s : bool) (p q ex : Z) :
  0 <= p -> 0 < q ->
  53 <= Zdigits2 (p / q) -> -1074 <= ex + Zdigits2 (p / q) - 53 ->
  binary_round_aux prec emax s (p / q) ex (loc_of p q)
  = pack_carry s (rne p (2 ^ (Zdigits2 (p / q) - 53) * q))
                 (ex + Zdigits2 (p / q) - 53)
  /\ 2 ^ 52 <= rne p (2 ^ (Zdigits2 (p / q) - 53) * q) <= 2 ^ 53.
Proof.
  intros Hp Hq Hd He.
  assert (Hmx : 0 < p / q).
  { assert (0 <= p / q) by (apply Z.div_pos; lia).
    destruct (p / q) as [| m | m]; try lia. simpl in Hd. lia. }
  set (d := Zdigits2 (p / q)) in *.
  pose proof (Zdigits2_bounds (p / q) Hmx) as Hb. fold d in Hb.
  set (n := d - 53) in *.
  assert (Hn : 0 <= n) by lia.
  assert (H2n : 0 < 2 ^ n) by (apply Z.pow_pos_nonneg; lia).
  assert (Hdd : p / (2 ^ n * q) = p / q / 2 ^ n).
  { rewrite Z.mul_comm. symmetry. apply Z.div_div; lia. }
  assert (Hpow : 2 ^ d = 2 ^ 53 * 2 ^ n).
  { unfold n. rewrite <- Z.pow_add_r by lia. f_equal. lia. }
  assert (Hpow' : 2 ^ (d - 1) = 2 ^ 52 * 2 ^ n).
  { unfold n. rewrite <- Z.pow_add_r by lia. f_equal. lia. }
  assert (Hfl : 2 ^ 52 <= p / (2 ^ n * q) < 2 ^ 53).
  { rewrite Hdd. split.
    - apply Z.div_le_lower_bound; lia.
    - apply Z.div_lt_upper_bound; lia. }
  pose proof (rne_bounds p (2 ^ n * q) ltac:(nia)) as Hrb.
  set (m1 := rne p (2 ^ n * q)) in *.
  assert (Hm1 : 2 ^ 52 <= m1 <= 2 ^ 53) by lia.
  split; [| exact Hm1].
  rewrite (binary_round_aux_eq s (p / q) ex (loc_of p q) p q Hp Hq eq_refl eq_refl).
  cbv zeta. fold d.
  rewrite (fexp_normal (d + ex)) by lia.
  replace (Z.max 0 (d + ex - 53 - ex)) with n by lia.
  fold m1. unfold pack_carry. change (2 ^ prec) with (2 ^ 53).
  change (2 ^ (prec - 1)) with (2 ^ 52).
  destruct (Z.ltb_spec m1 (2 ^ 53)) as [Hlt | Hge].
  - rewrite (Zdigits2_unique m1 53) by (change (53 - 1) with 52; lia).
    rewrite (fexp_normal (53 + (ex + n))) by lia.
    replace (Z.max 0 (53 + (ex + n) - 53 - (ex + n))) with 0 by lia.
    rewrite Z.pow_0_r, Z.div_1_r. f_equal; lia.
  - assert (Heq : m1 = 2 ^ 53) by lia.
    assert (Hd54 : Zdigits2 m1 = 54).
    { apply Zdigits2_unique; [lia |]. change (54 - 1) with 53. rewrite Heq. lia. }
    rewrite Hd54.
    rewrite (fexp_normal (54 + (ex + n))) by lia.
    replace (Z.max 0 (54 + (ex + n) - 53 - (ex + n))) with 1 by lia.
    rewrite Heq. change (2 ^ 53 / 2 ^ 1) with (2 ^ 52). f_equal; lia.
Qed.

Lemma pow2_gt0 (n : Z) : 0 <= n -> 0 < 2 ^ n.
Proof. intros. now apply Z.pow_pos_nonneg. Qed.

(** The scaled quotient does not depend on how the power of two is
    split between the two sides. *)
Lemma scaled_split (p q e k : Z) :
  0 < q -> 0 <= k -> 0 <= e + k ->
  p * 2 ^ Z.max 0 (- e) * 2 ^ (k - Z.max 0 (- e)) = p * 2 ^ k
  /\ q * 2 ^ Z.max 0 e * 2 ^ (k - Z.max 0 (- e)) = q * 2 ^ (e + k)
  /\ 0 < 2 ^ (k - Z.max 0 (- e)).
Proof.
  intros Hq Hk Hek.
  assert (H0 : 0 <= k - Z.max 0 (- e)) by lia.
  repeat split.
  - rewrite <- Z.mul_assoc, <- Z.pow_add_r by lia. do 2 f_equal. lia.
  - rewrite <- Z.mul_assoc, <- Z.pow_add_r by lia. do 2 f_equal. lia.
  - now apply pow2_gt0.
Qed.

Lemma scaled_floor_eq (p q e k : Z) :
  0 < q -> 0 <= k -> 0 <= e + k ->
  (p * 2 ^ k) / (q * 2 ^ (e + k)) = scaled_floor p q e.
Proof.
  intros Hq Hk Hek. unfold scaled_floor.
  destruct (scaled_split p q e k Hq Hk Hek) as (H1 & H2 & H3).
  rewrite <- H1, <- H2.
  assert (0 < 2 ^ Z.max 0 e) by (apply pow2_gt0; lia).
  apply Z.div_mul_cancel_r; nia.
Qed.

Lemma scaled_rne_eq (p q e k : Z) :
  0 < q -> 0 <= k -> 0 <= e + k ->
  rne (p * 2 ^ k) (q * 2 ^ (e + k)) = scaled_rne p q e.
Proof.
  intros Hq Hk Hek. unfold scaled_rne.
  destruct (scaled_split p q e k Hq Hk Hek) as (H1 & H2 & H3).
  rewrite <- H1, <- H2.
  assert (0 < 2 ^ Z.max 0 e) by (apply pow2_gt0; lia).
  apply rne_scale; nia.
Qed.

Lemma new_location_loc (q m : Z) :
  0 < q -> new_location q (m mod q) = loc_of m q.
Proof.
  intros Hq. unfold new_location, new_location_even, new_location_odd, loc_of.
  pose proof (Z.mod_pos_bound m q Hq) as Hr.
  destruct (Z.even q) eqn:Hev; [reflexivity |].
  destruct (Z.eqb_spec (m mod q) 0) as [H0 | H0]; [reflexivity |].
  f_equal.
  assert (Hodd : q mod 2 = 1).
  { rewrite Zmod_odd, <- Z.negb_even, Hev. reflexivity. }
  assert (Hne : 2 * (m mod q) <> q).
  { intros E. rewrite <- E in Hodd.
    rewrite Z.mul_comm, Z.mod_mul in Hodd by lia. discriminate. }
  destruct (Z.compare_spec (2 * (m mod q) + 1) q) as [H | H | H];
    symmetry; first [apply Z.compare_lt_iff | apply Z.compare_gt_iff]; lia.
Qed.

Lemma pow2_le_digits (a b : Z) : 0 <= b -> 2 ^ a < 2 ^ b -> a < b.
Proof.
  intros Hb H. destruct (Z.lt_ge_cases a b) as [Hlt | Hge]; [assumption |].
  assert (2 ^ b <= 2 ^ a) by (apply Z.pow_le_mono_r; lia). lia.
Qed.

Lemma shiftl_cases (m t : Z) :
  0 <= t ->
  match t with
  | 0 => m
  | Z.pos _ => Z.shiftl m t
  | Z.neg _ => 0
  end = m * 2 ^ t.
Proof.
  intros Ht. destruct t as [| tp | tp];
    [ rewrite Z.pow_0_r; lia
    | rewrite Z.shiftl_mul_pow2 by lia; reflexivity
    | lia ].
Qed.

(** The quotient that [SFdiv_core_binary] hands to the rounding. *)
Lemma div_round_unfold (s : bool) (p q : Z) :
  0 < p -> 0 < q ->
  let t := - Z.min (fexp prec emax (Zdigits2 p - Zdigits2 q)) 0 in
  div_round s p q
  = binary_round_aux prec emax s ((p * 2 ^ t) / q) (- t) (loc_of (p * 2 ^ t) q).
Proof.
  intros Hp Hq t. unfold div_round.
  destruct p as [| pp | pp]; try lia.
  unfold SFdiv_core_binary.
  rewrite !Z.add_0_r. change (0 - 0) with 0.
  set (e' := Z.min (fexp prec emax (Zdigits2 (Z.pos pp) - Zdigits2 q)) 0).
  assert (He' : e' <= 0) by (unfold e'; lia).
  replace (0 - e') with t by (unfold t, e'; lia).
  replace e' with (- t) by (unfold t, e'; lia).
  assert (Ht : 0 <= t) by (unfold t; fold e'; lia).
  rewrite (shiftl_cases (Z.pos pp) t Ht).
  unfold Z.div, Z.modulo.
  pose proof (new_location_loc q (Z.pos pp * 2 ^ t) Hq) as Hloc.
  unfold Z.modulo in Hloc.
  destruct (Z.div_eucl (Z.pos pp * 2 ^ t) q) as [dq dr].
  rewrite Hloc. reflexivity.
Qed.

Lemma div_lt_inv (a b c : Z) : 0 < b -> a / b < c -> a < b * c.
Proof.
  intros Hb H. destruct (Z.lt_ge_cases a (b * c)) as [Hlt | Hge]; [assumption |].
  assert (c <= a / b) by (apply Z.div_le_lower_bound; lia). lia.
Qed.

Lemma div_ge_inv (a b c : Z) : 0 < b -> c <= a / b -> b * c <= a.
Proof.
  intros Hb H. destruct (Z.lt_ge_cases a (b * c)) as [Hlt | Hge]; [| assumption].
  assert (a / b < c) by (apply Z.div_lt_upper_bound; lia). lia.
Qed.

(** The nearest binary64 to [p / q], given the exponent of its binade. *)
Lemma div_round_char (s : bool) (p q e : Z) :
  0 < p -> 0 < q -> -1074 <= e -> binade p q e ->
  div_round s p q = pack_carry s (scaled_rne p q e) e
  /\ 2 ^ 52 <= scaled_rne p q e <= 2 ^ 53.
Proof.
  intros Hp Hq He Hb. unfold binade in Hb.
  change (2 ^ (prec - 1)) with (2 ^ 52) in Hb. change (2 ^ prec) with (2 ^ 53) in Hb.
  rewrite div_round_unfold by assumption. cbv zeta.
  set (t := - Z.min (fexp prec emax (Zdigits2 p - Zdigits2 q)) 0).
  assert (Ht : 0 <= t) by (unfold t; lia).
  pose proof (Zdigits2_bounds p Hp) as Hdp.
  pose proof (Zdigits2_bounds q Hq) as Hdq.
  pose proof (Zdigits2_pos p Hp) as Hdp0.
  pose proof (Zdigits2_pos q Hq) as Hdq0.
  assert (Het : 0 <= e + t).
  { destruct (Z.lt_ge_cases e 0) as [Hneg | Hpos]; [| lia].
    assert (Zdigits2 p - Zdigits2 q - 53 <= e).
    { unfold scaled_floor in Hb.
      replace (Z.max 0 (- e)) with (- e) in Hb by lia.
      replace (Z.max 0 e) with 0 in Hb by lia.
      rewrite Z.pow_0_r, Z.mul_1_r in Hb.
      destruct Hb as [_ Hhi]. apply div_lt_inv in Hhi; [| assumption].
      assert (H1 : 2 ^ (Zdigits2 p - 1) * 2 ^ (- e) < 2 ^ 53 * 2 ^ Zdigits2 q).
      { assert (0 < 2 ^ (- e)) by (apply pow2_gt0; lia). nia. }
      rewrite <- !Z.pow_add_r in H1 by lia.
      apply pow2_le_digits in H1; lia. }
    unfold t, fexp, SpecFloat.emin, prec, emax. lia. }
  pose proof (scaled_floor_eq p q e t Hq Ht Het) as Hsf.
  pose proof (scaled_rne_eq p q e t Hq Ht Het) as Hsr.
  assert (H2et : 0 < 2 ^ (e + t)) by (apply pow2_gt0; lia).
  assert (H2t : 0 < 2 ^ t) by (apply pow2_gt0; lia).
  assert (Hdd : p * 2 ^ t / (q * 2 ^ (e + t)) = p * 2 ^ t / q / 2 ^ (e + t)).
  { symmetry. apply Z.div_div; lia. }
  rewrite Hdd in Hsf. rewrite <- Hsf in Hb.
  set (mx := p * 2 ^ t / q) in *.
  assert (Hmx : 2 ^ 52 * 2 ^ (e + t) <= mx < 2 ^ 53 * 2 ^ (e + t)).
  { destruct Hb as [Hlo Hhi]. split.
    - apply div_ge_inv in Hlo; lia.
    - apply div_lt_inv in Hhi; lia. }
  assert (Hdig : Zdigits2 mx = 53 + (e + t)).
  { apply Zdigits2_unique; [lia |].
    replace (53 + (e + t) - 1) with (52 + (e + t)) by lia.
    rewrite (Z.pow_add_r 2 52), (Z.pow_add_r 2 53) by lia. exact Hmx. }
  destruct (round_normal s (p * 2 ^ t) q (- t)) as [Hr Hm]; try lia.
  { fold mx. lia. }
  { fold mx. lia. }
  fold mx in Hr, Hm. rewrite Hdig in Hr, Hm.
  replace (53 + (e + t) - 53) with (e + t) in Hr, Hm by lia.
  replace (- t + (53 + (e + t)) - 53) with e in Hr by lia.
  rewrite (Z.mul_comm (2 ^ (e + t)) q) in Hr, Hm.
  rewrite Hsr in Hr, Hm. split; assumption.
Qed.

(** Every positive quotient lies in a binade. *)
Lemma binade_exists (p q : Z) : 0 < p -> 0 < q -> exists e, binade p q e.
Proof.
  intros Hp Hq.
  pose proof (Zdigits2_bounds q Hq) as Hdq.
  pose proof (Zdigits2_pos q Hq) as Hdq0.
  set (k := 53 + Zdigits2 q).
  assert (Hk : 0 <= k) by (unfold k; lia).
  assert (H2k : 0 < 2 ^ k) by (apply pow2_gt0; lia).
  set (mx := p * 2 ^ k / q).
  assert (Hmx : 2 ^ 53 <= mx).
  { unfold mx. apply Z.div_le_lower_bound; [lia |].
    assert (2 ^ k = 2 ^ 53 * 2 ^ Zdigits2 q)
      by (unfold k; apply Z.pow_add_r; lia).
    nia. }
  assert (Hmx0 : 0 < mx) by lia.
  pose proof (Zdigits2_bounds mx Hmx0) as Hd.
  set (d := Zdigits2 mx) in *.
  assert (Hd54 : 53 < d).
  { apply pow2_le_digits; [unfold d; pose proof (Zdigits2_pos mx Hmx0); lia | lia]. }
  exists (d - 53 - k). unfold binade.
  change (2 ^ (prec - 1)) with (2 ^ 52). change (2 ^ prec) with (2 ^ 53).
  rewrite <- (scaled_floor_eq p q (d - 53 - k) k) by lia.
  replace (d - 53 - k + k) with (d - 53) by lia.
  rewrite <- Z.div_div by (try apply pow2_gt0; lia). fold mx.
  assert (H1 : 2 ^ d = 2 ^ 53 * 2 ^ (d - 53)).
  { rewrite <- Z.pow_add_r by lia. f_equal. lia. }
  assert (H2 : 2 ^ (d - 1) = 2 ^ 52 * 2 ^ (d - 53)).
  { rewrite <- Z.pow_add_r by lia. f_equal. lia. }
  assert (0 < 2 ^ (d - 53)) by (apply pow2_gt0; lia).
  split.
  - apply Z.div_le_lower_bound; lia.
  - apply Z.div_lt_upper_bound; lia.
Qed.

(** The exponent of a price of at least one hundredth. *)
Lemma binade_cents_lower (c e : Z) : 0 < c -> binade c 100 e -> -59 <= e.
Proof.
  intros Hc [_ Hhi]. change (2 ^ prec) with (2 ^ 53) in Hhi.
  destruct (Z.lt_ge_cases e (-59)) as [Hlt | Hge]; [exfalso | assumption].
  unfold scaled_floor in Hhi.
  replace (Z.max 0 e) with 0 in Hhi by lia.
  replace (Z.max 0 (- e)) with (- e) in Hhi by lia.
  rewrite Z.pow_0_r, Z.mul_1_r in Hhi.
  apply div_lt_inv in Hhi; [| lia].
  assert (2 ^ 60 <= 2 ^ (- e)) by (apply Z.pow_le_mono_r; lia).
  assert (100 * 2 ^ 53 < 2 ^ 60) by (vm_compute; reflexivity).
  nia.
Qed.

Lemma pack_pos (s : bool) (m : positive) (e : Z) :
  pack s (Z.pos m) e
  = if e <=? 971 then S754_finite s m e else S754_infinity s.
Proof. reflexivity. Qed.

(** The float of a price of [c] hundredths: its mantissa and exponent,
    and how near it is when the exponent is small. *)
Lemma price_float (c : Z) :
  0 < c ->
  exists (m : positive) (e : Z),
    div_round false c 100 = pack false (Z.pos m) e
    /\ 2 ^ 52 <= Z.pos m < 2 ^ 53
    /\ -59 <= e
    /\ (e <= -7 -> 2 * Z.abs (100 * Z.pos m - c * 2 ^ (- e)) <= 100).
Proof.
  intros Hc.
  destruct (binade_exists c 100 Hc ltac:(lia)) as [e0 Hb].
  pose proof (binade_cents_lower c e0 Hc Hb) as He0.
  destruct (div_round_char false c 100 e0 Hc ltac:(lia) ltac:(lia) Hb) as [Hr Hm].
  set (m0 := scaled_rne c 100 e0) in *.
  assert (Hnear : e0 <= -7 -> 2 * Z.abs (100 * m0 - c * 2 ^ (- e0)) <= 100).
  { intros Hle. unfold m0, scaled_rne.
    replace (Z.max 0 e0) with 0 by lia.
    replace (Z.max 0 (- e0)) with (- e0) by lia.
    rewrite Z.pow_0_r, Z.mul_1_r.
    apply rne_near. lia. }
  unfold pack_carry in Hr. change (2 ^ prec) with (2 ^ 53) in Hr.
  change (2 ^ (prec - 1)) with (2 ^ 52) in Hr.
  destruct (Z.ltb_spec m0 (2 ^ 53)) as [Hlt | Hge].
  - destruct m0 as [| pm | pm] eqn:Em; try lia.
    exists pm, e0. repeat split; try assumption; lia.
  - assert (Hm0 : m0 = 2 ^ 53) by lia.
    exists (Z.to_pos (2 ^ 52)), (e0 + 1).
    change (Z.pos (Z.to_pos (2 ^ 52))) with (2 ^ 52).
    repeat split; try assumption; try lia.
    intros Hle. specialize (Hnear ltac:(lia)). rewrite Hm0 in Hnear.
    replace (- e0) with (Z.succ (- (e0 + 1))) in Hnear by lia.
    rewrite Z.pow_succ_r in Hnear by lia.
    change (2 ^ 53) with (2 * 2 ^ 52) in Hnear. lia.
Qed.

(** On a small exponent the hundredths of the float are those of the
    price. *)
Lemma cents_same (c : Z) (m : positive) (e : Z) :
  e <= -7 -> 2 * Z.abs (100 * Z.pos m - c * 2 ^ (- e)) <= 100 ->
  PyStr.cents_of m e = c.
Proof.
  intros He Hn. unfold PyStr.cents_of.
  replace (0 <=? e) with false by (symmetry; apply Z.leb_gt; lia).
  assert (2 ^ 7 <= 2 ^ (- e)) by (apply Z.pow_le_mono_r; lia).
  change (2 ^ 7) with 128 in *.
  apply rne_unique; lia.
Qed.

(** On a larger exponent the float is the nearest to its own
    hundredths. *)
Lemma cents_back (m : positive) (e : Z) :
  2 ^ 52 <= Z.pos m < 2 ^ 53 -> -6 <= e ->
  0 < PyStr.cents_of m e
  /\ div_round false (PyStr.cents_of m e) 100 = pack false (Z.pos m) e.
Proof.
  intros Hm He. unfold PyStr.cents_of.
  destruct (Z.leb_spec 0 e) as [Hpos | Hneg].
  - assert (H2e : 0 < 2 ^ e) by (apply pow2_gt0; lia).
    set (c := 100 * Z.pos m * 2 ^ e).
    assert (Hc : 0 < c) by (unfold c; nia).
    split; [exact Hc |].
    assert (Hfl : scaled_floor c 100 e = Z.pos m).
    { unfold scaled_floor. replace (Z.max 0 (- e)) with 0 by lia.
      replace (Z.max 0 e) with e by lia.
      rewrite Z.pow_0_r, Z.mul_1_r. unfold c.
      replace (100 * Z.pos m * 2 ^ e) with (Z.pos m * (100 * 2 ^ e)) by lia.
      apply Z.div_mul. lia. }
    assert (Hrn : scaled_rne c 100 e = Z.pos m).
    { unfold scaled_rne. replace (Z.max 0 (- e)) with 0 by lia.
      replace (Z.max 0 e) with e by lia.
      rewrite Z.pow_0_r, Z.mul_1_r. unfold c.
      replace (100 * Z.pos m * 2 ^ e) with (Z.pos m * (100 * 2 ^ e)) by lia.
      apply rne_exact. lia. }
    destruct (div_round_char false c 100 e Hc ltac:(lia) ltac:(lia)) as [Hr _].
    { unfold binade. rewrite Hfl. exact Hm. }
    rewrite Hr, Hrn. unfold pack_carry.
    replace (Z.pos m <? 2 ^ prec) with true
      by (symmetry; apply Z.ltb_lt; change (2 ^ prec) with (2 ^ 53); lia).
    reflexivity.
  - set (k := 2 ^ (- e)).
    assert (Hk : k = 2 \/ k = 4 \/ k = 8 \/ k = 16 \/ k = 32 \/ k = 64).
    { unfold k.
      assert (Hcases : e = -1 \/ e = -2 \/ e = -3 \/ e = -4 \/ e = -5 \/ e = -6) by lia.
      destruct Hcases as [-> | [-> | [-> | [-> | [-> | ->]]]]]; vm_compute; tauto. }
    pose proof (rne_near (100 * Z.pos m) k ltac:(lia)) as Hn.
    set (c := rne (100 * Z.pos m) k) in *.
    assert (Hexact : Z.pos m = 2 ^ 52 -> k * c = 100 * 2 ^ 52).
    { intros Hm52. unfold c. rewrite Hm52.
      destruct Hk as [-> | [-> | [-> | [-> | [-> | ->]]]]]; vm_compute; reflexivity. }
    assert (H52 : 2 ^ 52 = 4503599627370496) by reflexivity.
    assert (H53 : 2 ^ 53 = 9007199254740992) by reflexivity.
    rewrite H52, H53 in *.
    assert (Hc : 0 < c) by lia.
    split; [exact Hc |].
    assert (Hsf : scaled_floor c 100 e = c * k / 100).
    { unfold scaled_floor. replace (Z.max 0 (- e)) with (- e) by lia.
      replace (Z.max 0 e) with 0 by lia.
      rewrite Z.pow_0_r, Z.mul_1_r. reflexivity. }
    assert (Hrn : scaled_rne c 100 e = Z.pos m).
    { unfold scaled_rne. replace (Z.max 0 (- e)) with (- e) by lia.
      replace (Z.max 0 e) with 0 by lia.
      rewrite Z.pow_0_r, Z.mul_1_r. fold k.
      apply rne_unique; lia. }
    destruct (div_round_char false c 100 e Hc ltac:(lia) ltac:(lia)) as [Hr _].
    { unfold binade. rewrite Hsf.
      change (2 ^ (prec - 1)) with 4503599627370496.
      change (2 ^ prec) with 9007199254740992.
      split.
      - apply Z.div_le_lower_bound; [lia |].
        destruct (Z.eq_dec (Z.pos m) 4503599627370496) as [E | E].
        + specialize (Hexact E). lia.
        + lia.
      - apply Z.div_lt_upper_bound; lia. }
    rewrite Hr, Hrn. unfold pack_carry.
    replace (Z.pos m <? 2 ^ prec) with true
      by (symmetry; apply Z.ltb_lt; change (2 ^ prec) with 9007199254740992; lia).
    reflexivity.
Qed.

Lemma pack_carry_nonzero (s : bool) (m e : Z) :
  2 ^ 52 <= m -> is_zero (pack_carry s m e) = false.
Proof.
  intros Hm. unfold pack_carry.
  destruct (m <? 2 ^ prec).
  - destruct m as [| p | p]; try (exfalso; lia). 
    rewrite pack_pos. now destruct (e <=? 971).
  - change (2 ^ (prec - 1)) with (Z.pos (Z.to_pos (2 ^ 52))).
    rewrite pack_pos. now destruct (e + 1 <=? 971).
Qed.

Lemma loc_of_1 (p : Z) : loc_of p 1 = loc_Exact.
Proof. unfold loc_of. now rewrite Z.mod_1_r. Qed.

(** The float of a positive integer is not zero. *)
Lemma of_Z_pos_nonzero (p : positive) : is_zero (of_Z (Z.pos p)) = false.
Proof.
  unfold of_Z, binary_normalize, binary_round.
  pose proof (digits2_pos_bounds p) as Hb.
  set (d := Z.pos (digits2_pos p)) in *.
  assert (Hd : 0 < d) by (unfold d; lia).
  rewrite (fexp_normal (d + 0)) by lia.
  unfold shl_align.
  replace (d + 0 - 53 - 0) with (d - 53) by lia.
  destruct (d - 53) as [| k | k] eqn:Ek.
  - pose proof (round_normal false (Z.pos p) 1 0 ltac:(lia) ltac:(lia)) as H.
    rewrite Z.div_1_r, loc_of_1 in H. 
    change (Zdigits2 (Z.pos p)) with d in H.
    destruct H as [Hr Hm]; try lia.
    rewrite Hr. apply pack_carry_nonzero. lia.
  - pose proof (round_normal false (Z.pos p) 1 0 ltac:(lia) ltac:(lia)) as H.
    rewrite Z.div_1_r, loc_of_1 in H.
    change (Zdigits2 (Z.pos p)) with d in H.
    destruct H as [Hr Hm]; try lia.
    rewrite Hr. apply pack_carry_nonzero. lia.
  - set (mz := Pos.iter xO p k).
    assert (Hmz : Z.pos mz = Z.pos p * 2 ^ Z.pos k).
    { unfold mz. change (Pos.iter xO p k) with (shift_pos k p).
      rewrite shift_pos_correct.
      change (Z.pow_pos 2 k) with (2 ^ Z.pos k). lia. }
    assert (Hk : Z.pos k = 53 - d) by lia.
    assert (Hdz : Zdigits2 (Z.pos mz) = 53).
    { apply Zdigits2_unique; [lia |]. rewrite Hmz, Hk.
      assert (E1 : 2 ^ (53 - 1) = 2 ^ (d - 1) * 2 ^ (53 - d)).
      { rewrite <- Z.pow_add_r by lia. f_equal. lia. }
      assert (E2 : 2 ^ 53 = 2 ^ d * 2 ^ (53 - d)).
      { rewrite <- Z.pow_add_r by lia. f_equal. lia. }
      assert (0 < 2 ^ (53 - d)) by (apply pow2_gt0; lia).
      rewrite E1, E2. nia. }
    pose proof (round_normal false (Z.pos mz) 1 (Z.neg k) ltac:(lia) ltac:(lia)) as H.
    rewrite Z.div_1_r, loc_of_1, Hdz in H.
    destruct H as [Hr Hm]; try lia.
    replace (d + 0 - 53) with (Z.neg k) by lia.
    rewrite Hr. apply pack_carry_nonzero. lia.
Qed.

End Rounding.

(** ** Reading and writing numbers as text *)

Section Text.

Import PyFloat PyStr.

Ltac each_char a := destruct a as [[] [] [] [] [] [] [] []].

Lemma plain_not_space (a : ascii) : is_plain a = true -> is_space a = false.
Proof. each_char a; vm_compute; congruence. Qed.

Lemma plain_not_underscore (a : ascii) :
  is_plain a = true -> Ascii.eqb a "_"%char = false.
Proof. each_char a; vm_compute; congruence. Qed.

Lemma digit_lower (a : ascii) : is_digit a = true -> lower a = a.
Proof. each_char a; vm_compute; congruence. Qed.

Lemma digit_not_sign (a : ascii) (r : string) :
  is_digit a = true -> read_sign (String a r) = (false, String a r).
Proof. each_char a; vm_compute; congruence. Qed.

Lemma rstrip_plain (s : string) : all_chars is_plain s = true -> rstrip s = s.
Proof.
  induction s as [| a r IH]; [reflexivity |].
  simpl. intros H. apply andb_prop in H as [Ha Hr].
  rewrite (IH Hr). rewrite (plain_not_space a Ha).
  destruct r; reflexivity.
Qed.

Lemma lstrip_plain (s : string) : all_chars is_plain s = true -> lstrip s = s.
Proof.
  destruct s as [| a r]; [reflexivity |].
  simpl. intros H. apply andb_prop in H as [Ha _].
  now rewrite (plain_not_space a Ha).
Qed.

Lemma strip_plain (s : string) : all_chars is_plain s = true -> strip s = s.
Proof.
  intros H. unfold strip. rewrite (lstrip_plain s H). now apply rstrip_plain.
Qed.

Lemma drop_underscores_plain (s : string) (pd : bool) :
  all_chars is_plain s = true -> drop_underscores pd false s = Some s.
Proof.
  revert pd. induction s as [| a r IH]; intros pd; [reflexivity |].
  simpl. intros H. apply andb_prop in H as [Ha Hr].
  rewrite (plain_not_underscore a Ha), (IH _ Hr). reflexivity.
Qed.

Lemma all_chars_app (f : ascii -> bool) (s t : string) :
  all_chars f (s ++ t) = all_chars f s && all_chars f t.
Proof.
  induction s as [| a r IH]; [reflexivity |].
  simpl. rewrite IH. now rewrite andb_assoc.
Qed.

Lemma all_chars_weaken (f g : ascii -> bool) (s : string) :
  (forall a, f a = true -> g a = true) ->
  all_chars f s = true -> all_chars g s = true.
Proof.
  intros Hfg. induction s as [| a r IH]; [reflexivity |].
  simpl. intros H. apply andb_prop in H as [Ha Hr].
  now rewrite (Hfg a Ha), (IH Hr).
Qed.

(** *** The digits of a number *)

Lemma digit_char_ok (d : Z) :
  0 <= d <= 9 ->
  is_digit (digit_char d) = true /\ digit_val (digit_char d) = d.
Proof.
  intros H.
  assert (C : d = 0 \/ d = 1 \/ d = 2 \/ d = 3 \/ d = 4 \/ d = 5 \/ d = 6
              \/ d = 7 \/ d = 8 \/ d = 9) by lia.
  destruct C as [-> | [-> | [-> | [-> | [-> | [-> | [-> | [-> | [-> | ->]]]]]]]]];
    vm_compute; split; reflexivity.
Qed.

Lemma read_digits_stop (acc n : Z) (s : string) :
  stops s -> read_digits acc n s = (acc, n, s).
Proof. destruct s as [| a r]; simpl; [reflexivity | now intros ->]. Qed.

Lemma uint_digits (d : Decimal.uint) :
  all_chars is_digit (NilEmpty.string_of_uint d) = true.
Proof. induction d; simpl; try rewrite IHd; reflexivity. Qed.

Ltac read_one_digit :=
  simpl NilEmpty.string_of_uint; simpl append;
  cbn [read_digits Pos.of_uint_acc];
  match goal with
  | |- context [is_digit ?c] =>
      change (is_digit c) with true; cbv iota;
      let v := eval vm_compute in (digit_val c) in
      change (digit_val c) with v
  end.

Lemma read_uint_acc (d : Decimal.uint) (acc : positive) (n : Z) (rest : string) :
  stops rest ->
  exists n', n <= n' /\
    read_digits (Z.pos acc) n (NilEmpty.string_of_uint d ++ rest)
    = (Z.pos (Pos.of_uint_acc d acc), n', rest).
Proof.
  intros Hs. revert acc n.
  induction d as [| d IH | d IH | d IH | d IH | d IH | d IH | d IH | d IH
                  | d IH | d IH]; intros acc n;
    [ exists n; split; [lia | now apply read_digits_stop] | .. ];
    read_one_digit;
    match goal with
    | |- context [read_digits ?a (n + 1) _] =>
        match goal with
        | |- context [Pos.of_uint_acc d ?b] =>
            replace a with (Z.pos b) by lia;
            destruct (IH b (n + 1)) as (n' & Hn & E);
            exists n'; (split; [lia | exact E])
        end
    end.
Qed.

Lemma read_uint (d : Decimal.uint) (n : Z) (rest : string) :
  stops rest ->
  exists n', n <= n' /\
    read_digits 0 n (NilEmpty.string_of_uint d ++ rest)
    = (Z.of_N (Pos.of_uint d), n', rest).
Proof.
  intros Hs. revert n.
  induction d as [| d IH | d IH | d IH | d IH | d IH | d IH | d IH | d IH
                  | d IH | d IH]; intros n;
    [ exists n; split; [lia | now apply read_digits_stop]
    | read_one_digit; cbn [Pos.of_uint];
      destruct (IH (n + 1)) as (n' & Hn & E); exists n';
      (split; [lia | exact E])
    | read_one_digit; cbn [Pos.of_uint];
      match goal with
      | |- context [read_digits ?a (n + 1) _] =>
          match goal with
          | |- context [Pos.of_uint_acc d ?b] =>
              replace a with (Z.pos b) by lia;
              destruct (read_uint_acc d b (n + 1) rest Hs) as (n' & Hn & E);
              exists n'; (split; [lia | exact E])
          end
      end .. ].
Qed.

Lemma to_uint_nonnil (n : N) : N.to_uint n <> Decimal.Nil.
Proof.
  destruct n as [| p]; [discriminate |].
  apply DecimalPos.Unsigned.to_uint_nonnil.
Qed.

Lemma decimal_eq (v : Z) :
  decimal v = NilEmpty.string_of_uint (N.to_uint (Z.to_N v)).
Proof.
  unfold decimal, NilZero.string_of_uint.
  pose proof (to_uint_nonnil (Z.to_N v)) as Hn.
  destruct (N.to_uint (Z.to_N v)); [congruence | reflexivity ..].
Qed.

Lemma decimal_plain (n : Z) : all_chars is_digit (decimal n) = true.
Proof.
  rewrite decimal_eq. apply uint_digits.
Qed.

(** Reading back the digits of a natural number. *)
Lemma read_decimal (v n : Z) (rest : string) :
  0 <= v -> stops rest ->
  exists n', n <= n' /\ read_digits 0 n (decimal v ++ rest) = (v, n', rest).
Proof.
  intros Hv Hs. rewrite decimal_eq.
  pose proof (DecimalN.Unsigned.of_to (Z.to_N v)) as Hof.
  unfold N.of_uint in Hof.
  destruct (read_uint (N.to_uint (Z.to_N v)) n rest Hs) as (n' & Hn & R).
  exists n'. split; [assumption |]. rewrite R, Hof. f_equal. f_equal. lia.
Qed.

Lemma read_two_digits (acc r : Z) :
  0 <= r < 100 -> read_digits acc 0 (two_digits r) = (100 * acc + r, 2, "").
Proof.
  intros Hr. unfold two_digits.
  assert (H1 : 0 <= r / 10 <= 9).
  { split; [apply Z.div_pos; lia |].
    assert (r / 10 < 10) by (apply Z.div_lt_upper_bound; lia). lia. }
  assert (H0 : 0 <= r mod 10 <= 9) by (pose proof (Z.mod_pos_bound r 10); lia).
  destruct (digit_char_ok _ H1) as [D1 V1].
  destruct (digit_char_ok _ H0) as [D0 V0].
  cbn [read_digits]. rewrite D1, D0, V1, V0.
  pose proof (Z.div_mod r 10 ltac:(lia)).
  f_equal. f_equal. lia.
Qed.

Lemma two_digits_plain (r : Z) :
  0 <= r < 100 -> all_chars is_digit (two_digits r) = true.
Proof.
  intros Hr. unfold two_digits.
  assert (H1 : 0 <= r / 10 <= 9).
  { split; [apply Z.div_pos; lia |].
    assert (r / 10 < 10) by (apply Z.div_lt_upper_bound; lia). lia. }
  assert (H0 : 0 <= r mod 10 <= 9) by (pose proof (Z.mod_pos_bound r 10); lia).
  destruct (digit_char_ok _ H1) as [D1 _].
  destruct (digit_char_ok _ H0) as [D0 _].
  simpl. now rewrite D1, D0.
Qed.

Lemma digit_plain (a : ascii) : is_digit a = true -> is_plain a = true.
Proof. unfold is_plain. now intros ->. Qed.

Lemma fixed2_plain (c : Z) : 0 <= c -> all_chars is_plain (fixed2 c) = true.
Proof.
  intros Hc. unfold fixed2.
  pose proof (Z.mod_pos_bound c 100 ltac:(lia)) as Hr.
  rewrite !all_chars_app.
  rewrite (all_chars_weaken _ _ _ digit_plain (decimal_plain (c / 100))).
  rewrite (all_chars_weaken _ _ _ digit_plain (two_digits_plain _ Hr)).
  reflexivity.
Qed.

Lemma decimal_head (n : Z) :
  exists a r, decimal n = String a r /\ is_digit a = true.
Proof.
  pose proof (decimal_plain n) as Hp.
  assert (Hne : decimal n <> "").
  { rewrite decimal_eq. pose proof (to_uint_nonnil (Z.to_N n)) as Hn.
    destruct (N.to_uint (Z.to_N n)); [congruence | discriminate ..]. }
  destruct (decimal n) as [| a r]; [congruence |].
  exists a, r. simpl in Hp. apply andb_prop in Hp as [Ha _]. now split.
Qed.

Lemma digit_head_not_word (a : ascii) (r : string) :
  is_digit a = true ->
  (String.eqb (lowercase (String a r)) "inf"
   || String.eqb (lowercase (String a r)) "infinity") = false
  /\ String.eqb (lowercase (String a r)) "nan" = false.
Proof.
  intros Ha. simpl lowercase. rewrite (digit_lower a Ha).
  revert Ha. each_char a; vm_compute; intros; try discriminate; split; reflexivity.
Qed.

(** [float] reads the text of a count of hundredths as the nearest float
    to it. *)
Lemma parse_fixed2 (c : Z) :
  0 <= c -> parse_float (fixed2 c) = Some (div_round false c 100).
Proof.
  intros Hc. unfold parse_float.
  rewrite (strip_plain _ (fixed2_plain c Hc)).
  rewrite (drop_underscores_plain _ false (fixed2_plain c Hc)).
  unfold fixed2.
  destruct (decimal_head (c / 100)) as (a & r & Hd & Ha).
  pose proof (read_decimal (c / 100) 0 ("." ++ two_digits (c mod 100))
                ltac:(apply Z.div_pos; lia) eq_refl) as (ni & Hni & Hread).
  pose proof (read_two_digits (c / 100) (c mod 100)
                ltac:(apply Z.mod_pos_bound; lia)) as Hfrac.
  rewrite Hd in *. simpl append in *.
  rewrite (digit_not_sign a _ Ha).
  unfold read_number.
  destruct (digit_head_not_word a (r ++ String "." (two_digits (c mod 100))) Ha)
    as [W1 W2].
  rewrite W1, W2, Hread, Hfrac.
  replace (ni + 2 =? 0) with false by (symmetry; apply Z.eqb_neq; lia).
  simpl read_exponent. cbv iota.
  pose proof (Z.div_mod c 100 ltac:(lia)) as Hdm.
  replace (100 * (c / 100) + c mod 100) with c by lia.
  reflexivity.
Qed.

End Text.

(** ** The round trip of a price through its text *)

Section RoundTrip.

Import PyFloat PyStr DataStorage Spec.

Lemma price_eq (c : Z) : price_of_cents c = div_round false c 100.
Proof. reflexivity. Qed.

(** The text of the float of a price reads back as that float. *)
Lemma format_parse_price (c : Z) :
  0 <= c ->
  (format_2f (price_of_cents c) = "inf" /\ price_of_cents c = S754_infinity false)
  \/ exists c', 0 <= c' /\ format_2f (price_of_cents c) = fixed2 c'
                /\ div_round false c' 100 = price_of_cents c.
Proof.
  intros Hc. rewrite price_eq.
  destruct (Z.eq_dec c 0) as [-> | Hne].
  { right. exists 0. split; [lia | split; reflexivity]. }
  destruct (price_float c ltac:(lia)) as (m & e & Hx & Hm & He & Hn).
  rewrite Hx, pack_pos.
  destruct (Z.leb_spec e 971) as [Hfin | Hinf].
  - right. rewrite pack_pos in Hx.
    replace (e <=? 971) with true in Hx by (symmetry; apply Z.leb_le; lia).
    destruct (Z.le_gt_cases e (-7)) as [Hs | Hl].
    + exists c. split; [lia | split; [| exact Hx]].
      simpl format_2f. now rewrite (cents_same c m e Hs (Hn Hs)).
    + destruct (cents_back m e Hm ltac:(lia)) as [Hpos Hback].
      exists (cents_of m e). split; [lia | split; [reflexivity |]].
      rewrite Hback, pack_pos.
      now replace (e <=? 971) with true by (symmetry; apply Z.leb_le; lia).
  - left. split; reflexivity.
Qed.

Lemma remove_char_plain (c : ascii) (s : string) :
  is_plain c = false -> all_chars is_plain s = true -> remove_char c s = s.
Proof.
  intros Hc. induction s as [| a r IH]; [reflexivity |].
  simpl. intros H. apply andb_prop in H as [Ha Hr].
  destruct (Ascii.eqb_spec a c) as [-> | _]; [congruence |].
  now rewrite (IH Hr).
Qed.

Lemma remove_char_app (c : ascii) (s t : string) :
  remove_char c (s ++ t) = remove_char c s ++ remove_char c t.
Proof.
  induction s as [| a r IH]; [reflexivity |].
  simpl. rewrite IH. now destruct (Ascii.eqb a c).
Qed.

Lemma price_text_round_trip (c : Z) :
  0 <= c ->
  safe_price_convert (PStr ("$" ++ format_2f (price_of_cents c))) = Ok (Some (price_of_cents c)).
Proof.
  intros Hc.
  destruct (format_parse_price c Hc) as [[Hf Hp] | (c' & Hc' & Hf & Hp)];
    rewrite Hf.
  - rewrite Hp. reflexivity.
  - unfold safe_price_convert. simpl append.
    change (remove_char "$" (String "$" (fixed2 c')))
      with (remove_char "$" (fixed2 c')).
    rewrite (remove_char_plain "$" (fixed2 c') eq_refl (fixed2_plain c' Hc')).
    rewrite (remove_char_plain "," (fixed2 c') eq_refl (fixed2_plain c' Hc')).
    unfold float_of_str. rewrite (parse_fixed2 c' Hc'), Hp. reflexivity.
Qed.

Lemma separators_ignored (s1 s2 : string) :
  safe_price_convert (PStr (s1 ++ "," ++ s2))
  = safe_price_convert (PStr (s1 ++ s2)).
Proof.
  unfold safe_price_convert. rewrite !remove_char_app.
  reflexivity.
Qed.

(** C8: a price with two decimal places, written as [f"${x:.2f}"] and
    read back by [safe_price_convert], is the same float; a separator of
    thousands changes nothing in what is read; a float comes back as it
    is. So it is for [123.45] and for ["$1,234.56"]. *)
Theorem price_round_trip :
  (forall c : Z,
      0 <= c ->
      safe_price_convert (PStr ("$" ++ format_2f (price_of_cents c)))
      = Ok (Some (price_of_cents c)))
  /\ (forall s1 s2 : string,
         safe_price_convert (PStr (s1 ++ "," ++ s2))
         = safe_price_convert (PStr (s1 ++ s2)))
  /\ (forall x : float, safe_price_convert (PFloat x) = Ok (Some x))
  /\ "$" ++ format_2f (price_of_cents 12345) = "$123.45"
  /\ safe_price_convert (PStr "$123.45") = Ok (Some (price_of_cents 12345))
  /\ safe_price_convert (PStr "$1,234.56") = Ok (Some (price_of_cents 123456)).
Proof.
  split; [exact price_text_round_trip |].
  split; [exact separators_ignored |].
  split; [reflexivity |].
  repeat split; vm_compute; reflexivity.
Qed.

(** The round trip at a price of 1999.99. *)
Lemma price_round_trip_witness :
  0 <= 199999
  /\ safe_price_convert (PStr ("$" ++ format_2f (price_of_cents 199999)))
     = Ok (Some (price_of_cents 199999)).
Proof.
  split; [lia |]. apply (proj1 price_round_trip). lia.
Defined.

End RoundTrip.

(** ** The daily change of the aggregator *)

Section DailyChange.

Import PyFloat StockMonitor Spec.

Lemma truthy_opt_Some (x : float) : truthy_opt (Some x) = negb (is_zero x).
Proof. reflexivity. Qed.

Lemma daily_change_body_nonzero (cp pc : float) :
  is_zero cp = false -> is_zero pc = false ->
  daily_change_body (Some cp) (Some pc)
  = Ok (Some (change_formula cp pc),
        [Calculated_daily_change (change_formula cp pc)]).
Proof.
  intros Hc Hp. unfold daily_change_body, truediv, truthy_opt, truthy, eq_zero.
  rewrite Hc, Hp. reflexivity.
Qed.

Lemma daily_change_body_guard (cp pc : option float) :
  truthy_opt cp = false \/ truthy_opt pc = false ->
  daily_change_body cp pc = Ok (None, [Cannot_calculate_daily_change]).
Proof.
  intros [H | H]; unfold daily_change_body; rewrite H; simpl.
  - reflexivity.
  - now rewrite orb_true_r.
Qed.

(** C9, as the specification states it, fails on a current price of zero:
    the previous close is present and not zero, and no value comes back
    where the formula gives -100. *)
Lemma daily_change_zero_price :
  let cp := of_Z 0 in
  let pc := of_Z 50 in
  is_zero pc = false
  /\ change_formula cp pc = of_Z (-100)
  /\ fst (calculate_daily_change (Some cp) (Some pc)) = None
  /\ fst (calculate_daily_change (Some cp) (Some pc))
     <> Some (change_formula cp pc).
Proof. vm_compute. repeat split; discriminate. Qed.

(** C9 (amended): when both values are present and neither is zero the
    result is [((current_price - prev_close) / prev_close) * 100]; when
    either is absent or zero there is no result; and in no case does the
    handler of the function run, so the division never meets a zero
    divisor. *)
Theorem calculate_daily_change_spec :
  (forall cp pc : float,
      is_zero cp = false -> is_zero pc = false ->
      fst (calculate_daily_change (Some cp) (Some pc))
      = Some (change_formula cp pc))
  /\ (forall cp pc : option float,
         pc = None \/ eq_zero pc = true \/ cp = None \/ eq_zero cp = true ->
         calculate_daily_change cp pc = (None, [Cannot_calculate_daily_change]))
  /\ (forall (cp pc : option float) (e : exn),
         ~ In (Error_calculating_daily_change e)
              (snd (calculate_daily_change cp pc))).
Proof.
  split; [| split].
  - intros cp pc Hc Hp. unfold calculate_daily_change.
    now rewrite daily_change_body_nonzero.
  - intros cp pc H. unfold calculate_daily_change.
    rewrite daily_change_body_guard; [reflexivity |].
    destruct H as [-> | [H | [-> | H]]]; try (now right); try (now left).
    + right. destruct pc as [p |]; [| reflexivity].
      simpl in H. rewrite truthy_opt_Some, H. reflexivity.
    + left. destruct cp as [c |]; [| reflexivity].
      simpl in H. rewrite truthy_opt_Some, H. reflexivity.
  - intros cp pc e. unfold calculate_daily_change.
    destruct cp as [c |], pc as [p |];
      try (rewrite daily_change_body_guard by (simpl; tauto);
           simpl; intros [H | []]; discriminate).
    destruct (is_zero c) eqn:Hc.
    { rewrite daily_change_body_guard
        by (left; rewrite truthy_opt_Some, Hc; reflexivity).
      simpl; intros [H | []]; discriminate. }
    destruct (is_zero p) eqn:Hp.
    { rewrite daily_change_body_guard
        by (right; rewrite truthy_opt_Some, Hp; reflexivity).
      simpl; intros [H | []]; discriminate. }
    rewrite daily_change_body_nonzero by assumption.
    simpl; intros [H | []]; discriminate.
Qed.

(** The amended statement at work: 150 against a close of 120 is a
    change of 25 percent, and a close of zero gives no value. *)
Lemma calculate_daily_change_spec_witness :
  fst (calculate_daily_change (Some (of_Z 150)) (Some (of_Z 120)))
  = Some (of_Z 25)
  /\ calculate_daily_change (Some (of_Z 150)) (Some (of_Z 0))
     = (None, [Cannot_calculate_daily_change]).
Proof.
  split.
  - rewrite (proj1 calculate_daily_change_spec (of_Z 150) (of_Z 120));
      reflexivity.
  - apply (proj1 (proj2 calculate_daily_change_spec)).
    right; left; reflexivity.
Defined.

End DailyChange.

(** ** The average of the aggregator *)

Section Average.

Import PyFloat StockMonitor Spec.

Lemma collect_step (ps cs : list float) (d : option reading) :
  collect (ps, cs) d
  = ((ps ++ contributing price [d])%list,
     (cs ++ contributing prev_close [d])%list).
Proof.
  unfold collect, contributing, non_null_values. cbn [flat_map].
  destruct d as [r |]; [| now rewrite !app_nil_r].
  destruct (price r) as [p |], (prev_close r) as [c |];
    cbn [app filter];
    repeat match goal with
           | |- context [truthy ?x] => destruct (truthy x)
           end;
    rewrite ?app_nil_r; reflexivity.
Qed.

Lemma contributing_cons (f : reading -> option float) (d : option reading)
    (ds : list (option reading)) :
  contributing f (d :: ds) = (contributing f [d] ++ contributing f ds)%list.
Proof.
  unfold contributing, non_null_values. cbn [flat_map].
  now rewrite app_nil_r, filter_app.
Qed.

Lemma collect_fold (ds : list (option reading)) (ps cs : list float) :
  fold_left collect ds (ps, cs)
  = ((ps ++ contributing price ds)%list,
     (cs ++ contributing prev_close ds)%list).
Proof.
  revert ps cs. induction ds as [| d ds IH]; intros ps cs.
  - simpl. now rewrite !app_nil_r.
  - cbn [fold_left]. rewrite collect_step, IH.
    now rewrite !(contributing_cons _ d ds), !app_assoc.
Qed.

Lemma count_nonzero {A : Type} (x : A) (xs : list A) :
  is_zero (of_Z (Z.of_nat (List.length (x :: xs)))) = false.
Proof.
  change (Z.of_nat (List.length (x :: xs)))
    with (Z.pos (Pos.of_succ_nat (List.length xs))).
  apply of_Z_pos_nonzero.
Qed.

Lemma average_price_body_mean (ds : list (option reading)) :
  contributing price ds <> [] -> contributing prev_close ds <> [] ->
  average_price_body ds
  = Ok ((Some (mean (contributing price ds)),
         Some (mean (contributing prev_close ds))),
        [Calculated_average (mean (contributing price ds))
                            (mean (contributing prev_close ds))]).
Proof.
  intros Hp Hc. unfold average_price_body. rewrite collect_fold. simpl app.
  destruct (contributing price ds) as [| p ps]; [congruence |].
  destruct (contributing prev_close ds) as [| c cs]; [congruence |].
  unfold truediv. rewrite !count_nonzero. reflexivity.
Qed.

Lemma average_price_body_empty (ds : list (option reading)) :
  contributing price ds = [] \/ contributing prev_close ds = [] ->
  exists w, average_price_body ds = Ok ((None, None), [w])
            /\ level_of w = WARNING.
Proof.
  intros H. unfold average_price_body. rewrite collect_fold. simpl app.
  destruct (contributing price ds) as [| p ps].
  - exists No_valid_prices. now split.
  - destruct H as [H | H]; [discriminate |]. rewrite H.
    exists No_valid_previous_close. now split.
Qed.

(** C4, as the specification states it, fails twice. A price of zero is
    not null, yet it is left out of the mean: of the prices 0 and 10 the
    mean is 5 and the function returns 10. And a symbol with no usable
    price is not skipped: [get_stock_status] still emits its row, with
    ["N/A"] in place of the numbers. *)
Lemma average_zero_price_and_placeholder_row :
  let ds := [Some (mk_reading (Some (of_Z 0)) (Some (of_Z 10)) "Acme");
             Some (mk_reading (Some (of_Z 10)) (Some (of_Z 10)) "Acme")] in
  let rs := [mk_reading None (Some (of_Z 10)) "Acme"] in
  non_null_values price ds = [of_Z 0; of_Z 10]
  /\ mean (non_null_values price ds) = of_Z 5
  /\ fst (fst (calculate_average_price ds)) = Some (of_Z 10)
  /\ fst (fst (calculate_average_price ds))
     <> Some (mean (non_null_values price ds))
  /\ non_null_values price (map Some rs) = []
  /\ fst (stock_status_row "ACME" rs ["Yahoo Finance"])
     = mk_quote_row None "ACME" (Some "Acme") (PStr "N/A") (PStr "N/A")
         (PStr "N/A") (Some "Yahoo Finance").
Proof. vm_compute. repeat split; discriminate. Qed.

(** C4 (amended): the two results are the arithmetic means of the prices,
    and of the previous closes, that are neither null nor zero; when
    either list is empty the function returns no value for both and logs
    one warning, and the row of the symbol is still emitted, with ["N/A"]
    for the two prices and the daily change. *)
Theorem calculate_average_price_spec :
  (forall ds : list (option reading),
      contributing price ds <> [] -> contributing prev_close ds <> [] ->
      fst (calculate_average_price ds)
      = (Some (mean (contributing price ds)),
         Some (mean (contributing prev_close ds))))
  /\ (forall ds : list (option reading),
         contributing price ds = [] \/ contributing prev_close ds = [] ->
         fst (calculate_average_price ds) = (None, None)
         /\ exists w, snd (calculate_average_price ds) = [w]
                      /\ level_of w = WARNING)
  /\ (forall (symbol : string) (rs : list reading) (names : list string),
         rs <> [] ->
         contributing price (map Some rs) = []
         \/ contributing prev_close (map Some rs) = [] ->
         exists company sources,
           fst (stock_status_row symbol rs names)
           = mk_quote_row None symbol company na na na sources).
Proof.
  split; [| split].
  - intros ds Hp Hc. unfold calculate_average_price.
    now rewrite average_price_body_mean.
  - intros ds H. unfold calculate_average_price.
    destruct (average_price_body_empty ds H) as (w & E & L). rewrite E.
    split; [reflexivity |]. exists w. now split.
  - intros symbol rs names Hrs H. unfold stock_status_row.
    destruct rs as [| r rs]; [congruence |].
    unfold calculate_average_price.
    destruct (average_price_body_empty (map Some (r :: rs)) H) as (w & E & _).
    rewrite E. cbn. eexists. eexists. reflexivity.
Qed.

(** The amended statement on two sources that agree on the close: the
    mean of 150 and 152 is 151. *)
Lemma calculate_average_price_spec_witness :
  fst (calculate_average_price
         [Some (mk_reading (Some (of_Z 150)) (Some (of_Z 148)) "Acme");
          Some (mk_reading (Some (of_Z 152)) (Some (of_Z 148)) "N/A")])
  = (Some (of_Z 151), Some (of_Z 148)).
Proof.
  rewrite (proj1 calculate_average_price_spec);
    vm_compute; first [reflexivity | discriminate].
Defined.

End Average.

(** ** The comparator *)

Section Comparison.

Import PyFloat DataStorage Spec.

Lemma compared_fields_some (prev_row r : quote_row) (c : comparison_row) :
  compared_fields prev_row r = Ok (Some c) ->
  all_set c
  /\ exists pp pd cp cd,
       safe_price_convert (q_Current_Price prev_row) = Ok (Some pp)
       /\ safe_percent_convert (q_Daily_Change prev_row) = Ok (Some pd)
       /\ safe_price_convert (q_Current_Price r) = Ok (Some cp)
       /\ safe_percent_convert (q_Daily_Change r) = Ok (Some cd).
Proof.
  unfold compared_fields.
  destruct (safe_price_convert (q_Current_Price prev_row)) as [[pp |] |];
    destruct (safe_percent_convert (q_Daily_Change prev_row)) as [[pd |] |];
    destruct (safe_price_convert (q_Current_Price r)) as [[cp |] |];
    destruct (safe_percent_convert (q_Daily_Change r)) as [[cd |] |];
    simpl; intros H; try discriminate.
  injection H as <-. split.
  - repeat split.
  - exists pp, pd, cp, cd. repeat split.
Qed.

Lemma compare_row_cases (previous_df : list quote_row) (r : quote_row) :
  fst (compare_row previous_df r) = unset r
  \/ exists prev_row c,
       find (fun p => String.eqb (q_Symbol p) (q_Symbol r)) previous_df
       = Some prev_row
       /\ compared_fields prev_row r = Ok (Some c)
       /\ fst (compare_row previous_df r) = c.
Proof.
  unfold compare_row.
  destruct (find _ previous_df) as [prev_row |]; [| now left].
  destruct (compared_fields prev_row r) as [[c |] | e] eqn:E;
    [right; now exists prev_row, c | now left | now left].
Qed.

Lemma compare_with_previous_map (self : StockDataStorage)
    (current_df previous_df : list quote_row) :
  fst (get_latest_data self) = Some previous_df ->
  fst (compare_with_previous self current_df)
  = Some (map (fun r => fst (compare_row previous_df r)) current_df).
Proof.
  intros H. unfold compare_with_previous.
  destruct (get_latest_data self) as [previous log1]. simpl in H. subst previous.
  simpl. now rewrite map_map.
Qed.

(** C10: the four comparison columns of a record are set together or
    not at all. The frame that [compare_with_previous] returns holds, for
    each current record, its row alone compared with the previous frame;
    when one of the four conversions of a record yields no value its four
    columns stay unset, whatever the other three conversions gave; and in
    every case the four columns are all unset or all set. *)
Theorem compare_all_or_nothing
    (self : StockDataStorage) (current_df previous_df : list quote_row) :
  fst (get_latest_data self) = Some previous_df ->
  fst (compare_with_previous self current_df)
  = Some (map (fun r => fst (compare_row previous_df r)) current_df)
  /\ (forall r prev_row,
         find (fun p => String.eqb (q_Symbol p) (q_Symbol r)) previous_df
         = Some prev_row ->
         safe_price_convert (q_Current_Price prev_row) = Ok None
         \/ safe_percent_convert (q_Daily_Change prev_row) = Ok None
         \/ safe_price_convert (q_Current_Price r) = Ok None
         \/ safe_percent_convert (q_Daily_Change r) = Ok None ->
         all_unset (fst (compare_row previous_df r)))
  /\ (forall r,
         all_unset (fst (compare_row previous_df r))
         \/ all_set (fst (compare_row previous_df r))).
Proof.
  intros Hprev. split; [now apply compare_with_previous_map |]. split.
  - intros r prev_row Hfind Hnone.
    destruct (compare_row_cases previous_df r) as [-> | (p & c & Hf & Hc & _)].
    + repeat split.
    + rewrite Hfind in Hf. injection Hf as <-.
      apply compared_fields_some in Hc as (_ & pp & pd & cp & cd & E1 & E2 & E3 & E4).
      destruct Hnone as [H | [H | [H | H]]]; congruence.
  - intros r.
    destruct (compare_row_cases previous_df r) as [-> | (p & c & _ & Hc & ->)].
    + left. repeat split.
    + right. now apply compared_fields_some in Hc.
Qed.

(** The case that C10 singles out: both prices convert, the current
    daily change is missing, and the price columns stay unset with the
    others. *)
Lemma compare_all_or_nothing_witness :
  let self :=
    mk_storage (of_Z 5)
      (mk_connection true
         [mk_snapshot 1000 "AAPL" (Some "Apple") (Some 10000) (Some 9900)
            (Some 101) (Some "Yahoo Finance")]) in
  let r := mk_quote_row None "AAPL" (Some "Apple") (PStr "$106.00")
             (PStr "$99.00") PNone (Some "Yahoo Finance") in
  let prev_row := mk_quote_row (Some 1000) "AAPL" (Some "Apple")
                    (PStr "$100.00") (PStr "$99.00") (PStr "1.01%")
                    (Some "Yahoo Finance") in
  safe_price_convert (q_Current_Price prev_row) = Ok (Some (of_Z 100))
  /\ safe_price_convert (q_Current_Price r) = Ok (Some (of_Z 106))
  /\ all_unset (fst (compare_row [prev_row] r))
  /\ fst (compare_with_previous self [r]) = Some [unset r].
Proof.
  intros self r prev_row.
  split; [vm_compute; reflexivity |]. split; [vm_compute; reflexivity |].
  destruct (compare_all_or_nothing self [r] [prev_row] eq_refl)
    as (Hmap & Hnone & _).
  split.
  - apply (Hnone r prev_row eq_refl). right. right. right. reflexivity.
  - rewrite Hmap. reflexivity.
Defined.

End Comparison.

(** ** The latest snapshot *)

Section Latest.

Import PyFloat DataStorage.

Lemma max_timestamp_from (rows : list snapshot) (a : Z) :
  fold_left (fun acc r => match acc with
                          | None => Some (timestamp r)
                          | Some m => Some (Z.max m (timestamp r))
                          end) rows (Some a)
  = Some (fold_left Z.max (map timestamp rows) a).
Proof.
  revert a. induction rows as [| r rows IH]; intros a; [reflexivity |].
  simpl. apply IH.
Qed.

Lemma fold_max_ge (ts : list Z) (a : Z) :
  a <= fold_left Z.max ts a /\ Forall (fun t => t <= fold_left Z.max ts a) ts.
Proof.
  revert a. induction ts as [| t ts IH]; intros a; simpl.
  - split; [lia | constructor].
  - destruct (IH (Z.max a t)) as [H1 H2]. split; [lia |].
    constructor; [lia | exact H2].
Qed.

Lemma fold_max_in (ts : list Z) (a : Z) :
  fold_left Z.max ts a = a \/ In (fold_left Z.max ts a) ts.
Proof.
  revert a. induction ts as [| t ts IH]; intros a; simpl; [now left |].
  destruct (IH (Z.max a t)) as [H | H]; [| now right; right].
  rewrite H. destruct (Z.max_spec a t) as [[_ E] | [_ E]]; rewrite E; auto.
Qed.

(** [MAX(timestamp)] is a timestamp of the table that no other exceeds,
    and [NULL] on the empty table only. *)
Lemma max_timestamp_spec (rows : list snapshot) :
  match max_timestamp rows with
  | None => rows = []
  | Some m => In m (map timestamp rows)
              /\ forall r, In r rows -> timestamp r <= m
  end.
Proof.
  unfold max_timestamp. destruct rows as [| r rows]; [reflexivity |].
  cbn [fold_left]. rewrite max_timestamp_from.
  destruct (fold_max_ge (map timestamp rows) (timestamp r)) as [H1 H2].
  rewrite Forall_forall in H2. split.
  - destruct (fold_max_in (map timestamp rows) (timestamp r)) as [E | HIn].
    + rewrite E. now left.
    + now right.
  - intros r' [<- | HIn]; [exact H1 |].
    apply H2. now apply in_map.
Qed.

(** The test of the [WHERE] clause, on a row of the table: no row of the
    table is later. *)
Lemma is_latest_iff (rows : list snapshot) (r : snapshot) :
  In r rows ->
  is_latest (max_timestamp rows) r
  = forallb (fun r' => timestamp r' <=? timestamp r) rows.
Proof.
  intros HIn. pose proof (max_timestamp_spec rows) as Hs.
  destruct (max_timestamp rows) as [m |]; [| subst rows; contradiction].
  destruct Hs as [Hm Hle]. simpl.
  apply in_map_iff in Hm as (r0 & E0 & H0).
  destruct (Z.eqb_spec (timestamp r) m) as [E | N]; symmetry.
  - apply forallb_forall. intros r' Hr'. apply Z.leb_le.
    rewrite E. now apply Hle.
  - apply not_true_is_false. intros Hall.
    rewrite forallb_forall in Hall. specialize (Hall r0 H0).
    apply Z.leb_le in Hall. specialize (Hle r HIn). lia.
Qed.

(** C2, as the specification states it, fails on the empty table: the
    query runs and an empty frame comes back, not [None]. *)
Lemma latest_of_empty_storage :
  let self := mk_storage (of_Z 5) (mk_connection true []) in
  stock_snapshots (conn self) = []
  /\ fst (get_latest_data self) = Some []
  /\ fst (get_latest_data self) <> None.
Proof. repeat split. discriminate. Qed.

(** C2 (amended): while the connection is open, [get_latest_data]
    returns the rows of the table that no row exceeds in [timestamp],
    each through the [SELECT] list, in the order of the table; on an
    empty table that is the empty frame; [None] comes back when the query
    fails, and only then. *)
Theorem get_latest_data_spec (self : StockDataStorage) :
  let rows := stock_snapshots (conn self) in
  (is_open (conn self) = true ->
   fst (get_latest_data self)
   = Some (map latest_row
             (filter (fun r => forallb (fun r' => timestamp r' <=? timestamp r)
                                       rows) rows))
   /\ (rows = [] -> fst (get_latest_data self) = Some []))
  /\ (fst (get_latest_data self) = None <-> is_open (conn self) = false).
Proof.
  intros rows. unfold get_latest_data, execute_latest. fold rows.
  destruct (is_open (conn self)); simpl.
  - split; [| split; discriminate]. intros _. split.
    + do 2 f_equal. apply filter_ext_in. intros r Hr.
      now apply is_latest_iff.
    + now intros ->.
  - split; [discriminate | split; reflexivity].
Qed.

(** Two polls in the table, the later one comes back, both symbols. *)
Lemma get_latest_data_spec_witness :
  let a1 := mk_snapshot 1000 "AAPL" (Some "Apple") (Some 10000) (Some 9900)
              (Some 101) (Some "Yahoo Finance") in
  let a2 := mk_snapshot 2000 "AAPL" (Some "Apple") (Some 10600) (Some 9900)
              (Some 707) (Some "Yahoo Finance") in
  let m2 := mk_snapshot 2000 "MSFT" (Some "Microsoft") (Some 40000)
              (Some 40100) (Some (-25)) (Some "Yahoo Finance") in
  let self := mk_storage (of_Z 5) (mk_connection true [a1; a2; m2]) in
  is_open (conn self) = true
  /\ fst (get_latest_data self) = Some [latest_row a2; latest_row m2].
Proof.
  intros a1 a2 m2 self. split; [reflexivity |].
  rewrite (proj1 (proj1 (get_latest_data_spec self) eq_refl)). reflexivity.
Defined.

End Latest.

(** ** Saving a batch *)

Section Saving.

Import PyFloat DataStorage Spec.

(** C1, as the specification states it, fails: the write of the batch
    raises, on a closed connection and on a key that the table already
    holds, and [save_stock_data] ends for its caller as it does after a
    write that went through, with the table as it was. *)
Lemma save_swallows_write_failure :
  let row := mk_quote_row None "AAPL" (Some "Apple") (PStr "$106.00")
               (PStr "$99.00") (PStr "7.07%") (Some "Yahoo Finance") in
  let held := mk_snapshot 1000 "AAPL" (Some "Apple") (Some 10000) (Some 9900)
                (Some 101) (Some "Yahoo Finance") in
  let closed := mk_storage (of_Z 5) (mk_connection false [held]) in
  let opened := mk_storage (of_Z 5) (mk_connection true [held]) in
  save_attempt nearest_hundredth closed [row] 2000
  = Raise (DuckDBError ConnectionClosed)
  /\ save_stock_data nearest_hundredth closed [row] (Some 2000) 0
     = (Ok tt, closed, [Error_saving_stock_data (DuckDBError ConnectionClosed)])
  /\ save_attempt nearest_hundredth opened [row] 1000
     = Raise (DuckDBError ConstraintViolation)
  /\ save_stock_data nearest_hundredth opened [row] (Some 1000) 0
     = (Ok tt, opened,
        [Error_saving_stock_data (DuckDBError ConstraintViolation)])
  /\ fst (fst (save_stock_data nearest_hundredth opened [row] (Some 1000) 0))
     = fst (fst (save_stock_data nearest_hundredth opened [row] (Some 2000) 0)).
Proof. vm_compute. repeat split. Qed.

(** C1 (amended): whatever the cast of the database, [save_stock_data]
    never raises to its caller; when the write of the batch fails, the
    exception is logged as an error, the storage is left as it was and
    the call ends as after a success. *)
Theorem save_stock_data_never_raises
    (cast : Z -> float -> outcome (option Z)) (self : StockDataStorage)
    (df : list quote_row) (timestamp : option Z) (now : Z) :
  let ts := match timestamp with Some t => t | None => now end in
  fst (fst (save_stock_data cast self df timestamp now)) = Ok tt
  /\ (forall e, save_attempt cast self df ts = Raise e ->
                save_stock_data cast self df timestamp now
                = (Ok tt, self, [Error_saving_stock_data e]))
  /\ (forall c, save_attempt cast self df ts = Ok c ->
                save_stock_data cast self df timestamp now
                = (Ok tt, mk_storage (price_change_threshold self) c,
                   [Saved_stock_data ts])).
Proof.
  intros ts. unfold save_stock_data. fold ts.
  destruct (save_attempt cast self df ts) as [c | e].
  - repeat split; [discriminate |]. now intros c' [= <-].
  - repeat split; [| discriminate]. now intros e' [= <-].
Qed.

(** A text that is no number in the batch: the conversion raises
    [ValueError], nothing is written and the call ends normally. *)
Lemma save_stock_data_never_raises_witness :
  let row := mk_quote_row None "AAPL" (Some "N/A") (PStr "N/A") (PStr "N/A")
               (PStr "N/A") (Some "N/A") in
  let self := mk_storage (of_Z 5) (mk_connection true []) in
  save_attempt nearest_hundredth self [row] 7 = Raise ValueError
  /\ save_stock_data nearest_hundredth self [row] None 7
     = (Ok tt, self, [Error_saving_stock_data ValueError]).
Proof.
  intros row self. split; [reflexivity |].
  apply (proj1 (proj2 (save_stock_data_never_raises
                         nearest_hundredth self [row] None 7))).
  reflexivity.
Defined.

End Saving.

(** ** The analysis and the report *)

Section Analysis.

Import PyFloat DataStorage Spec.

Lemma analyze_rows_app (thr : float) (a : alerts)
    (before after : list comparison_row) :
  analyze_rows thr a (before ++ after)
  = bind (analyze_rows thr a before) (fun a1 => analyze_rows thr a1 after).
Proof.
  revert a. induction before as [| r before IH]; intros a; [reflexivity |].
  simpl. destruct (analyze_row thr a r) as [a1 | e]; [apply IH | reflexivity].
Qed.

(** One record that raises ends the analysis of the batch. *)
Lemma analyze_rows_abort (thr : float) (a a1 : alerts) (e : exn)
    (before after : list comparison_row) (bad : comparison_row) :
  analyze_rows thr a before = Ok a1 ->
  analyze_row thr a1 bad = Raise e ->
  analyze_rows thr a (before ++ bad :: after) = Raise e.
Proof.
  intros Hb He. rewrite analyze_rows_app, Hb. simpl. now rewrite He.
Qed.

Lemma report_starts_with_newline (a : alerts) :
  exists rest, PyStr.join newline (report_lines a) = String (ascii_of_nat 10) rest.
Proof.
  unfold report_lines, summary_lines. cbn [app PyStr.join].
  eexists. reflexivity.
Qed.

(** The sentinel comes back when the analysis returned [None], and only
    then. *)
Lemma report_sentinel_iff (self : StockDataStorage)
    (comparison_df : list comparison_row) :
  fst (generate_report self comparison_df) = no_changes
  <-> fst (analyze_price_changes self comparison_df) = None.
Proof.
  unfold generate_report.
  destruct (analyze_price_changes self comparison_df) as [[a |] log];
    cbn [fst].
  - split; [| discriminate]. intros H.
    destruct (report_starts_with_newline a) as [rest E].
    rewrite E in H. discriminate.
  - split; reflexivity.
Qed.

(** C6 on the empty frame: the analysis yields no alert at all, both
    lists are empty, and the report is the header with a summary of
    zeros, not the sentinel. *)
Theorem report_of_no_alerts (self : StockDataStorage) :
  fst (analyze_price_changes self []) = Some (mk_alerts [] [] 0 0 0 0)
  /\ fst (generate_report self []) <> no_changes
  /\ fst (generate_report self [])
     = PyStr.join newline
         [ newline ++ "Price Movement Analysis Report";
           "==================================================";
           newline ++ "Summary:";
           "Total Symbols Analyzed: 0";
           "Significant Changes Detected: 0";
           "Positive Changes: 0";
           "Negative Changes: 0" ].
Proof.
  split; [reflexivity |]. split; [| reflexivity].
  intros H. apply report_sentinel_iff in H. discriminate.
Qed.

(** C7 on a batch of two records: the comparison sets the columns of
    both, the current price of the second has a separator of thousands,
    which [safe_price_convert] strips and the analysis does not; the
    analysis of the batch returns [None], and the alert of the first
    record, which the analysis of that record alone gives, is lost. *)
Theorem analysis_aborts_on_one_record :
  let self :=
    mk_storage (of_Z 5)
      (mk_connection true
         [mk_snapshot 1000 "AAPL" (Some "Apple") (Some 10000) (Some 9900)
            (Some 101) (Some "Yahoo Finance");
          mk_snapshot 1000 "BRK" (Some "Berkshire") (Some 120000)
            (Some 119000) (Some 84) (Some "Yahoo Finance")]) in
  let aapl := mk_quote_row None "AAPL" (Some "Apple") (PStr "$106.00")
                (PStr "$99.00") (PStr "7.07%") (Some "Yahoo Finance") in
  let brk := mk_quote_row None "BRK" (Some "Berkshire") (PStr "$1,234.56")
               (PStr "$1,190.00") (PStr "3.74%") (Some "Yahoo Finance") in
  let good := mk_comparison_row aapl (PStr "$100.00") (PStr "$6.00")
                (PStr "1.01%") (PStr "6.06%") in
  let bad := mk_comparison_row brk (PStr "$1200.00") (PStr "$34.56")
               (PStr "0.84%") (PStr "2.90%") in
  fst (compare_with_previous self [aapl; brk]) = Some [good; bad]
  /\ analyze_price_changes self [good; bad]
     = (None, [Error_analyzing ValueError])
  /\ fst (analyze_price_changes self [good])
     = Some (mk_alerts
               [mk_price_alert "AAPL" (Some "Apple") (of_Z 106) (of_Z 100)
                  (of_Z 6) "increase"]
               [mk_daily_alert "AAPL" (Some "Apple") (price_of_cents 707)
                  (price_of_cents 101) (price_of_cents 606)]
               1 1 1 0)
  /\ fst (generate_report self [good; bad]) = no_changes.
Proof. vm_compute. repeat split. Qed.

Lemma to_float_str (s : string) (c : ascii) (x : float) :
  PyStr.parse_float (PyStr.remove_char c s) = Some x ->
  to_float (PStr s) c = Ok x.
Proof.
  intros H. unfold to_float, str_replace, PyStr.float_of_str. simpl.
  now rewrite H.
Qed.

(** The first half of the loop body on a record with its two prices. *)
Lemma check_price_spec (thr : float) (a : alerts) (r : comparison_row)
    (cur prev : float) :
  has_prices r cur prev -> is_zero prev = false ->
  isna (Previous_Price r) || isna (Current_Price r) = false
  /\ exists a1,
       check_price thr a r = Ok a1
       /\ significant_changes a1
          = (significant_changes a
             ++ (if leb thr (abs (change_formula cur prev))
                 then [expected_alert r cur prev] else []))%list
       /\ daily_change_alerts a1 = daily_change_alerts a.
Proof.
  intros (sc & sp & Hc & Hp & Pc & Pp) Hz. split.
  - now rewrite Hc, Hp.
  - unfold check_price. rewrite Hc, Hp.
    rewrite (to_float_str sc "$" cur Pc), (to_float_str sp "$" prev Pp).
    cbn [bind]. unfold truediv. rewrite Hz. cbn [bind].
    fold (change_formula cur prev).
    destruct (leb thr (abs (change_formula cur prev))).
    + eexists. split; [reflexivity |]. split; reflexivity.
    + exists a. split; [reflexivity |]. split; [| reflexivity].
      now rewrite app_nil_r.
Qed.

Lemma price_alerts_of_prices (thr : float) (r : comparison_row)
    (cur prev : float) :
  has_prices r cur prev ->
  price_alerts_of thr r
  = if leb thr (abs (change_formula cur prev))
    then [expected_alert r cur prev] else [].
Proof.
  intros (sc & sp & Hc & Hp & Pc & Pp). unfold price_alerts_of.
  now rewrite Hc, Hp, Pc, Pp.
Qed.

Lemma price_alerts_of_skipped (thr : float) (r : comparison_row) :
  isna (Previous_Price r) || isna (Current_Price r) = true ->
  price_alerts_of thr r = [].
Proof.
  unfold price_alerts_of.
  destruct (Current_Price r) as [| x | sc], (Previous_Price r) as [| y | sp];
    try reflexivity.
  discriminate.
Qed.

(** C3: the rule of the price alert is the one of the claim, and a
    record that meets it can go without its alert. The storage holds a
    poll of two shares; the current frame has the first at 106.00 after
    100.00, the second at 2,750.00 after 2,700.00, written with a separator
    of thousands. The comparison fills both records. The first has both
    prices, a previous price that is not zero and a change of 6 percent at
    a threshold of 5: alone it gives one alert, of 6.00 percent, an
    increase, and at 104.00 it gives none. With the second record in the
    frame the analysis returns [None]: no alert for the first record. The
    second record has both prices too, and alone it gives [None] as
    well. It is the defect of C7: one handler around the whole loop, and a
    conversion that does not strip the separator. *)
Theorem price_alert_lost_with_batch :
  let self :=
    mk_storage (of_Z 5)
      (mk_connection true
         [mk_snapshot 1000 "AAPL" (Some "Apple") (Some 10000) (Some 9900)
            (Some 101) (Some "Yahoo Finance");
          mk_snapshot 1000 "GOOG" (Some "Alphabet") (Some 270000)
            (Some 268000) (Some 75) (Some "Yahoo Finance")]) in
  let aapl := mk_quote_row None "AAPL" (Some "Apple") (PStr "$106.00")
                (PStr "$99.00") (PStr "7.07%") (Some "Yahoo Finance") in
  let goog := mk_quote_row None "GOOG" (Some "Alphabet") (PStr "$2,750.00")
                (PStr "$2,680.00") (PStr "2.61%") (Some "Yahoo Finance") in
  let good := mk_comparison_row aapl (PStr "$100.00") (PStr "$6.00")
                (PStr "1.01%") (PStr "6.06%") in
  let bad := mk_comparison_row goog (PStr "$2700.00") (PStr "$50.00")
               (PStr "0.75%") (PStr "1.86%") in
  let alert := mk_price_alert "AAPL" (Some "Apple") (of_Z 106) (of_Z 100)
                 (of_Z 6) "increase" in
  fst (compare_with_previous self [aapl; goog]) = Some [good; bad]
  /\ isna (Previous_Price good) || isna (Current_Price good) = false
  /\ to_float (Current_Price good) "$" = Ok (of_Z 106)
  /\ to_float (Previous_Price good) "$" = Ok (of_Z 100)
  /\ is_zero (of_Z 100) = false
  /\ change_formula (of_Z 106) (of_Z 100) = of_Z 6
  /\ leb (price_change_threshold self) (abs (of_Z 6)) = true
  /\ option_map significant_changes (fst (analyze_price_changes self [good]))
     = Some [alert]
  /\ PyStr.format_2f (change_pct alert) = "6.00"
  /\ option_map significant_changes
       (fst (analyze_price_changes self [moved "$100.00" "$104.00" "$4.00"]))
     = Some []
  /\ analyze_price_changes self [good; bad]
     = (None, [Error_analyzing ValueError])
  /\ analyze_price_changes self [bad; good]
     = (None, [Error_analyzing ValueError])
  /\ isna (Previous_Price bad) || isna (Current_Price bad) = false
  /\ safe_price_convert (Current_Price bad) = Ok (Some (of_Z 2750))
  /\ analyze_price_changes self [bad] = (None, [Error_analyzing ValueError]).
Proof. vm_compute. repeat split. Qed.

End Analysis.

(** ** The daily summary *)

Section View.

Import PyFloat DataStorage Spec.

Lemma same_key_sym (a b : snapshot) : same_key a b = same_key b a.
Proof. unfold same_key. now rewrite Z.eqb_sym, String.eqb_sym. Qed.

Lemma ranked_from_rows (before rest : list snapshot) :
  map row (ranked_from before rest) = rest.
Proof.
  revert before. induction rest as [| r after IH]; intros before;
    [reflexivity |].
  simpl. now rewrite IH.
Qed.

(** A row of [ranked_data] carries the ranks of its place in the table. *)
Lemma ranked_from_In (before rest : list snapshot) (x : ranked) :
  In x (ranked_from before rest) ->
  exists b a,
    (before ++ rest = b ++ row x :: a)%list
    /\ asc x = rn_asc b a (row x) /\ desc x = rn_desc b a (row x).
Proof.
  revert before. induction rest as [| r after IH]; intros before;
    [contradiction |].
  simpl. intros [<- | HIn].
  - exists before, after. repeat split.
  - destruct (IH _ HIn) as (b & a & E & Ha & Hd).
    exists b, a. rewrite <- app_assoc in E. repeat split; assumption.
Qed.

Lemma count_zero {A : Type} (f : A -> bool) (xs : list A) :
  count f xs = 0 <-> forall x, In x xs -> f x = false.
Proof.
  unfold count. induction xs as [| x xs IH]; simpl.
  - split; [intros _ y [] | reflexivity].
  - destruct (f x) eqn:E; simpl.
    + split; [lia |]. intros H. specialize (H x (or_introl eq_refl)). congruence.
    + rewrite IH. split.
      * intros H y [<- | Hy]; [assumption | now apply H].
      * intros H y Hy. apply H. now right.
Qed.

Lemma count_nonneg {A : Type} (f : A -> bool) (xs : list A) : 0 <= count f xs.
Proof. unfold count. lia. Qed.

(** Under the primary key a row of the table has its key to itself. *)
Lemma pk_unique_split (b a : list snapshot) (r : snapshot) :
  pk_unique (b ++ r :: a) = true ->
  (forall x, In x b -> same_key x r = false)
  /\ (forall x, In x a -> same_key r x = false).
Proof.
  induction b as [| y b IH]; simpl; intros H;
    apply andb_prop in H as [H1 H2]; apply negb_true_iff in H1.
  - split; [intros x [] |].
    intros x Hx. destruct (same_key r x) eqn:E; [| reflexivity].
    assert (existsb (same_key r) a = true)
      by (apply existsb_exists; now exists x).
    congruence.
  - destruct (IH H2) as [Hb Ha]. split; [| exact Ha].
    intros x [Exy | Hx]; [subst y | now apply Hb].
    destruct (same_key x r) eqn:E; [| reflexivity].
    assert (existsb (same_key x) (b ++ r :: a) = true).
    { apply existsb_exists. exists r. split; [| assumption].
      apply in_or_app. right. now left. }
    congruence.
Qed.

Lemma pk_unique_In_eq (rows : list snapshot) (r r' : snapshot) :
  pk_unique rows = true -> In r rows -> In r' rows ->
  same_key r r' = true -> r = r'.
Proof.
  induction rows as [| x rows IH]; [contradiction |].
  simpl. intros H. apply andb_prop in H as [H1 H2].
  apply negb_true_iff in H1.
  intros [-> | Hr] [-> | Hr'] Hk; try reflexivity.
  - assert (existsb (same_key r) rows = true)
      by (apply existsb_exists; now exists r').
    congruence.
  - assert (existsb (same_key r') rows = true).
    { apply existsb_exists. exists r. split; [assumption |].
      now rewrite same_key_sym. }
    congruence.
  - now apply IH.
Qed.

Lemma same_partition_key (r r' : snapshot) :
  same_partition r r' = true -> timestamp r = timestamp r' ->
  same_key r r' = true.
Proof.
  unfold same_partition, same_key. intros H E.
  apply andb_prop in H as [_ Hs]. rewrite Hs, E, Z.eqb_refl. reflexivity.
Qed.

(** The row ranked first in time order is the earliest of its partition. *)
Lemma rn_asc_first (b a : list snapshot) (r : snapshot) :
  pk_unique (b ++ r :: a) = true ->
  (rn_asc b a r =? 1) = true
  <-> (forall r', In r' (b ++ r :: a) -> same_partition r' r = true ->
                  timestamp r <= timestamp r').
Proof.
  intros Hpk. destruct (pk_unique_split b a r Hpk) as [Hb Ha].
  unfold rn_asc. rewrite Z.eqb_eq.
  pose proof (count_nonneg
    (fun x => same_partition x r && (timestamp x <=? timestamp r)) b) as N1.
  pose proof (count_nonneg
    (fun x => same_partition x r && (timestamp x <? timestamp r)) a) as N2.
  split.
  - intros H.
    assert (C1 : count (fun x => same_partition x r
                                 && (timestamp x <=? timestamp r)) b = 0) by lia.
    assert (C2 : count (fun x => same_partition x r
                                 && (timestamp x <? timestamp r)) a = 0) by lia.
    rewrite count_zero in C1, C2.
    intros r' HIn Hp. apply in_app_or in HIn as [Hin | [<- | Hin]].
    + specialize (C1 r' Hin). rewrite Hp in C1. simpl in C1.
      apply Z.leb_gt in C1. lia.
    + lia.
    + specialize (C2 r' Hin). rewrite Hp in C2. simpl in C2.
      apply Z.ltb_ge in C2. lia.
  - intros H.
    assert (C1 : count (fun x => same_partition x r
                                 && (timestamp x <=? timestamp r)) b = 0).
    { apply count_zero. intros x Hx.
      destruct (same_partition x r) eqn:Hp; [simpl | reflexivity].
      apply Z.leb_gt.
      assert (timestamp r <= timestamp x)
        by (apply H; [apply in_or_app; now left | assumption]).
      destruct (Z.eq_dec (timestamp x) (timestamp r)) as [E | N]; [| lia].
      specialize (Hb x Hx).
      rewrite (same_partition_key x r Hp E) in Hb. discriminate. }
    assert (C2 : count (fun x => same_partition x r
                                 && (timestamp x <? timestamp r)) a = 0).
    { apply count_zero. intros x Hx.
      destruct (same_partition x r) eqn:Hp; [simpl | reflexivity].
      apply Z.ltb_ge. apply H; [| assumption].
      apply in_or_app. right. now right. }
    lia.
Qed.

(** The row ranked first in reverse time order is the latest. *)
Lemma rn_desc_first (b a : list snapshot) (r : snapshot) :
  pk_unique (b ++ r :: a) = true ->
  (rn_desc b a r =? 1) = true
  <-> (forall r', In r' (b ++ r :: a) -> same_partition r' r = true ->
                  timestamp r' <= timestamp r).
Proof.
  intros Hpk. destruct (pk_unique_split b a r Hpk) as [Hb Ha].
  unfold rn_desc. rewrite Z.eqb_eq.
  pose proof (count_nonneg
    (fun x => same_partition x r && (timestamp r <=? timestamp x)) b) as N1.
  pose proof (count_nonneg
    (fun x => same_partition x r && (timestamp r <? timestamp x)) a) as N2.
  split.
  - intros H.
    assert (C1 : count (fun x => same_partition x r
                                 && (timestamp r <=? timestamp x)) b = 0) by lia.
    assert (C2 : count (fun x => same_partition x r
                                 && (timestamp r <? timestamp x)) a = 0) by lia.
    rewrite count_zero in C1, C2.
    intros r' HIn Hp. apply in_app_or in HIn as [Hin | [<- | Hin]].
    + specialize (C1 r' Hin). rewrite Hp in C1. simpl in C1.
      apply Z.leb_gt in C1. lia.
    + lia.
    + specialize (C2 r' Hin). rewrite Hp in C2. simpl in C2.
      apply Z.ltb_ge in C2. lia.
  - intros H.
    assert (C1 : count (fun x => same_partition x r
                                 && (timestamp r <=? timestamp x)) b = 0).
    { apply count_zero. intros x Hx.
      destruct (same_partition x r) eqn:Hp; [simpl | reflexivity].
      apply Z.leb_gt.
      assert (timestamp x <= timestamp r)
        by (apply H; [apply in_or_app; now left | assumption]).
      destruct (Z.eq_dec (timestamp x) (timestamp r)) as [E | N]; [| lia].
      specialize (Hb x Hx).
      rewrite (same_partition_key x r Hp E) in Hb. discriminate. }
    assert (C2 : count (fun x => same_partition x r
                                 && (timestamp r <? timestamp x)) a = 0).
    { apply count_zero. intros x Hx.
      destruct (same_partition x r) eqn:Hp; [simpl | reflexivity].
      apply Z.ltb_ge. apply H; [| assumption].
      apply in_or_app. right. now right. }
    lia.
Qed.

(** *** Aggregates *)

Lemma max_opt_idem (v : option Z) : max_opt v v = v.
Proof. destruct v as [x |]; simpl; [now rewrite Z.max_id | reflexivity]. Qed.

Lemma fold_max_opt_single (l : list (option Z)) (acc v : option Z) :
  acc = None \/ acc = v ->
  (forall y, In y l -> y = None \/ y = v) ->
  acc = v \/ In v l ->
  fold_left max_opt l acc = v.
Proof.
  revert acc. induction l as [| y l IH]; intros acc Hacc Hl Hv; simpl.
  - destruct Hv as [H | []]. exact H.
  - assert (Hy : y = None \/ y = v) by (apply Hl; now left).
    apply IH.
    + destruct Hacc as [-> | ->], Hy as [-> | ->]; simpl; auto.
      * destruct v; auto.
      * right. apply max_opt_idem.
    + intros z Hz. apply Hl. now right.
    + destruct Hv as [-> | [-> | Hin]].
      * left. destruct Hy as [-> | ->]; [now destruct v | apply max_opt_idem].
      * left. destruct Hacc as [-> | ->]; [reflexivity | apply max_opt_idem].
      * now right.
Qed.

(** [MAX] over a column where one value stands among [NULL]s. *)
Lemma sql_max_single (l : list (option Z)) (v : option Z) :
  (forall y, In y l -> y = None \/ y = v) -> In v l -> sql_max l = v.
Proof.
  intros Hl Hv. unfold sql_max. apply fold_max_opt_single; auto.
Qed.

Lemma fold_max_opt_spec (l : list (option Z)) (acc : option Z) :
  match fold_left max_opt l acc with
  | None => acc = None /\ forall y, In y l -> y = None
  | Some h => (acc = Some h \/ In (Some h) l)
              /\ (forall p, acc = Some p \/ In (Some p) l -> p <= h)
  end.
Proof.
  revert acc. induction l as [| y l IH]; intros acc; simpl.
  - destruct acc as [a |].
    + split; [now left |]. intros p [[= ->] | []]. lia.
    + split; [reflexivity | intros y []].
  - specialize (IH (max_opt acc y)).
    destruct (fold_left max_opt l (max_opt acc y)) as [h |].
    + destruct IH as [Hin Hle]. split.
      * destruct Hin as [E | Hin]; [| now right; right].
        destruct acc as [a |], y as [b |]; simpl in E; try discriminate;
          try (injection E as <-).
        -- destruct (Z.max_spec a b) as [[_ ->] | [_ ->]];
             [right; now left | now left].
        -- now left.
        -- right. now left.
      * intros p [E | [E | Hp]].
        -- subst acc. destruct y as [b |]; simpl in Hle.
           ++ assert (Z.max p b <= h) by (apply Hle; now left). lia.
           ++ apply Hle. now left.
        -- subst y. destruct acc as [a |]; simpl in Hle.
           ++ assert (Z.max a p <= h) by (apply Hle; now left). lia.
           ++ apply Hle. now left.
        -- apply Hle. now right.
    + destruct IH as [E Hall].
      destruct acc as [a |], y as [b |]; simpl in E; try discriminate.
      split; [reflexivity |]. intros z [<- | Hz]; [reflexivity | now apply Hall].
Qed.

Lemma fold_min_opt_spec (l : list (option Z)) (acc : option Z) :
  match fold_left min_opt l acc with
  | None => acc = None /\ forall y, In y l -> y = None
  | Some h => (acc = Some h \/ In (Some h) l)
              /\ (forall p, acc = Some p \/ In (Some p) l -> h <= p)
  end.
Proof.
  revert acc. induction l as [| y l IH]; intros acc; simpl.
  - destruct acc as [a |].
    + split; [now left |]. intros p [[= ->] | []]. lia.
    + split; [reflexivity | intros y []].
  - specialize (IH (min_opt acc y)).
    destruct (fold_left min_opt l (min_opt acc y)) as [h |].
    + destruct IH as [Hin Hle]. split.
      * destruct Hin as [E | Hin]; [| now right; right].
        destruct acc as [a |], y as [b |]; simpl in E; try discriminate;
          try (injection E as <-).
        -- destruct (Z.min_spec a b) as [[_ ->] | [_ ->]];
             [now left | right; now left].
        -- now left.
        -- right. now left.
      * intros p [E | [E | Hp]].
        -- subst acc. destruct y as [b |]; simpl in Hle.
           ++ assert (h <= Z.min p b) by (apply Hle; now left). lia.
           ++ apply Hle. now left.
        -- subst y. destruct acc as [a |]; simpl in Hle.
           ++ assert (h <= Z.min a p) by (apply Hle; now left). lia.
           ++ apply Hle. now left.
        -- apply Hle. now right.
    + destruct IH as [E Hall].
      destruct acc as [a |], y as [b |]; simpl in E; try discriminate.
      split; [reflexivity |]. intros z [<- | Hz]; [reflexivity | now apply Hall].
Qed.

(** [MAX] and [MIN] bound every value of the column and are among them. *)
Lemma sql_max_min_bounds (l : list (option Z)) (p : Z) :
  In (Some p) l ->
  exists lo hi, sql_min l = Some lo /\ sql_max l = Some hi
                /\ lo <= p <= hi
                /\ In (Some lo) l /\ In (Some hi) l.
Proof.
  intros Hp. unfold sql_min, sql_max.
  pose proof (fold_max_opt_spec l None) as Hmax.
  pose proof (fold_min_opt_spec l None) as Hmin.
  destruct (fold_left max_opt l None) as [hi |];
    [| destruct Hmax as [_ H]; specialize (H _ Hp); discriminate].
  destruct (fold_left min_opt l None) as [lo |];
    [| destruct Hmin as [_ H]; specialize (H _ Hp); discriminate].
  destruct Hmax as [[E1 | I1] L1]; [discriminate |].
  destruct Hmin as [[E2 | I2] L2]; [discriminate |].
  exists lo, hi. repeat split; auto.
Qed.

(** *** Groups *)

Lemma opt_eqb_eq (a b : option string) : opt_eqb a b = true <-> a = b.
Proof.
  destruct a as [x |], b as [y |]; simpl; try (split; congruence).
  rewrite String.eqb_eq. split; congruence.
Qed.

Lemma key_eqb_eq (a b : group_key) : key_eqb a b = true <-> a = b.
Proof.
  destruct a as [[[da sa] ca] oa], b as [[[db sb] cb] ob]. simpl.
  rewrite !andb_true_iff, Z.eqb_eq, String.eqb_eq, !opt_eqb_eq.
  split; [intros [[[-> ->] ->] ->]; reflexivity | intros [= -> -> -> ->]; auto].
Qed.

Lemma distinct_In (ks : list group_key) (k : group_key) :
  In k (distinct ks) -> In k ks.
Proof.
  revert k. induction ks as [| k0 ks IH]; intros k; simpl; [auto |].
  intros [<- | H]; [now left |].
  apply filter_In in H as [H _]. right. now apply IH.
Qed.

Lemma filter_comm {A : Type} (f g : A -> bool) (l : list A) :
  filter f (filter g l) = filter g (filter f l).
Proof.
  induction l as [| x l IH]; [reflexivity |].
  simpl. destruct (f x) eqn:Ef, (g x) eqn:Eg; simpl;
    rewrite ?Ef, ?Eg, IH; reflexivity.
Qed.

(** A test that one key of the list passes, and no other, picks that key
    out of the distinct keys. *)
Lemma distinct_filter_single (ks : list group_key) (k0 : group_key)
    (Q : group_key -> bool) :
  (forall k, In k ks -> (Q k = true <-> k = k0)) -> In k0 ks ->
  filter Q (distinct ks) = [k0].
Proof.
  induction ks as [| k ks IH]; [contradiction |].
  intros HQ Hin. simpl.
  destruct (key_eqb k k0) eqn:E.
  - apply key_eqb_eq in E. subst k.
    assert (Hq : Q k0 = true) by (apply HQ; [now left | reflexivity]).
    rewrite Hq. f_equal.
    assert (Hnone : forall x, In x (filter (fun k' => negb (key_eqb k0 k'))
                                           (distinct ks)) -> Q x = false).
    { intros x Hx. apply filter_In in Hx as [Hx Hne].
      destruct (Q x) eqn:Eq; [| reflexivity].
      apply distinct_In in Hx.
      assert (x = k0) by (apply HQ; [now right | assumption]). subst x.
      assert (key_eqb k0 k0 = true) by now apply key_eqb_eq.
      rewrite H in Hne. discriminate. }
    induction (filter (fun k' => negb (key_eqb k0 k')) (distinct ks))
      as [| x l IHl]; [reflexivity |].
    simpl. rewrite (Hnone x (or_introl eq_refl)). apply IHl.
    intros y Hy. apply Hnone. now right.
  - assert (Hq : Q k = false).
    { destruct (Q k) eqn:Eq; [| reflexivity].
      assert (k = k0) by (apply HQ; [now left | assumption]). subst k.
      assert (key_eqb k0 k0 = true) by now apply key_eqb_eq. congruence. }
    rewrite Hq, filter_comm.
    assert (Hin' : In k0 ks).
    { destruct Hin as [-> | H]; [| assumption].
      assert (key_eqb k0 k0 = true) by now apply key_eqb_eq. congruence. }
    rewrite IH; [| intros x Hx; apply HQ; now right | assumption].
    simpl. now rewrite E.
Qed.

Lemma filter_map_comm {A B : Type} (f : A -> B) (P : B -> bool) (l : list A) :
  filter P (map f l) = map f (filter (fun x => P (f x)) l).
Proof.
  induction l as [| x l IH]; [reflexivity |].
  simpl. destruct (P (f x)); simpl; now rewrite IH.
Qed.

Lemma in_group_partition (d : Z) (sym : string) (r r' : snapshot) :
  in_group d sym r = true ->
  same_partition r' r = in_group d sym r'.
Proof.
  unfold in_group, same_partition. intros H.
  apply andb_prop in H as [Hd Hs].
  apply Z.eqb_eq in Hd. apply String.eqb_eq in Hs. now subst.
Qed.

Section Group.

Variables (rows : list snapshot) (d : Z) (sym : string) (first last : snapshot).
Hypothesis Hpk : pk_unique rows = true.
Hypothesis Huni : uniform d sym rows.
Hypothesis Hfirst : In first (rows_of d sym rows).
Hypothesis Hlast : In last (rows_of d sym rows).
Hypothesis Hbounds :
  forall r, In r (rows_of d sym rows) ->
            timestamp first <= timestamp r <= timestamp last.

Let k0 : group_key := (d, sym, company first, sources first).
Let rd : list ranked := ranked_data rows.

Lemma rd_rows : map row rd = rows.
Proof. apply ranked_from_rows. Qed.

Lemma rd_In (x : ranked) : In x rd -> In (row x) rows.
Proof. intros H. rewrite <- rd_rows. now apply in_map. Qed.

Lemma first_group : in_group d sym first = true /\ In first rows.
Proof. apply filter_In in Hfirst. tauto. Qed.

Lemma last_group : in_group d sym last = true /\ In last rows.
Proof. apply filter_In in Hlast. tauto. Qed.

Lemma key_of_group (x : ranked) :
  In x rd -> (key_eqb (key_of x) k0 = in_group d sym (row x)).
Proof.
  intros Hx. destruct (in_group d sym (row x)) eqn:G.
  - apply key_eqb_eq. unfold key_of, k0.
    assert (Hr : In (row x) (rows_of d sym rows))
      by (apply filter_In; split; [now apply rd_In | assumption]).
    destruct (Huni (row x) first Hr Hfirst) as [-> ->].
    unfold in_group in G. apply andb_prop in G as [Gd Gs].
    apply Z.eqb_eq in Gd. apply String.eqb_eq in Gs. now rewrite Gd, Gs.
  - apply not_true_is_false. intros E. apply key_eqb_eq in E.
    unfold key_of, k0 in E. injection E as E1 E2 _ _.
    unfold in_group in G. rewrite E1, E2, Z.eqb_refl, String.eqb_refl in G.
    discriminate.
Qed.

Lemma group_rows : map row (group k0 rd) = rows_of d sym rows.
Proof.
  unfold group, rows_of.
  transitivity (filter (in_group d sym) (map row rd));
    [| now rewrite rd_rows].
  rewrite filter_map_comm. f_equal.
  apply filter_ext_in. intros x Hx. now apply key_of_group.
Qed.

Lemma rollups_single :
  rollups_of d sym rows = [summarize k0 (group k0 rd)].
Proof.
  unfold rollups_of, daily_summary. fold rd.
  rewrite filter_map_comm.
  rewrite (distinct_filter_single (map key_of rd) k0).
  - reflexivity.
  - intros k Hk. apply in_map_iff in Hk as (x & <- & Hx).
    pose proof (key_of_group x Hx) as G.
    unfold summarize. destruct (key_of x) as [[[dx sx] cx] ox] eqn:Ek.
    cbn [date r_symbol].
    assert (Eg : in_group d sym (row x) = ((dx =? d) && String.eqb sx sym)).
    { unfold in_group. unfold key_of in Ek. now injection Ek as -> -> _ _. }
    rewrite <- Eg, <- G. apply key_eqb_eq.
  - destruct first_group as [G Hin]. rewrite <- rd_rows in Hin.
    apply in_map_iff in Hin as (x & Ex & Hx).
    apply in_map_iff. exists x. split; [| assumption].
    pose proof (key_of_group x Hx) as K. rewrite Ex, G in K.
    now apply key_eqb_eq.
Qed.

(** In the group, the rank 1 in time order marks the row [first]. *)
Lemma asc_marks_first (x : ranked) :
  In x (group k0 rd) -> (asc x =? 1) = true -> row x = first.
Proof.
  intros Hx E. apply filter_In in Hx as [Hx Hk].
  rewrite (key_of_group x Hx) in Hk.
  destruct (ranked_from_In [] rows x Hx) as (b & a & Erows & Ha & _).
  simpl in Erows. rewrite Ha in E.
  assert (Hpk' : pk_unique (b ++ row x :: a) = true) by now rewrite <- Erows.
  pose proof (proj1 (rn_asc_first b a (row x) Hpk') E) as E'.
  destruct first_group as [G Hin].
  assert (Hle : timestamp (row x) <= timestamp first).
  { apply E'; [now rewrite <- Erows |].
    now rewrite (in_group_partition d sym (row x) first Hk). }
  assert (Hge : timestamp first <= timestamp (row x)).
  { apply Hbounds. apply filter_In. split; [now apply rd_In | assumption]. }
  apply (pk_unique_In_eq rows); try assumption; [now apply rd_In |].
  apply same_partition_key; [| lia].
  now rewrite (in_group_partition d sym first (row x) G).
Qed.

Lemma first_ranked :
  exists x, In x (group k0 rd) /\ row x = first /\ (asc x =? 1) = true.
Proof.
  destruct first_group as [G Hin]. rewrite <- rd_rows in Hin.
  apply in_map_iff in Hin as (x & Ex & Hx).
  exists x. split; [| split; [assumption |]].
  - apply filter_In. split; [assumption |].
    now rewrite (key_of_group x Hx), Ex.
  - destruct (ranked_from_In [] rows x Hx) as (b & a & Erows & Ha & _).
    simpl in Erows. rewrite Ha.
    assert (Hpk' : pk_unique (b ++ row x :: a) = true) by now rewrite <- Erows.
    apply (rn_asc_first b a (row x) Hpk').
    intros r' Hr' Hp. rewrite Ex in *.
    rewrite (in_group_partition d sym first r' G) in Hp.
    apply Hbounds. apply filter_In. split; [now rewrite Erows | assumption].
Qed.

Lemma desc_marks_last (x : ranked) :
  In x (group k0 rd) -> (desc x =? 1) = true -> row x = last.
Proof.
  intros Hx E. apply filter_In in Hx as [Hx Hk].
  rewrite (key_of_group x Hx) in Hk.
  destruct (ranked_from_In [] rows x Hx) as (b & a & Erows & _ & Hd).
  simpl in Erows. rewrite Hd in E.
  assert (Hpk' : pk_unique (b ++ row x :: a) = true) by now rewrite <- Erows.
  pose proof (proj1 (rn_desc_first b a (row x) Hpk') E) as E'.
  destruct last_group as [G Hin].
  assert (Hle : timestamp last <= timestamp (row x)).
  { apply E'; [now rewrite <- Erows |].
    now rewrite (in_group_partition d sym (row x) last Hk). }
  assert (Hge : timestamp (row x) <= timestamp last).
  { apply Hbounds. apply filter_In. split; [now apply rd_In | assumption]. }
  apply (pk_unique_In_eq rows); try assumption; [now apply rd_In |].
  apply same_partition_key; [| lia].
  now rewrite (in_group_partition d sym last (row x) G).
Qed.

Lemma last_ranked :
  exists x, In x (group k0 rd) /\ row x = last /\ (desc x =? 1) = true.
Proof.
  destruct last_group as [G Hin]. rewrite <- rd_rows in Hin.
  apply in_map_iff in Hin as (x & Ex & Hx).
  exists x. split; [| split; [assumption |]].
  - apply filter_In. split; [assumption |].
    now rewrite (key_of_group x Hx), Ex.
  - destruct (ranked_from_In [] rows x Hx) as (b & a & Erows & _ & Hd).
    simpl in Erows. rewrite Hd.
    assert (Hpk' : pk_unique (b ++ row x :: a) = true) by now rewrite <- Erows.
    apply (rn_desc_first b a (row x) Hpk').
    intros r' Hr' Hp. rewrite Ex in *.
    rewrite (in_group_partition d sym last r' G) in Hp.
    apply Hbounds. apply filter_In. split; [now rewrite Erows | assumption].
Qed.

(** The [MAX(CASE WHEN rn_asc = 1 THEN column END)] of the group is the
    column of [first], and with [rn_desc] that of [last]. *)
Lemma opening_column (f : snapshot -> option Z) :
  sql_max (map (fun x => case_when (asc x =? 1) (f (row x))) (group k0 rd))
  = f first.
Proof.
  apply sql_max_single.
  - intros y Hy. apply in_map_iff in Hy as (x & <- & Hx).
    destruct (asc x =? 1) eqn:E; [right | now left].
    simpl. now rewrite (asc_marks_first x Hx E).
  - destruct first_ranked as (x & Hx & Ex & E).
    apply in_map_iff. exists x. split; [| assumption].
    now rewrite E, Ex.
Qed.

Lemma closing_column (f : snapshot -> option Z) :
  sql_max (map (fun x => case_when (desc x =? 1) (f (row x))) (group k0 rd))
  = f last.
Proof.
  apply sql_max_single.
  - intros y Hy. apply in_map_iff in Hy as (x & <- & Hx).
    destruct (desc x =? 1) eqn:E; [right | now left].
    simpl. now rewrite (desc_marks_last x Hx E).
  - destruct last_ranked as (x & Hx & Ex & E).
    apply in_map_iff. exists x. split; [| assumption].
    now rewrite E, Ex.
Qed.

Lemma group_column (f : snapshot -> option Z) :
  map (fun x => f (row x)) (group k0 rd) = map f (rows_of d sym rows).
Proof. now rewrite <- group_rows, map_map. Qed.

(** The one row of the view for the day and the symbol. *)
Lemma rollup_of_group :
  exists s,
    rollups_of d sym rows = [s]
    /\ opening_price s = current_price first
    /\ closing_price s = current_price last
    /\ high_price s = sql_max (map current_price (rows_of d sym rows))
    /\ low_price s = sql_min (map current_price (rows_of d sym rows))
    /\ average_price s = sql_avg (map current_price (rows_of d sym rows))
    /\ opening_change s = daily_change first
    /\ closing_change s = daily_change last.
Proof.
  exists (summarize k0 (group k0 rd)). split; [apply rollups_single |].
  unfold summarize, k0.
  cbn [opening_price closing_price high_price low_price average_price
       opening_change closing_change].
  fold k0.
  rewrite (opening_column current_price), (closing_column current_price),
    (opening_column daily_change), (closing_column daily_change),
    (group_column current_price).
  repeat split.
Qed.

End Group.

(** C5, as the specification states it, fails when the rows of a day and
    a symbol differ in their sources: the view has a row for each value
    of the sources, and neither has both the opening and the closing
    price of the day, nor its high and low. *)
Lemma daily_summary_splits_on_sources :
  let a1 := mk_snapshot 1000 "AAPL" (Some "Apple") (Some 10000) (Some 9900)
              (Some 101) (Some "Yahoo Finance + Alpha Vantage") in
  let a2 := mk_snapshot 2000 "AAPL" (Some "Apple") (Some 10500) (Some 9900)
              (Some 606) (Some "Yahoo Finance") in
  pk_unique [a1; a2] = true
  /\ rows_of 0 "AAPL" [a1; a2] = [a1; a2]
  /\ rollups_of 0 "AAPL" [a1; a2]
     = [mk_rollup 0 "AAPL" (Some "Apple") (Some 10000) None (Some 10000)
          (Some 10000) (Some (of_Z 100)) (Some 101) None
          (Some "Yahoo Finance + Alpha Vantage");
        mk_rollup 0 "AAPL" (Some "Apple") None (Some 10500) (Some 10500)
          (Some 10500) (Some (of_Z 105)) None (Some 606)
          (Some "Yahoo Finance")]
  /\ ~ (exists s, In s (rollups_of 0 "AAPL" [a1; a2])
                  /\ opening_price s = current_price a1
                  /\ closing_price s = current_price a2).
Proof.
  intros a1 a2. split; [reflexivity |]. split; [reflexivity |].
  split; [vm_compute; reflexivity |].
  intros (s & Hs & Ho & Hc).
  vm_compute in Hs. destruct Hs as [<- | [<- | []]]; discriminate.
Qed.

(** C5 (amended): under the primary key, for a day and a symbol whose
    rows agree on the company and the sources, the view has one row; its
    opening price is the price of the row of least [timestamp] and its
    closing price that of the row of greatest [timestamp]; its high and
    low are the greatest and the least price of the rows, and bound each
    of them; its average is [AVG] over the rows. Three captures of 100,
    105 and 98 give 100, 98, 105, 98 and 101.0. *)
Theorem daily_summary_spec :
  (forall (rows : list snapshot) (d : Z) (sym : string)
          (first last : snapshot),
      pk_unique rows = true -> uniform d sym rows ->
      In first (rows_of d sym rows) -> In last (rows_of d sym rows) ->
      (forall r, In r (rows_of d sym rows) ->
                 timestamp first <= timestamp r <= timestamp last) ->
      exists s,
        rollups_of d sym rows = [s]
        /\ opening_price s = current_price first
        /\ closing_price s = current_price last
        /\ high_price s = sql_max (map current_price (rows_of d sym rows))
        /\ low_price s = sql_min (map current_price (rows_of d sym rows))
        /\ average_price s = sql_avg (map current_price (rows_of d sym rows))
        /\ (forall r p, In r (rows_of d sym rows) -> current_price r = Some p ->
              exists lo hi, low_price s = Some lo /\ high_price s = Some hi
                            /\ lo <= p <= hi))
  /\ (let c1 := mk_snapshot 1000 "AAPL" (Some "Apple") (Some 10000)
                  (Some 9900) (Some 101) (Some "Yahoo Finance") in
      let c2 := mk_snapshot 2000 "AAPL" (Some "Apple") (Some 10500)
                  (Some 9900) (Some 606) (Some "Yahoo Finance") in
      let c3 := mk_snapshot 3000 "AAPL" (Some "Apple") (Some 9800)
                  (Some 9900) (Some (-101)) (Some "Yahoo Finance") in
      daily_summary [c1; c2; c3]
      = [mk_rollup 0 "AAPL" (Some "Apple") (Some 10000) (Some 9800)
           (Some 10500) (Some 9800) (Some (of_Z 101)) (Some 101)
           (Some (-101)) (Some "Yahoo Finance")]
      /\ PyStr.fixed2 10000 = "100.00" /\ PyStr.fixed2 9800 = "98.00"
      /\ PyStr.fixed2 10500 = "105.00").
Proof.
  split; [| vm_compute; repeat split; reflexivity].
  intros rows d sym first last Hpk Huni Hf Hl Hb.
  destruct (rollup_of_group rows d sym first last Hpk Huni Hf Hl Hb)
    as (s & Hs & Ho & Hc & Hh & Hlo & Ha & _).
  exists s. repeat split; try assumption.
  intros r p Hr Hp.
  destruct (sql_max_min_bounds (map current_price (rows_of d sym rows)) p)
    as (lo & hi & E1 & E2 & Hle & _).
  { rewrite <- Hp. now apply in_map. }
  exists lo, hi. rewrite Hlo, Hh. repeat split; try assumption; lia.
Qed.

(** The amended statement on the three captures, given out of time
    order in the table. *)
Lemma daily_summary_spec_witness :
  let c1 := mk_snapshot 1000 "AAPL" (Some "Apple") (Some 10000)
              (Some 9900) (Some 101) (Some "Yahoo Finance") in
  let c2 := mk_snapshot 2000 "AAPL" (Some "Apple") (Some 10500)
              (Some 9900) (Some 606) (Some "Yahoo Finance") in
  let c3 := mk_snapshot 3000 "AAPL" (Some "Apple") (Some 9800)
              (Some 9900) (Some (-101)) (Some "Yahoo Finance") in
  exists s,
    rollups_of 0 "AAPL" [c2; c3; c1] = [s]
    /\ opening_price s = Some 10000 /\ closing_price s = Some 9800.
Proof.
  intros c1 c2 c3.
  destruct (proj1 daily_summary_spec [c2; c3; c1] 0 "AAPL" c1 c3)
    as (s & Hs & Ho & Hc & _).
  - reflexivity.
  - intros r r' Hr Hr'. vm_compute in Hr, Hr'.
    destruct Hr as [<- | [<- | [<- | []]]],
             Hr' as [<- | [<- | [<- | []]]]; split; reflexivity.
  - vm_compute. tauto.
  - vm_compute. tauto.
  - intros r Hr. vm_compute in Hr.
    destruct Hr as [<- | [<- | [<- | []]]]; simpl; lia.
  - exists s. repeat split; assumption.
Defined.

End View.

(* ===================================================================== *)
(** * Further properties *)
(* ===================================================================== *)

(** ** Signed amounts and their texts *)

Section SignedText.

Import PyFloat PyStr DataStorage Spec Terms.

Lemma pack_carry_sign (s : bool) (m e : Z) :
  pack_carry s m e = with_sign s (pack_carry false m e).
Proof.
  unfold pack_carry. destruct (m <? 2 ^ prec).
  - destruct m as [| p | p]; try reflexivity.
    rewrite !pack_pos. now destruct (e <=? 971).
  - change (2 ^ (prec - 1)) with (Z.pos (Z.to_pos (2 ^ 52))).
    rewrite !pack_pos. now destruct (e + 1 <=? 971).
Qed.

(** The float of an amount of hundredths, with a sign, is the float of
    the amount with this sign put on. *)
Lemma div_round_sign (s : bool) (c : Z) :
  0 <= c -> div_round s c 100 = with_sign s (div_round false c 100).
Proof.
  intros Hc. destruct (Z.eq_dec c 0) as [-> | Hne]; [reflexivity |].
  assert (Hpos : 0 < c) by lia.
  destruct (binade_exists c 100 Hpos ltac:(lia)) as [e Hb].
  pose proof (binade_cents_lower c e Hpos Hb) as He.
  destruct (div_round_char s c 100 e Hpos ltac:(lia) ltac:(lia) Hb) as [Hs _].
  destruct (div_round_char false c 100 e Hpos ltac:(lia) ltac:(lia) Hb)
    as [Hf _].
  rewrite Hs, Hf. apply pack_carry_sign.
Qed.

Lemma with_sign_idem (s t : bool) (x : float) :
  with_sign s (with_sign t x) = with_sign s x.
Proof. now destruct x. Qed.

Lemma format_2f_with_sign (s : bool) (x : float) :
  is_nan x = false ->
  format_2f (with_sign s x) = sign_str s ++ format_2f (with_sign false x).
Proof. destruct x; simpl; intros H; try reflexivity. discriminate. Qed.

Lemma div_round_not_nan (s : bool) (c : Z) :
  0 <= c -> is_nan (div_round s c 100) = false.
Proof.
  intros Hc. destruct (Z.eq_dec c 0) as [-> | Hne]; [reflexivity |].
  assert (Hpos : 0 < c) by lia.
  destruct (binade_exists c 100 Hpos ltac:(lia)) as [e Hb].
  pose proof (binade_cents_lower c e Hpos Hb) as He.
  destruct (div_round_char s c 100 e Hpos ltac:(lia) ltac:(lia) Hb)
    as [Hs Hm].
  rewrite Hs. unfold pack_carry.
  destruct (scaled_rne c 100 e <? 2 ^ prec).
  - destruct (scaled_rne c 100 e) as [| p | p]; try (exfalso; lia).
    rewrite pack_pos. now destruct (e <=? 971).
  - change (2 ^ (prec - 1)) with (Z.pos (Z.to_pos (2 ^ 52))).
    rewrite pack_pos. now destruct (e + 1 <=? 971).
Qed.

Lemma cents_of_nonneg (m : positive) (e : Z) : 0 <= cents_of m e.
Proof.
  unfold cents_of. destruct (Z.leb_spec 0 e) as [H | H].
  - assert (0 < 2 ^ e) by (apply pow2_gt0; lia). nia.
  - assert (0 < 2 ^ (- e)) by (apply pow2_gt0; lia).
    pose proof (rne_bounds (100 * Z.pos m) (2 ^ (- e)) ltac:(lia)) as Hb.
    assert (0 <= 100 * Z.pos m / 2 ^ (- e)) by (apply Z.div_pos; lia).
    lia.
Qed.

(** The number that follows the sign, for the text of an amount. *)
Lemma read_number_fixed2 (neg : bool) (c : Z) :
  0 <= c -> read_number neg (fixed2 c) = Some (div_round neg c 100).
Proof.
  intros Hc. unfold fixed2.
  destruct (decimal_head (c / 100)) as (a & r & Hd & Ha).
  pose proof (read_decimal (c / 100) 0 ("." ++ two_digits (c mod 100))
                ltac:(apply Z.div_pos; lia) eq_refl) as (ni & Hni & Hread).
  pose proof (read_two_digits (c / 100) (c mod 100)
                ltac:(apply Z.mod_pos_bound; lia)) as Hfrac.
  rewrite Hd in *. simpl append in *.
  unfold read_number.
  destruct (digit_head_not_word a (r ++ String "." (two_digits (c mod 100))) Ha)
    as [W1 W2].
  rewrite W1, W2, Hread, Hfrac.
  replace (ni + 2 =? 0) with false by (symmetry; apply Z.eqb_neq; lia).
  simpl read_exponent. cbv iota.
  pose proof (Z.div_mod c 100 ltac:(lia)) as Hdm.
  replace (100 * (c / 100) + c mod 100) with c by lia.
  reflexivity.
Qed.

Lemma fixed2_head (c : Z) :
  exists a r, fixed2 c = String a r /\ is_digit a = true.
Proof.
  unfold fixed2. destruct (decimal_head (c / 100)) as (a & r & Hd & Ha).
  rewrite Hd. simpl. eauto.
Qed.

Lemma rstrip_cons (a b : ascii) (r r' : string) :
  r = String b r' -> rstrip r = r -> rstrip (String a r) = String a r.
Proof.
  intros E H. change (rstrip (String a r))
    with (match rstrip r with
          | EmptyString =>
              if is_space a then EmptyString else String a EmptyString
          | String c t => String a (String c t)
          end).
  rewrite H. now rewrite E.
Qed.

(** [float] reads the text of a signed amount of hundredths as the
    nearest float to it. *)
Lemma parse_signed_fixed2 (s : bool) (c : Z) :
  0 <= c -> parse_float (sign_str s ++ fixed2 c) = Some (div_round s c 100).
Proof.
  intros Hc. destruct s; simpl sign_str; simpl append.
  - pose proof (fixed2_plain c Hc) as Hp.
    destruct (fixed2_head c) as (a & r & Hf & Ha).
    unfold parse_float, strip.
    assert (Hl : lstrip (String "-" (fixed2 c)) = String "-" (fixed2 c))
      by reflexivity.
    rewrite Hl.
    assert (Hr : rstrip (String "-" (fixed2 c)) = String "-" (fixed2 c)).
    { apply rstrip_cons with (b := a) (r' := r); [exact Hf |].
      apply (rstrip_plain _ Hp). }
    rewrite Hr.
    assert (Hu : drop_underscores false false (String "-" (fixed2 c))
                 = Some (String "-" (fixed2 c))).
    { change (drop_underscores false false (String "-" (fixed2 c)))
        with (option_map (String "-")
                (drop_underscores false false (fixed2 c))).
      now rewrite (drop_underscores_plain _ false Hp). }
    rewrite Hu. simpl read_sign. cbv iota.
    now apply read_number_fixed2.
  - now apply parse_fixed2.
Qed.

(** The text of the float of a signed amount reads back as that
    float. *)
Lemma value_text_reads_back (s : bool) (c : Z) :
  0 <= c ->
  parse_float (format_2f (div_round s c 100)) = Some (div_round s c 100).
Proof.
  intros Hc.
  rewrite (div_round_sign s c Hc).
  set (x := div_round false c 100).
  assert (Hx : with_sign false x = x).
  { unfold x. now rewrite <- div_round_sign. }
  rewrite format_2f_with_sign by (apply div_round_not_nan; assumption).
  rewrite Hx.
  destruct (format_parse_price c Hc) as [[Hf Hp] | (c' & Hc' & Hf & Hp)];
    rewrite price_eq in *; fold x in Hf, Hp.
  - rewrite Hf, Hp. now destruct s.
  - rewrite Hf, (parse_signed_fixed2 s c' Hc'), (div_round_sign s c' Hc'), Hp.
    reflexivity.
Qed.

(** The float of an amount below [2^46] is finite, and its hundredths
    are the amount. *)
Lemma small_price_float (c : Z) :
  0 < c < 100 * 2 ^ 46 ->
  exists (m : positive) (e : Z),
    div_round false c 100 = S754_finite false m e /\ cents_of m e = c.
Proof.
  intros [Hc Hlt].
  destruct (binade_exists c 100 Hc ltac:(lia)) as [e0 Hb].
  pose proof (binade_cents_lower c e0 Hc Hb) as He0.
  assert (Hsmall : e0 <= -7).
  { destruct (Z.le_gt_cases e0 (-7)) as [H | H]; [assumption | exfalso].
    destruct Hb as [Hlo _]. unfold scaled_floor in Hlo.
    change (2 ^ (prec - 1)) with (2 ^ 52) in Hlo.
    assert (Hq : 0 < 100 * 2 ^ Z.max 0 e0).
    { assert (0 < 2 ^ Z.max 0 e0) by (apply pow2_gt0; lia). lia. }
    apply div_ge_inv in Hlo; [| exact Hq].
    assert (1 <= 2 ^ Z.max 0 e0).
    { assert (0 < 2 ^ Z.max 0 e0) by (apply pow2_gt0; lia). lia. }
    assert (2 ^ Z.max 0 (- e0) <= 2 ^ 6) by (apply Z.pow_le_mono_r; lia).
    assert (0 < 2 ^ Z.max 0 (- e0)) by (apply pow2_gt0; lia).
    change (2 ^ 6) with 64 in *.
    change (2 ^ 52) with 4503599627370496 in *.
    change (2 ^ 46) with 70368744177664 in *.
    nia. }
  destruct (div_round_char false c 100 e0 Hc ltac:(lia) ltac:(lia) Hb)
    as [Hr Hm].
  set (m0 := scaled_rne c 100 e0) in *.
  assert (Hnear : 2 * Z.abs (100 * m0 - c * 2 ^ (- e0)) <= 100).
  { unfold m0, scaled_rne.
    replace (Z.max 0 e0) with 0 by lia.
    replace (Z.max 0 (- e0)) with (- e0) by lia.
    rewrite Z.pow_0_r, Z.mul_1_r.
    apply rne_near. lia. }
  unfold pack_carry in Hr. change (2 ^ prec) with (2 ^ 53) in Hr.
  change (2 ^ (prec - 1)) with (2 ^ 52) in Hr.
  destruct (Z.ltb_spec m0 (2 ^ 53)) as [Hlt53 | Hge].
  - destruct m0 as [| pm | pm] eqn:Em; try lia.
    exists pm, e0. rewrite Hr, pack_pos.
    replace (e0 <=? 971) with true by (symmetry; apply Z.leb_le; lia).
    split; [reflexivity |]. now apply cents_same.
  - assert (Hm0 : m0 = 2 ^ 53) by lia.
    exists (Z.to_pos (2 ^ 52)), (e0 + 1).
    change (2 ^ 52) with (Z.pos (Z.to_pos (2 ^ 52))) in Hr.
    rewrite Hr, pack_pos.
    replace (e0 + 1 <=? 971) with true by (symmetry; apply Z.leb_le; lia).
    split; [reflexivity |].
    rewrite Hm0 in Hnear.
    replace (- e0) with (Z.succ (- (e0 + 1))) in Hnear by lia.
    rewrite Z.pow_succ_r in Hnear by lia.
    change (2 ^ 53) with (2 * 2 ^ 52) in Hnear.
    destruct (Z.eq_dec e0 (-7)) as [-> | Hne].
    + exfalso. change (2 ^ (- (-7 + 1))) with 64 in Hnear.
      change (2 ^ 52) with 4503599627370496 in *.
      change (2 ^ 46) with 70368744177664 in *. lia.
    + apply cents_same; [lia |].
      change (Z.pos (Z.to_pos (2 ^ 52))) with (2 ^ 52). lia.
Qed.

(** The text of the float of an amount below [2^46] is the text of the
    amount. *)
Lemma small_value_text (s : bool) (c : Z) :
  0 <= c < 100 * 2 ^ 46 ->
  format_2f (div_round s c 100) = sign_str s ++ fixed2 c.
Proof.
  intros [Hc Hlt]. rewrite (div_round_sign s c Hc).
  destruct (Z.eq_dec c 0) as [-> | Hne]; [reflexivity |].
  destruct (small_price_float c ltac:(lia)) as (m & e & Hx & Hce).
  rewrite Hx. simpl. now rewrite Hce.
Qed.

End SignedText.

(** ** The texts of the stored values *)

Section StoredText.

Import PyFloat PyStr DataStorage Spec Terms.

Lemma append_empty_r (s : string) : s ++ "" = s.
Proof. induction s as [| a r IH]; simpl; [reflexivity | now rewrite IH]. Qed.

Lemma decimal_value_eq (d : Z) :
  decimal_value d = div_round (d <? 0) (Z.abs d) 100.
Proof. reflexivity. Qed.

Lemma signed_fixed2_clean (c : ascii) (s : bool) (n : Z) :
  is_mark c -> 0 <= n ->
  remove_char c (sign_str s ++ fixed2 n) = sign_str s ++ fixed2 n.
Proof.
  intros Hc Hn. rewrite remove_char_app.
  assert (Hp : is_plain c = false)
    by (destruct Hc as [-> | [-> | ->]]; reflexivity).
  rewrite (remove_char_plain c (fixed2 n) Hp (fixed2_plain n Hn)).
  f_equal. destruct s; destruct Hc as [-> | [-> | ->]]; reflexivity.
Qed.

Lemma decimal_text_clean (c : ascii) (d : Z) :
  is_mark c -> remove_char c (decimal_text d) = decimal_text d.
Proof.
  intros Hc. unfold decimal_text. apply signed_fixed2_clean; [assumption | lia].
Qed.

Lemma format_2f_clean (c : ascii) (x : float) :
  is_mark c -> remove_char c (format_2f x) = format_2f x.
Proof.
  intros Hc. destruct x as [s | s | | s m e].
  - destruct s; destruct Hc as [-> | [-> | ->]]; reflexivity.
  - destruct s; destruct Hc as [-> | [-> | ->]]; reflexivity.
  - destruct Hc as [-> | [-> | ->]]; reflexivity.
  - simpl format_2f. apply signed_fixed2_clean; [assumption |].
    apply cents_of_nonneg.
Qed.

(** [float] reads the text of a stored value as the float of the
    value. *)
Lemma parse_decimal_text (d : Z) :
  parse_float (decimal_text d) = Some (decimal_value d).
Proof.
  unfold decimal_text. rewrite decimal_value_eq.
  apply parse_signed_fixed2. lia.
Qed.

Lemma parse_format_decimal (d : Z) :
  parse_float (format_2f (decimal_value d)) = Some (decimal_value d).
Proof. rewrite decimal_value_eq. apply value_text_reads_back. lia. Qed.

(** A cell of a price: the dollar sign, then a text without marks. *)
Lemma price_cell_reads (t : string) (x : float) :
  remove_char "$" t = t -> remove_char "," t = t ->
  parse_float t = Some x ->
  safe_price_convert (PStr ("$" ++ t)) = Ok (Some x)
  /\ to_float (PStr ("$" ++ t)) "$" = Ok x.
Proof.
  intros H1 H2 Hp. unfold safe_price_convert, to_float, str_replace.
  simpl append.
  change (remove_char "$" (String "$" t)) with (remove_char "$" t).
  rewrite H1, H2. unfold float_of_str. cbn [bind]. rewrite Hp.
  split; reflexivity.
Qed.

(** A cell of a percentage: a text without marks, then the sign. *)
Lemma percent_cell_reads (t : string) (x : float) :
  remove_char "%" t = t -> remove_char "," t = t ->
  parse_float t = Some x ->
  safe_percent_convert (PStr (t ++ "%")) = Ok (Some x)
  /\ to_float (PStr (t ++ "%")) "%" = Ok x.
Proof.
  intros H1 H2 Hp. unfold safe_percent_convert, to_float, str_replace.
  rewrite remove_char_app, H1.
  change (remove_char "%" "%") with "".
  rewrite append_empty_r, H2. unfold float_of_str. cbn [bind]. rewrite Hp.
  split; reflexivity.
Qed.

Lemma mark_dollar : is_mark "$". Proof. now left. Qed.
Lemma mark_comma : is_mark ",". Proof. right. now left. Qed.
Lemma mark_percent : is_mark "%". Proof. right. now right. Qed.

Lemma stored_price_reads (d : Z) :
  safe_price_convert (PStr ("$" ++ decimal_text d)) = Ok (Some (decimal_value d))
  /\ to_float (PStr ("$" ++ decimal_text d)) "$" = Ok (decimal_value d).
Proof.
  apply price_cell_reads;
    [apply decimal_text_clean, mark_dollar
    | apply decimal_text_clean, mark_comma
    | apply parse_decimal_text].
Qed.

Lemma stored_percent_reads (d : Z) :
  safe_percent_convert (PStr (decimal_text d ++ "%"))
  = Ok (Some (decimal_value d))
  /\ to_float (PStr (decimal_text d ++ "%")) "%" = Ok (decimal_value d).
Proof.
  apply percent_cell_reads;
    [apply decimal_text_clean, mark_percent
    | apply decimal_text_clean, mark_comma
    | apply parse_decimal_text].
Qed.

Lemma formatted_price_reads (d : Z) :
  to_float (PStr ("$" ++ format_2f (decimal_value d))) "$"
  = Ok (decimal_value d).
Proof.
  apply price_cell_reads;
    [apply format_2f_clean, mark_dollar
    | apply format_2f_clean, mark_comma
    | apply parse_format_decimal].
Qed.

(** X1: the cells of a row of the latest data are read back by the
    helpers of the comparison as the floats of the stored values; the
    cell of a [NULL] is a bare sign, on which the helpers raise. *)
Theorem latest_cells_read_back (r : snapshot) :
  safe_price_convert (q_Current_Price (latest_row r))
  = match current_price r with
    | Some d => Ok (Some (decimal_value d))
    | None => Raise ValueError
    end
  /\ safe_percent_convert (q_Daily_Change (latest_row r))
     = match daily_change r with
       | Some d => Ok (Some (decimal_value d))
       | None => Raise ValueError
       end.
Proof.
  unfold latest_row. simpl q_Current_Price. simpl q_Daily_Change. split.
  - destruct (current_price r) as [d |]; [| reflexivity].
    apply stored_price_reads.
  - destruct (daily_change r) as [d |]; [| reflexivity].
    apply stored_percent_reads.
Qed.

End StoredText.

(** ** The latest data, and what the page makes of it *)

Section LatestFrame.

Import PyFloat PyStr DataStorage Spec Terms.

Lemma existsb_filter {A : Type} (f g : A -> bool) (l : list A) :
  existsb f l = false -> existsb f (filter g l) = false.
Proof.
  induction l as [| x l IH]; [reflexivity |].
  simpl. intros H. apply orb_false_iff in H as [Hx Hl].
  destruct (g x); simpl; [rewrite Hx |]; auto.
Qed.

(** A selection of rows keeps the primary key. *)
Lemma pk_unique_filter (f : snapshot -> bool) (rows : list snapshot) :
  pk_unique rows = true -> pk_unique (filter f rows) = true.
Proof.
  induction rows as [| r rows IH]; [reflexivity |].
  simpl. intros H. apply andb_prop in H as [Hr Hrows].
  destruct (f r); simpl; [| now apply IH].
  rewrite (IH Hrows), andb_true_r.
  apply negb_true_iff. apply existsb_filter. now apply negb_true_iff.
Qed.

(** Rows of one timestamp under the primary key have different
    symbols. *)
Lemma one_poll_symbols (m : Z) (rows : list snapshot) :
  (forall r, In r rows -> timestamp r = m) ->
  pk_unique rows = true -> NoDup (map symbol rows).
Proof.
  induction rows as [| r rows IH]; intros Hts Hpk; [constructor |].
  simpl in Hpk. apply andb_prop in Hpk as [Hr Hrows].
  simpl. constructor.
  - intros Hin. apply in_map_iff in Hin as (r' & Hs & Hin').
    apply negb_true_iff in Hr.
    assert (Hk : same_key r r' = true).
    { unfold same_key.
      rewrite (Hts r (or_introl eq_refl)), (Hts r' (or_intror Hin')).
      rewrite Z.eqb_refl, Hs. apply String.eqb_refl. }
    assert (Hex : existsb (same_key r) rows = true)
      by (apply existsb_exists; eauto).
    congruence.
  - apply IH; [| assumption]. intros r' Hr'. apply Hts. now right.
Qed.

Lemma latest_rows_timestamp (rows : list snapshot) (r : snapshot) :
  In r (filter (is_latest (max_timestamp rows)) rows) ->
  max_timestamp rows = Some (timestamp r).
Proof.
  intros H. apply filter_In in H as [_ H]. unfold is_latest in H.
  destruct (max_timestamp rows) as [m |]; [| discriminate].
  apply Z.eqb_eq in H. now rewrite H.
Qed.

Lemma latest_rows_symbols (rows : list snapshot) :
  pk_unique rows = true ->
  NoDup (map symbol (filter (is_latest (max_timestamp rows)) rows)).
Proof.
  intros Hpk.
  destruct (max_timestamp rows) as [m |] eqn:Em.
  - apply (one_poll_symbols m).
    + intros r Hr. pose proof (latest_rows_timestamp rows r) as H.
      rewrite Em in H. specialize (H Hr). congruence.
    + now apply pk_unique_filter.
  - clear Hpk Em.
    assert (E : filter (is_latest None) rows = []).
    { induction rows as [| r rows IH]; [reflexivity | exact IH]. }
    rewrite E. constructor.
Qed.

(** With different symbols, the first row of the symbol of a row is the
    row. *)
Lemma find_own_symbol {A : Type} (key : A -> string) (l : list A) (r : A) :
  NoDup (map key l) -> In r l ->
  find (fun p => String.eqb (key p) (key r)) l = Some r.
Proof.
  induction l as [| x l IH]; intros Hnd Hin; [contradiction |].
  simpl in Hnd. inversion Hnd as [| ? ? Hx Hl]; subst.
  simpl. destruct Hin as [-> | Hin].
  - now rewrite String.eqb_refl.
  - destruct (String.eqb_spec (key x) (key r)) as [E | _].
    + exfalso. apply Hx. rewrite E. now apply in_map.
    + now apply IH.
Qed.

(** X2: under the primary key the latest data is one poll: its rows
    bear the last timestamp of the table and no symbol is there twice. *)
Theorem latest_data_is_one_poll (self : StockDataStorage)
    (df : list quote_row) :
  pk_unique (stock_snapshots (conn self)) = true ->
  fst (get_latest_data self) = Some df ->
  NoDup (map q_Symbol df)
  /\ (forall r, In r df ->
                q_timestamp r = max_timestamp (stock_snapshots (conn self)))
  /\ (forall r, In r df ->
                find (fun p => String.eqb (q_Symbol p) (q_Symbol r)) df
                = Some r).
Proof.
  intros Hpk Hdf. unfold get_latest_data, execute_latest in Hdf.
  destruct (is_open (conn self)); simpl in Hdf; [| discriminate].
  injection Hdf as <-.
  set (rows := stock_snapshots (conn self)) in *.
  assert (Hnd : NoDup (map q_Symbol
                         (map latest_row
                            (filter (is_latest (max_timestamp rows)) rows)))).
  { rewrite map_map. simpl. now apply latest_rows_symbols. }
  split; [exact Hnd | split].
  - intros r Hr. apply in_map_iff in Hr as (sn & <- & Hsn). simpl.
    symmetry. now apply latest_rows_timestamp.
  - intros r Hr. now apply find_own_symbol.
Qed.

(** The table of two polls: the frame is the second poll. *)
Lemma latest_data_is_one_poll_witness :
  let a1 := mk_snapshot 1000 "AAPL" (Some "Apple") (Some 10000) (Some 9900)
              (Some 101) (Some "Yahoo Finance") in
  let a2 := mk_snapshot 2000 "AAPL" (Some "Apple") (Some 10600) (Some 9900)
              (Some 707) (Some "Yahoo Finance") in
  let m2 := mk_snapshot 2000 "MSFT" (Some "Microsoft") (Some 40000)
              (Some 40100) (Some (-25)) (Some "Yahoo Finance") in
  let self := mk_storage (of_Z 5) (mk_connection true [a1; a2; m2]) in
  NoDup (map q_Symbol [latest_row a2; latest_row m2])
  /\ forall r, In r [latest_row a2; latest_row m2] ->
               q_timestamp r = Some 2000.
Proof.
  intros a1 a2 m2 self.
  destruct (latest_data_is_one_poll self [latest_row a2; latest_row m2]
              eq_refl eq_refl) as (H1 & H2 & _).
  split; [exact H1 | exact H2].
Defined.

End LatestFrame.

(** ** A comparison of the latest data with itself *)

Section Unchanged.

Import PyFloat PyStr DataStorage Spec Terms.

Lemma positive_threshold (thr : float) :
  ltb (of_Z 0) thr = true ->
  leb thr (S754_zero false) = false /\ leb thr S754_nan = false.
Proof.
  destruct thr as [s | s | | s m e]; try discriminate;
    destruct s; try discriminate; intros _; split; reflexivity.
Qed.

Lemma sub_self_finite (s : bool) (m : positive) (e : Z) :
  sub (S754_finite s m e) (S754_finite s m e) = S754_zero false.
Proof. unfold sub, SFsub. rewrite Z.sub_diag. reflexivity. Qed.

Lemma decimal_value_not_nan (d : Z) : is_nan (decimal_value d) = false.
Proof. rewrite decimal_value_eq. apply div_round_not_nan. lia. Qed.

Lemma decimal_value_zero (d : Z) : is_zero (decimal_value d) = (d =? 0).
Proof.
  destruct (Z.eqb_spec d 0) as [-> | Hne]; [reflexivity |].
  rewrite decimal_value_eq.
  assert (Hpos : 0 < Z.abs d) by lia.
  destruct (binade_exists (Z.abs d) 100 Hpos ltac:(lia)) as [e Hb].
  pose proof (binade_cents_lower (Z.abs d) e Hpos Hb) as He.
  destruct (div_round_char (d <? 0) (Z.abs d) 100 e Hpos ltac:(lia)
              ltac:(lia) Hb) as [Hs Hm].
  rewrite Hs. apply pack_carry_nonzero. lia.
Qed.

(** The percentage of a price against itself stays below a positive
    threshold. *)
Lemma unchanged_pct (thr x : float) :
  ltb (of_Z 0) thr = true -> is_nan x = false -> is_zero x = false ->
  leb thr (abs (mul (div (sub x x) x) (of_Z 100))) = false.
Proof.
  intros Hthr Hn Hz. destruct (positive_threshold thr Hthr) as [H0 Hnan].
  change (of_Z 100) with (S754_finite false 7036874417766400 (-46)).
  destruct x as [s | s | | s m e]; try discriminate.
  - destruct s; exact Hnan.
  - rewrite sub_self_finite. exact H0.
Qed.

(** The difference of a daily change with itself, through its text. *)
Lemma unchanged_daily (thr z : float) :
  ltb (of_Z 0) thr = true -> is_nan z = false ->
  exists w, to_float (PStr (format_2f (sub z z) ++ "%")) "%" = Ok w
            /\ leb thr (abs w) = false.
Proof.
  intros Hthr Hn. destruct (positive_threshold thr Hthr) as [H0 Hnan].
  destruct z as [s | s | | s m e]; try discriminate.
  - exists (S754_zero false). split; [now destruct s | exact H0].
  - exists S754_nan. split; [now destruct s | exact Hnan].
  - rewrite sub_self_finite. exists (S754_zero false).
    split; [reflexivity | exact H0].
Qed.

(** The comparison of a row with a previous row of the same values. *)
Lemma echo_compared (prev r : quote_row) (dp dd : Z) :
  quotes prev (Some dp) (Some dd) -> quotes r (Some dp) (Some dd) ->
  compared_fields prev r
  = Ok (Some (mk_comparison_row r
                (PStr ("$" ++ format_2f (decimal_value dp)))
                (PStr ("$" ++ format_2f
                                (sub (decimal_value dp) (decimal_value dp))))
                (PStr (format_2f (decimal_value dd) ++ "%"))
                (PStr (format_2f
                         (sub (decimal_value dd) (decimal_value dd)) ++ "%")))).
Proof.
  intros [Hp1 Hp2] [Hr1 Hr2]. unfold compared_fields.
  rewrite Hp1, Hp2, Hr1, Hr2. simpl concat_text.
  rewrite (proj1 (stored_price_reads dp)), (proj1 (stored_percent_reads dd)).
  reflexivity.
Qed.

(** The two halves of the loop body on a row filled in by such a
    comparison. *)
Lemma echo_check_price (thr : float) (a : alerts) (c : comparison_row)
    (dp : Z) :
  ltb (of_Z 0) thr = true ->
  Current_Price c = PStr ("$" ++ decimal_text dp) ->
  Previous_Price c = PStr ("$" ++ format_2f (decimal_value dp)) ->
  check_price thr a c
  = if dp =? 0 then Raise ZeroDivisionError else Ok a.
Proof.
  intros Hthr Hc Hp. unfold check_price. rewrite Hc, Hp.
  rewrite (proj2 (stored_price_reads dp)), (formatted_price_reads dp).
  cbn [bind]. unfold truediv. rewrite decimal_value_zero.
  destruct (Z.eqb_spec dp 0) as [E | Hne]; [reflexivity |].
  cbn [bind].
  rewrite (unchanged_pct thr (decimal_value dp) Hthr
             (decimal_value_not_nan dp)); [reflexivity |].
  rewrite decimal_value_zero. now apply Z.eqb_neq.
Qed.

Lemma echo_check_daily (thr : float) (a : alerts) (c : comparison_row)
    (dd : Z) :
  ltb (of_Z 0) thr = true ->
  Change_in_Daily_Change c
  = PStr (format_2f (sub (decimal_value dd) (decimal_value dd)) ++ "%") ->
  check_daily thr a c = Ok a.
Proof.
  intros Hthr Hc. unfold check_daily. rewrite Hc. simpl notna.
  destruct (unchanged_daily thr (decimal_value dd) Hthr
              (decimal_value_not_nan dd)) as (w & Hw & Hle).
  rewrite Hw. cbn [bind]. now rewrite Hle.
Qed.

(** The analysis of such a row: it divides by a price of zero, or it
    leaves the alerts as they are. *)
Lemma echo_row (thr : float) (a : alerts) (previous : list quote_row)
    (prev r : quote_row) (p d : option Z) :
  ltb (of_Z 0) thr = true ->
  find (fun x => String.eqb (q_Symbol x) (q_Symbol r)) previous = Some prev ->
  quotes prev p d -> quotes r p d ->
  analyze_row thr a (fst (compare_row previous r))
  = if zero_quote p d then Raise ZeroDivisionError else Ok a.
Proof.
  intros Hthr Hfind Hprev Hr. unfold compare_row. rewrite Hfind.
  destruct p as [dp |]; [destruct d as [dd |] |].
  - rewrite (echo_compared prev r dp dd Hprev Hr). cbn [fst].
    set (c := mk_comparison_row r _ _ _ _).
    destruct Hr as [Hr1 Hr2].
    assert (Hc : Current_Price c = PStr ("$" ++ decimal_text dp))
      by exact Hr1.
    unfold analyze_row.
    replace (isna (Previous_Price c) || isna (Current_Price c)) with false
      by (rewrite Hc; reflexivity).
    rewrite (echo_check_price thr a c dp Hthr Hc eq_refl).
    simpl zero_quote. destruct (dp =? 0); [reflexivity |].
    cbn [bind]. now apply (echo_check_daily thr a c dd).
  - assert (E : compared_fields prev r = Raise ValueError).
    { destruct Hprev as [Hp1 Hp2]. unfold compared_fields.
      rewrite Hp1, Hp2. simpl concat_text.
      rewrite (proj1 (stored_price_reads dp)). reflexivity. }
    rewrite E. reflexivity.
  - assert (E : compared_fields prev r = Raise ValueError).
    { destruct Hprev as [Hp1 Hp2]. unfold compared_fields.
      rewrite Hp1. reflexivity. }
    rewrite E. reflexivity.
Qed.

(** A row of a symbol that the previous frame does not hold is left
    aside. *)
Lemma fresh_row (thr : float) (a : alerts) (previous : list quote_row)
    (r : quote_row) :
  find (fun x => String.eqb (q_Symbol x) (q_Symbol r)) previous = None ->
  fst (compare_row previous r) = unset r
  /\ analyze_row thr a (fst (compare_row previous r)) = Ok a.
Proof. intros H. unfold compare_row. rewrite H. split; reflexivity. Qed.

(** The rows of a frame echo the rows [L] of the table in the frame
    [previous]: each holds the values of its row of the table, and so does
    the row of its symbol in [previous]. *)
Lemma echo_rows (thr : float) (previous : list quote_row)
    (current : list quote_row) (L : list snapshot) :
  ltb (of_Z 0) thr = true ->
  Forall2 (echoes previous) current L ->
  forall a,
    analyze_rows thr a (map (fun r => fst (compare_row previous r)) current)
    = if existsb zero_priced L then Raise ZeroDivisionError else Ok a.
Proof.
  intros Hthr H. induction H as [| r sn current L [Hr (prev & Hf & Hp)] _ IH];
    intros a; [reflexivity |].
  simpl map. simpl analyze_rows. simpl existsb.
  rewrite (echo_row thr a previous prev r _ _ Hthr Hf Hp Hr).
  change (zero_quote (current_price sn) (daily_change sn))
    with (zero_priced sn).
  destruct (zero_priced sn); [reflexivity |].
  cbn [bind orb]. apply IH.
Qed.

Lemma latest_row_quotes (sn : snapshot) :
  quotes (latest_row sn) (current_price sn) (daily_change sn).
Proof. split; reflexivity. Qed.

(** The rows of a frame without a symbol twice echo themselves. *)
Lemma self_echo (previous : list quote_row) (L : list snapshot) :
  NoDup (map q_Symbol previous) ->
  (forall sn, In sn L -> In (latest_row sn) previous) ->
  Forall2 (echoes previous) (map latest_row L) L.
Proof.
  intros Hnd. induction L as [| sn L IH]; intros Hall; [constructor |].
  simpl. constructor.
  - split; [apply latest_row_quotes |].
    exists (latest_row sn). split; [| apply latest_row_quotes].
    apply (find_own_symbol q_Symbol previous (latest_row sn) Hnd).
    apply Hall. now left.
  - apply IH. intros sn' Hin. apply Hall. now right.
Qed.

Lemma latest_echo (rows : list snapshot) :
  pk_unique rows = true ->
  let L := filter (is_latest (max_timestamp rows)) rows in
  Forall2 (echoes (map latest_row L)) (map latest_row L) L.
Proof.
  intros Hpk L. apply self_echo.
  - rewrite map_map. simpl. now apply latest_rows_symbols.
  - intros sn Hin. now apply in_map.
Qed.

(** X3: the page compares the latest data with the storage it has just
    read it from. Under the primary key and with a positive threshold the
    analysis of this comparison finds no alert, or stops on the division
    by a stored price of zero; the page writes no alert. *)
Theorem page_alerts_stay_empty (self : StockDataStorage)
    (selected_symbol : string) :
  pk_unique (stock_snapshots (conn self)) = true ->
  ltb (of_Z 0) (price_change_threshold self) = true ->
  fst (App.price_alerts self selected_symbol) = []
  /\ forall latest_data comparison,
       fst (get_latest_data self) = Some latest_data ->
       fst (compare_with_previous self latest_data) = Some comparison ->
       fst (analyze_price_changes self comparison)
       = if existsb zero_priced
              (filter (is_latest (max_timestamp (stock_snapshots (conn self))))
                      (stock_snapshots (conn self)))
         then None
         else Some (mk_alerts [] [] (Z.of_nat (List.length latest_data))
                      0 0 0).
Proof.
  intros Hpk Hthr.
  set (rows := stock_snapshots (conn self)) in *.
  set (L := filter (is_latest (max_timestamp rows)) rows).
  assert (Hmain : forall latest_data comparison,
             fst (get_latest_data self) = Some latest_data ->
             fst (compare_with_previous self latest_data) = Some comparison ->
             fst (analyze_price_changes self comparison)
             = if existsb zero_priced L then None
               else Some (mk_alerts [] [] (Z.of_nat (List.length latest_data))
                            0 0 0)).
  { intros latest_data comparison Hl Hc.
    rewrite (compare_with_previous_map self latest_data latest_data Hl) in Hc.
    injection Hc as <-.
    assert (Hdf : latest_data = map latest_row L).
    { unfold get_latest_data, execute_latest in Hl.
      destruct (is_open (conn self)); simpl in Hl; [| discriminate].
      now injection Hl as <-. }
    subst latest_data.
    unfold analyze_price_changes. rewrite length_map.
    rewrite (echo_rows (price_change_threshold self) (map latest_row L)
               (map latest_row L) L Hthr (latest_echo rows Hpk)).
    destruct (existsb zero_priced L); reflexivity. }
  split; [| exact Hmain].
  unfold App.price_alerts.
  destruct (get_latest_data self) as [[latest_data |] log1] eqn:El;
    [| reflexivity].
  destruct (compare_with_previous self latest_data)
    as [[comparison |] log2] eqn:Ec; [| reflexivity].
  specialize (Hmain latest_data comparison eq_refl).
  rewrite Ec in Hmain. specialize (Hmain eq_refl).
  destruct (analyze_price_changes self comparison) as [result log3].
  simpl in Hmain. subst result. simpl fst.
  destruct (existsb zero_priced L); reflexivity.
Qed.

(** The table of two polls, the second of two symbols one of which went
    from 100.00 to 106.00: the page writes nothing. *)
Lemma page_alerts_stay_empty_witness :
  let a1 := mk_snapshot 1000 "AAPL" (Some "Apple") (Some 10000) (Some 9900)
              (Some 101) (Some "Yahoo Finance") in
  let a2 := mk_snapshot 2000 "AAPL" (Some "Apple") (Some 10600) (Some 9900)
              (Some 707) (Some "Yahoo Finance") in
  let m2 := mk_snapshot 2000 "MSFT" (Some "Microsoft") (Some 40000)
              (Some 40100) (Some (-25)) (Some "Yahoo Finance") in
  let self := mk_storage (of_Z 5) (mk_connection true [a1; a2; m2]) in
  fst (App.price_alerts self "AAPL") = [].
Proof.
  intros a1 a2 m2 self.
  exact (proj1 (page_alerts_stay_empty self "AAPL" eq_refl eq_refl)).
Defined.

End Unchanged.

(** ** The metric of the page *)

Section Metric.

Import PyFloat PyStr DataStorage Spec Terms.

Lemma find_filter {A : Type} (f : A -> bool) (l : list A) :
  match find f l with
  | Some x => exists rest, filter f l = x :: rest
  | None => filter f l = []
  end.
Proof.
  induction l as [| y l IH]; [reflexivity |].
  simpl. destruct (f y); [eauto | exact IH].
Qed.

(** The text of the float of a value that fits its column is the text
    of the value. *)
Lemma typed_value_text (w d : Z) :
  0 <= w <= 15 -> Z.abs d < 10 ^ w ->
  format_2f (decimal_value d) = decimal_text d.
Proof.
  intros Hw Hd. rewrite decimal_value_eq. unfold decimal_text.
  apply small_value_text. split; [lia |].
  assert (10 ^ w <= 10 ^ 15) by (apply Z.pow_le_mono_r; lia).
  assert (10 ^ 15 < 100 * 2 ^ 46) by reflexivity.
  lia.
Qed.

Lemma latest_price_float (sn : snapshot) :
  to_float (q_Current_Price (latest_row sn)) "$"
  = match current_price sn with
    | Some p => Ok (decimal_value p)
    | None => Raise ValueError
    end.
Proof.
  unfold latest_row. simpl q_Current_Price.
  destruct (current_price sn) as [p |]; [| reflexivity].
  apply (proj2 (stored_price_reads p)).
Qed.

Lemma latest_change_float (sn : snapshot) :
  to_float (q_Daily_Change (latest_row sn)) "%"
  = match daily_change sn with
    | Some d => Ok (decimal_value d)
    | None => Raise ValueError
    end.
Proof.
  unfold latest_row. simpl q_Daily_Change.
  destruct (daily_change sn) as [d |]; [| reflexivity].
  apply (proj2 (stored_percent_reads d)).
Qed.

(** X4: the metric of the selected symbol shows the texts of the latest
    data as they are: the price and the daily change that the page reads
    from the cells and formats again come out as the cells were. A
    [NULL] in either column ends the page in a [ValueError]. *)
Theorem metric_shows_stored_text (rows : list snapshot)
    (selected_symbol : string) (sn : snapshot) :
  find (fun r => String.eqb (symbol r) selected_symbol) rows = Some sn ->
  well_typed sn ->
  App.market_status (map latest_row rows) selected_symbol
  = match current_price sn, daily_change sn with
    | Some p, Some d =>
        Ok (Some ("$" ++ decimal_text p, decimal_text d ++ "%"))
    | _, _ => Raise ValueError
    end.
Proof.
  intros Hfind (Hp & _ & Hd).
  assert (Hsel : exists rest,
             App.select selected_symbol (map latest_row rows)
             = latest_row sn :: rest).
  { unfold App.select. rewrite filter_map_comm. simpl.
    pose proof (find_filter (fun r => String.eqb (symbol r) selected_symbol)
                  rows) as H.
    rewrite Hfind in H. destruct H as [rest ->]. simpl. eauto. }
  destruct Hsel as [rest Hsel].
  unfold App.market_status. rewrite Hsel.
  rewrite latest_price_float, latest_change_float.
  destruct (current_price sn) as [p |]; [| reflexivity].
  cbn [bind].
  destruct (daily_change sn) as [d |]; [| reflexivity].
  cbn [bind]. simpl in Hp, Hd.
  rewrite (typed_value_text 10 p ltac:(lia) Hp).
  rewrite (typed_value_text 5 d ltac:(lia) Hd).
  reflexivity.
Qed.

(** A share at 1234.56 that lost a quarter of a percent. *)
Lemma metric_shows_stored_text_witness :
  let m := mk_snapshot 2000 "MSFT" (Some "Microsoft") (Some 123456)
             (Some 123765) (Some (-25)) (Some "Yahoo Finance") in
  App.market_status [latest_row m] "MSFT" = Ok (Some ("$1234.56", "-0.25%")).
Proof.
  intros m.
  refine (metric_shows_stored_text [m] "MSFT" m eq_refl _).
  repeat split; simpl; lia.
Defined.

End Metric.

(** ** Saving a frame *)

Section SavedBatch.

Import PyFloat PyStr DataStorage Spec Terms.

Variable cast : Z -> float -> outcome (option Z).

Lemma map_outcome_spec {A B : Type} (f : A -> outcome B) (xs : list A)
    (ys : list B) :
  map_outcome f xs = Ok ys -> Forall2 (fun x y => f x = Ok y) xs ys.
Proof.
  revert ys. induction xs as [| x xs IH]; intros ys H; simpl in H.
  - injection H as <-. constructor.
  - destruct (f x) as [y | e] eqn:Ex; [| discriminate]. cbn [bind] in H.
    destruct (map_outcome f xs) as [ys' | e]; [| discriminate].
    cbn [bind] in H. injection H as <-. constructor; auto.
Qed.

Lemma map_outcome_raise {A B : Type} (f : A -> outcome B) (xs : list A)
    (x : A) (e : exn) :
  In x xs -> f x = Raise e -> exists e', map_outcome f xs = Raise e'.
Proof.
  induction xs as [| y xs IH]; intros Hin Hx; [contradiction |].
  simpl. destruct Hin as [-> | Hin].
  - rewrite Hx. now exists e.
  - destruct (f y) as [z | e1]; [| now exists e1]. cbn [bind].
    destruct (IH Hin Hx) as [e' ->]. now exists e'.
Qed.

Lemma column_to_float_length (c : ascii) (col : list pyval)
    (xs : list float) :
  column_to_float c col = Ok xs -> List.length xs = List.length col.
Proof.
  unfold column_to_float.
  destruct (existsb is_str col || forallb is_none col); [| discriminate].
  intros H. apply map_outcome_spec in H.
  symmetry. eapply Forall2_length. exact H.
Qed.

Lemma Forall2_combine_l {A B C : Type} (P : A * B -> C -> Prop)
    (l : list A) (l' : list B) (ys : list C) :
  (List.length l <= List.length l')%nat ->
  Forall2 P (combine l l') ys ->
  Forall2 (fun a y => exists b, P (a, b) y) l ys.
Proof.
  revert l' ys. induction l as [| a l IH]; intros l' ys Hlen H.
  - simpl in H. inversion H. constructor.
  - destruct l' as [| b l']; [simpl in Hlen; lia |].
    simpl in H. inversion H as [| ? y ? ys' Hab Hrest]; subst.
    constructor; [eauto |]. apply (IH l'); [simpl in Hlen; lia | assumption].
Qed.

Lemma pk_unique_app (a b : list snapshot) :
  pk_unique (a ++ b) = true -> pk_unique a = true /\ pk_unique b = true.
Proof.
  induction a as [| r a IH]; intros H; [now split |].
  simpl in H. apply andb_prop in H as [Hr Ha].
  destruct (IH Ha) as [H1 H2]. split; [| assumption].
  simpl. rewrite H1, andb_true_r.
  apply negb_true_iff. apply negb_true_iff in Hr.
  rewrite existsb_app in Hr. now apply orb_false_iff in Hr as [-> _].
Qed.

(** A save that goes through: the connection is open, and the table has
    one more row for each row of the frame, in its order, at the timestamp
    of the save, with the primary key kept. *)
Lemma save_attempt_ok (self : StockDataStorage) (df : list quote_row)
    (ts : Z) (c : connection) :
  save_attempt cast self df ts = Ok c ->
  is_open c = true
  /\ exists new,
       stock_snapshots c = (stock_snapshots (conn self) ++ new)%list
       /\ Forall2 (stored_as ts) df new
       /\ pk_unique (stock_snapshots (conn self) ++ new) = true.
Proof.
  unfold save_attempt, numeric_columns. intros H.
  destruct (column_to_float "$" (map q_Current_Price df)) as [cp | e] eqn:E1;
    [| discriminate].
  cbn [bind] in H.
  destruct (column_to_float "$" (map q_Previous_Close df)) as [pc | e] eqn:E2;
    [| discriminate].
  cbn [bind] in H.
  destruct (column_to_float "%" (map q_Daily_Change df)) as [dc | e] eqn:E3;
    [| discriminate].
  cbn [bind] in H. unfold execute_insert in H.
  destruct (is_open (conn self)) eqn:Eo; [| discriminate].
  cbn [negb] in H.
  match type of H with
  | bind (map_outcome ?f ?l) _ = _ =>
      destruct (map_outcome f l) as [rows | e] eqn:Er; [| discriminate]
  end.
  cbn [bind] in H. unfold append_rows in H.
  destruct (pk_unique (stock_snapshots (conn self) ++ rows)) eqn:Epk;
    [| discriminate].
  injection H as <-. simpl. split; [exact Eo |].
  exists rows. split; [reflexivity | split; [| exact Epk]].
  apply column_to_float_length in E1, E2, E3. rewrite length_map in *.
  apply map_outcome_spec in Er.
  apply Forall2_combine_l in Er.
  2:{ rewrite !length_combine. lia. }
  eapply Forall2_impl; [| exact Er].
  intros r sn [[x [y z]] Hrow]. simpl in Hrow.
  destruct (cast 10 x) as [x' | e]; [| discriminate]. cbn [bind] in Hrow.
  destruct (cast 10 y) as [y' | e]; [| discriminate]. cbn [bind] in Hrow.
  destruct (cast 5 z) as [z' | e]; [| discriminate]. cbn [bind] in Hrow.
  injection Hrow as <-. repeat split.
Qed.

Lemma stored_symbols (ts : Z) (df : list quote_row) (new : list snapshot) :
  Forall2 (stored_as ts) df new ->
  map symbol new = map q_Symbol df
  /\ (forall sn, In sn new -> timestamp sn = ts).
Proof.
  induction 1 as [| r sn df new (Ht & Hs & _) _ [IH1 IH2]]; [now split |].
  split.
  - simpl. now rewrite Hs, IH1.
  - intros x [<- | Hx]; auto.
Qed.

Lemma save_result (self : StockDataStorage) (df : list quote_row)
    (timestamp : option Z) (now : Z) :
  let ts := match timestamp with Some t => t | None => now end in
  save_stock_data cast self df timestamp now
  = match save_attempt cast self df ts with
    | Ok c => (Ok tt, mk_storage (price_change_threshold self) c,
               [Saved_stock_data ts])
    | Raise e => (Ok tt, self, [Error_saving_stock_data e])
    end.
Proof. reflexivity. Qed.

(** X5: [save_stock_data] stores the whole frame or nothing. After a save
    that went through, the table is the table of before and then one row
    for each row of the frame, in order, at the timestamp of the save, and
    the primary key holds; after a save that failed the storage is as it
    was. *)
Theorem save_is_all_or_nothing (self : StockDataStorage)
    (df : list quote_row) (timestamp : option Z) (now : Z) :
  let ts := match timestamp with Some t => t | None => now end in
  let result := save_stock_data cast self df timestamp now in
  (snd result = [Saved_stock_data ts]
   /\ is_open (conn (snd (fst result))) = true
   /\ price_change_threshold (snd (fst result)) = price_change_threshold self
   /\ exists new,
        stock_snapshots (conn (snd (fst result)))
        = (stock_snapshots (conn self) ++ new)%list
        /\ Forall2 (stored_as ts) df new
        /\ pk_unique (stock_snapshots (conn (snd (fst result)))) = true)
  \/ (exists e, snd result = [Error_saving_stock_data e]
                /\ snd (fst result) = self).
Proof.
  intros ts result. unfold result. rewrite save_result. fold ts.
  destruct (save_attempt cast self df ts) as [c | e] eqn:E.
  - left. destruct (save_attempt_ok self df ts c E)
      as (Ho & new & Hrows & Hst & Hpk).
    simpl. repeat split; try assumption.
    exists new. rewrite Hrows. auto.
  - right. exists e. split; reflexivity.
Qed.

(** A frame with a symbol twice, or with a row that the table holds at
    the timestamp of the save, is not saved. *)
Lemma save_attempt_keys (self : StockDataStorage) (df : list quote_row)
    (ts : Z) (c : connection) :
  save_attempt cast self df ts = Ok c ->
  NoDup (map q_Symbol df)
  /\ forall r sn, In r df -> In sn (stock_snapshots (conn self)) ->
                  DataStorage.timestamp sn = ts -> symbol sn <> q_Symbol r.
Proof.
  intros H. destruct (save_attempt_ok self df ts c H)
    as (_ & new & _ & Hst & Hpk).
  destruct (stored_symbols ts df new Hst) as [Hsym Hts].
  split.
  - rewrite <- Hsym. apply (one_poll_symbols ts); [exact Hts |].
    now apply pk_unique_app in Hpk.
  - intros r sn Hr Hsn Ht Hs.
    assert (Hex : exists sn', In sn' new /\ symbol sn' = q_Symbol r).
    { assert (Hin : In (q_Symbol r) (map symbol new))
        by (rewrite Hsym; now apply in_map).
      apply in_map_iff in Hin as (sn' & E & Hin). eauto. }
    destruct Hex as (sn' & Hin' & Hs').
    apply in_split in Hin' as (n1 & n2 & ->).
    rewrite app_assoc in Hpk.
    destruct (pk_unique_split _ _ _ Hpk) as [Hbefore _].
    specialize (Hbefore sn ltac:(apply in_or_app; now left)).
    unfold same_key in Hbefore.
    rewrite (Hts sn' ltac:(apply in_or_app; right; now left)) in Hbefore.
    rewrite Ht, Z.eqb_refl, Hs, Hs', String.eqb_refl in Hbefore.
    discriminate.
Qed.

(** X6: a frame that lists a symbol twice is never saved, whatever else
    it holds: the rows of a save share their timestamp, and the primary
    key refuses the second. The storage stays as it was and the failure
    is logged. *)
Theorem save_refuses_repeated_symbol (self : StockDataStorage)
    (df1 df2 df3 : list quote_row) (r1 r2 : quote_row)
    (timestamp : option Z) (now : Z) :
  q_Symbol r1 = q_Symbol r2 ->
  exists e,
    save_stock_data cast self (df1 ++ r1 :: df2 ++ r2 :: df3) timestamp now
    = (Ok tt, self, [Error_saving_stock_data e]).
Proof.
  intros Hs. rewrite save_result.
  destruct (save_attempt cast self _ _) as [c | e] eqn:E; [| eauto].
  exfalso. destruct (save_attempt_keys _ _ _ _ E) as [Hnd _].
  rewrite map_app in Hnd. simpl in Hnd.
  apply NoDup_remove_2 in Hnd. apply Hnd.
  apply in_or_app. right. rewrite map_app. apply in_or_app. right.
  rewrite Hs. now left.
Qed.

(** X7: a save at a timestamp at which the table already holds a row of
    one of the symbols of the frame fails as a whole. *)
Theorem save_refuses_stored_key (self : StockDataStorage)
    (df : list quote_row) (r : quote_row) (sn : snapshot)
    (timestamp : option Z) (now : Z) :
  In r df -> In sn (stock_snapshots (conn self)) ->
  symbol sn = q_Symbol r ->
  DataStorage.timestamp sn
  = match timestamp with Some t => t | None => now end ->
  exists e,
    save_stock_data cast self df timestamp now
    = (Ok tt, self, [Error_saving_stock_data e]).
Proof.
  intros Hr Hsn Hs Ht. rewrite save_result.
  destruct (save_attempt cast self _ _) as [c | e] eqn:E; [| eauto].
  exfalso. destruct (save_attempt_keys _ _ _ _ E) as [_ Hk].
  exact (Hk r sn Hr Hsn Ht Hs).
Qed.

Lemma column_unreadable (c : ascii) (col : list pyval) (v : pyval) :
  In v col -> unreadable c v -> exists e, column_to_float c col = Raise e.
Proof.
  intros Hin (s & -> & Hp). unfold column_to_float.
  destruct (existsb is_str col || forallb is_none col); [| eauto].
  eapply map_outcome_raise; [exact Hin |].
  simpl. unfold float_of_str. rewrite Hp. reflexivity.
Qed.

(** X8: a frame with a cell that [float] cannot read, in one of the
    three numeric columns, is not saved: no row of it reaches the table.
    The placeholder row that [get_stock_status] writes for a symbol
    without data is such a row. *)
Theorem save_refuses_unreadable_cell (self : StockDataStorage)
    (df : list quote_row) (timestamp : option Z) (now : Z) :
  (forall r, In r df -> unreadable_row r ->
     exists e,
       save_stock_data cast self df timestamp now
       = (Ok tt, self, [Error_saving_stock_data e]))
  /\ (forall symbol names,
        unreadable_row (fst (StockMonitor.stock_status_row symbol [] names))).
Proof.
  split.
  - intros r Hr Hbad. rewrite save_result.
    destruct (save_attempt cast self _ _) as [c | e] eqn:E; [| eauto].
    exfalso. unfold save_attempt, numeric_columns in E.
    destruct Hbad as [Hbad | [Hbad | Hbad]].
    + destruct (column_unreadable "$" (map q_Current_Price df) _
                  (in_map q_Current_Price df r Hr) Hbad) as [e He].
      rewrite He in E. discriminate.
    + destruct (column_to_float "$" (map q_Current_Price df));
        [| discriminate].
      destruct (column_unreadable "$" (map q_Previous_Close df) _
                  (in_map q_Previous_Close df r Hr) Hbad) as [e He].
      cbn [bind] in E. rewrite He in E. discriminate.
    + destruct (column_to_float "$" (map q_Current_Price df));
        [| discriminate].
      destruct (column_to_float "$" (map q_Previous_Close df));
        [| discriminate].
      destruct (column_unreadable "%" (map q_Daily_Change df) _
                  (in_map q_Daily_Change df r Hr) Hbad) as [e He].
      cbn [bind] in E. rewrite He in E. discriminate.
  - intros symbol names. left. exists "N/A". split; reflexivity.
Qed.

Lemma filter_none {A : Type} (f : A -> bool) (l : list A) :
  (forall x, In x l -> f x = false) -> filter f l = [].
Proof.
  induction l as [| x l IH]; intros H; [reflexivity |].
  simpl. rewrite (H x (or_introl eq_refl)). apply IH.
  intros y Hy. apply H. now right.
Qed.

Lemma filter_all {A : Type} (f : A -> bool) (l : list A) :
  (forall x, In x l -> f x = true) -> filter f l = l.
Proof.
  induction l as [| x l IH]; intros H; [reflexivity |].
  simpl. rewrite (H x (or_introl eq_refl)). f_equal. apply IH.
  intros y Hy. apply H. now right.
Qed.

(** The rows of a poll later than all the table are the latest rows of
    the table with them. *)
Lemma latest_of_appended (old new : list snapshot) (ts : Z) :
  new <> [] ->
  (forall sn, In sn new -> DataStorage.timestamp sn = ts) ->
  (forall sn, In sn old -> DataStorage.timestamp sn < ts) ->
  filter (is_latest (max_timestamp (old ++ new))) (old ++ new) = new.
Proof.
  intros Hne Hnew Hold.
  assert (Hmax : max_timestamp (old ++ new) = Some ts).
  { pose proof (max_timestamp_spec (old ++ new)) as H.
    destruct (max_timestamp (old ++ new)) as [m |].
    - destruct H as [Hin Hle]. f_equal.
      destruct new as [| sn0 new0]; [congruence |].
      assert (ts <= m).
      { rewrite <- (Hnew sn0 (or_introl eq_refl)). apply Hle.
        apply in_or_app. right. now left. }
      apply in_map_iff in Hin as (sn & <- & Hin).
      apply in_app_or in Hin as [Hin | Hin].
      + specialize (Hold sn Hin). lia.
      + now apply Hnew.
    - apply app_eq_nil in H as [_ ->]. congruence. }
  rewrite Hmax, filter_app.
  rewrite (filter_none _ old), (filter_all _ new); [reflexivity | |].
  - intros sn Hin. simpl. apply Z.eqb_eq. now apply Hnew.
  - intros sn Hin. simpl. apply Z.eqb_neq. specialize (Hold sn Hin). lia.
Qed.

(** X9: what is saved is what [get_latest_data] gives next. After a save
    of a frame with a row, at a timestamp later than the table, that went
    through, the latest data is one row for each row of the frame, in
    order, with its symbol, its company and its sources, at this
    timestamp. *)
Theorem latest_after_save (self : StockDataStorage) (df : list quote_row)
    (timestamp : option Z) (now : Z) :
  let ts := match timestamp with Some t => t | None => now end in
  let result := save_stock_data cast self df timestamp now in
  snd result = [Saved_stock_data ts] ->
  df <> [] ->
  (forall sn, In sn (stock_snapshots (conn self)) ->
              DataStorage.timestamp sn < ts) ->
  exists latest,
    fst (get_latest_data (snd (fst result))) = Some latest
    /\ map q_Symbol latest = map q_Symbol df
    /\ map q_Company latest = map q_Company df
    /\ map q_Sources latest = map q_Sources df
    /\ Forall (fun r => q_timestamp r = Some ts) latest.
Proof.
  intros ts result Hlog Hne Hold. unfold result in *.
  rewrite save_result in *. fold ts in Hlog |- *.
  destruct (save_attempt cast self df ts) as [c | e] eqn:E;
    [| discriminate].
  destruct (save_attempt_ok self df ts c E) as (Ho & new & Hrows & Hst & Hpk).
  destruct (stored_symbols ts df new Hst) as [Hsym Hts].
  assert (Hnew : new <> []).
  { intros ->. inversion Hst. congruence. }
  exists (map latest_row new). simpl fst. simpl snd.
  split; [| split; [| split; [| split]]].
  - unfold get_latest_data, execute_latest. simpl conn. rewrite Ho, Hrows.
    simpl. now rewrite (latest_of_appended _ new ts Hnew Hts Hold).
  - rewrite map_map. exact Hsym.
  - rewrite map_map. simpl. clear -Hst.
    induction Hst as [| r sn df new (_ & _ & Hc & _) _ IH]; [reflexivity |].
    simpl. now rewrite Hc, IH.
  - rewrite map_map. simpl. clear -Hst.
    induction Hst as [| r sn df new (_ & _ & _ & Hc) _ IH]; [reflexivity |].
    simpl. now rewrite Hc, IH.
  - apply Forall_forall. intros r Hr.
    apply in_map_iff in Hr as (sn & <- & Hsn). simpl. f_equal. now apply Hts.
Qed.

End SavedBatch.

Section SavedBatchExamples.

Import PyFloat DataStorage Spec Terms.

(** A frame of two rows for one symbol. *)
Lemma save_refuses_repeated_symbol_witness :
  let r := mk_quote_row None "AAPL" (Some "Apple") (PStr "$106.00")
             (PStr "$99.00") (PStr "7.07%") (Some "Yahoo Finance") in
  let self := mk_storage (of_Z 5) (mk_connection true []) in
  exists e,
    save_stock_data nearest_hundredth self
      ([] ++ r :: [] ++ r :: []) None 7
    = (Ok tt, self, [Error_saving_stock_data e]).
Proof.
  intros r self.
  exact (save_refuses_repeated_symbol nearest_hundredth self [] [] [] r r
           None 7 eq_refl).
Defined.

(** The same poll saved twice at one timestamp. *)
Lemma save_refuses_stored_key_witness :
  let r := mk_quote_row None "AAPL" (Some "Apple") (PStr "$106.00")
             (PStr "$99.00") (PStr "7.07%") (Some "Yahoo Finance") in
  let held := mk_snapshot 1000 "AAPL" (Some "Apple") (Some 10600)
                (Some 9900) (Some 707) (Some "Yahoo Finance") in
  let self :=
    mk_storage (of_Z 5) (mk_connection true [held]) in
  exists e,
    save_stock_data nearest_hundredth self [r] (Some 1000) 7
    = (Ok tt, self, [Error_saving_stock_data e]).
Proof.
  intros r held self.
  exact (save_refuses_stored_key nearest_hundredth self [r] r held
           (Some 1000) 7 (or_introl eq_refl) (or_introl eq_refl) eq_refl
           eq_refl).
Defined.

(** A frame with the row of a symbol without data after a good row. *)
Lemma save_refuses_unreadable_cell_witness :
  let good := mk_quote_row None "AAPL" (Some "Apple") (PStr "$106.00")
                (PStr "$99.00") (PStr "7.07%") (Some "Yahoo Finance") in
  let bad := fst (StockMonitor.stock_status_row "XYZ" [] []) in
  let self := mk_storage (of_Z 5) (mk_connection true []) in
  exists e,
    save_stock_data nearest_hundredth self [good; bad] None 7
    = (Ok tt, self, [Error_saving_stock_data e]).
Proof.
  intros good bad self.
  destruct (save_refuses_unreadable_cell nearest_hundredth self
              [good; bad] None 7) as [H1 H2].
  exact (H1 bad (or_intror (or_introl eq_refl)) (H2 "XYZ" [])).
Defined.

(** A first poll of two symbols. *)
Lemma latest_after_save_witness :
  let a := mk_quote_row None "AAPL" (Some "Apple") (PStr "$106.00")
             (PStr "$99.00") (PStr "7.07%") (Some "Yahoo Finance") in
  let m := mk_quote_row None "MSFT" (Some "Microsoft") (PStr "$400.00")
             (PStr "$401.00") (PStr "-0.25%") (Some "Yahoo Finance") in
  let held := mk_snapshot 1000 "AAPL" (Some "Apple") (Some 10000)
                (Some 9900) (Some 101) (Some "Yahoo Finance") in
  let self :=
    mk_storage (of_Z 5) (mk_connection true [held]) in
  exists latest,
    fst (get_latest_data
           (snd (fst (save_stock_data nearest_hundredth self
                        [a; m] None 2000))))
    = Some latest
    /\ map q_Symbol latest = ["AAPL"; "MSFT"].
Proof.
  intros a m held self.
  destruct (latest_after_save nearest_hundredth self [a; m] None 2000
              eq_refl ltac:(discriminate)) as (latest & H1 & H2 & _).
  - intros sn [<- | []]. simpl. lia.
  - exists latest. split; [exact H1 | exact H2].
Defined.


End SavedBatchExamples.

(** ** The rows of the daily summary *)

Section SummaryRows.

Import PyFloat PyStr DataStorage Spec Terms.

Lemma distinct_complete (ks : list group_key) (k : group_key) :
  In k ks -> In k (distinct ks).
Proof.
  induction ks as [| k0 ks IH]; [contradiction |].
  intros Hin. simpl.
  destruct (key_eqb k0 k) eqn:E.
  - left. now apply key_eqb_eq.
  - right. apply filter_In. split; [| now rewrite E].
    apply IH. destruct Hin as [-> | H]; [| assumption].
    assert (key_eqb k k = true) by now apply key_eqb_eq. congruence.
Qed.

(** A row of the view is the summary of the rows of its key, and a row of
    the table has this key. *)
Lemma daily_summary_In (rows : list snapshot) (s : rollup) :
  In s (daily_summary rows) ->
  exists k x,
    s = summarize k (group k (ranked_data rows))
    /\ In x (ranked_data rows) /\ key_of x = k.
Proof.
  unfold daily_summary. intros H.
  apply in_map_iff in H as (k & <- & Hk).
  apply distinct_In in Hk. apply in_map_iff in Hk as (x & Hx & Hin).
  exists k, x. auto.
Qed.

Lemma sql_max_In (l : list (option Z)) (h : Z) :
  sql_max l = Some h -> In (Some h) l.
Proof.
  unfold sql_max. intros H. pose proof (fold_max_opt_spec l None) as Hs.
  rewrite H in Hs. destruct Hs as [[Hs | Hs] _]; [discriminate | assumption].
Qed.

Lemma marked_price_In (f : ranked -> bool) (g : list ranked) (h : Z) :
  In (Some h) (map (fun x => case_when (f x) (current_price (row x))) g) ->
  In (Some h) (map (fun x => current_price (row x)) g).
Proof.
  intros H. apply in_map_iff in H as (x & Hx & Hin).
  apply in_map_iff. exists x. split; [| assumption].
  unfold case_when in Hx. destruct (f x); [assumption | discriminate].
Qed.

(** X10: in every row of the view [daily_summary], whatever the table
    holds, the opening and the closing price, when they are there, lie
    between the low and the high price of the row. *)
Theorem summary_prices_within_range (rows : list snapshot) (s : rollup) :
  In s (daily_summary rows) ->
  forall p, opening_price s = Some p \/ closing_price s = Some p ->
            exists lo hi,
              low_price s = Some lo /\ high_price s = Some hi
              /\ lo <= p <= hi.
Proof.
  intros Hs p Hp.
  destruct (daily_summary_In rows s Hs) as (k & _ & -> & _).
  destruct k as [[[d sym] c] o]. simpl in *.
  set (g := group (d, sym, c, o) (ranked_data rows)) in *.
  assert (Hin : In (Some p) (map (fun x => current_price (row x)) g)).
  { destruct Hp as [Hp | Hp]; apply sql_max_In in Hp;
      now apply marked_price_In in Hp. }
  destruct (sql_max_min_bounds _ p Hin) as (lo & hi & Hlo & Hhi & Hb & _).
  exists lo, hi. auto.
Qed.

(** A day of three polls of one symbol: its row of the view, and the
    opening price between the low and the high. *)
Lemma summary_prices_within_range_witness :
  let c1 := mk_snapshot 1000 "AAPL" (Some "Apple") (Some 10000)
              (Some 9900) (Some 101) (Some "Yahoo Finance") in
  let c2 := mk_snapshot 2000 "AAPL" (Some "Apple") (Some 10500)
              (Some 9900) (Some 606) (Some "Yahoo Finance") in
  let c3 := mk_snapshot 3000 "AAPL" (Some "Apple") (Some 9800)
              (Some 9900) (Some (-101)) (Some "Yahoo Finance") in
  let s := mk_rollup 0 "AAPL" (Some "Apple") (Some 10000) (Some 9800)
             (Some 10500) (Some 9800) (Some (of_Z 101)) (Some 101)
             (Some (-101)) (Some "Yahoo Finance") in
  daily_summary [c1; c2; c3] = [s]
  /\ exists lo hi, low_price s = Some lo /\ high_price s = Some hi
                   /\ lo <= 10000 <= hi.
Proof.
  intros c1 c2 c3 s. split; [reflexivity |].
  exact (summary_prices_within_range [c1; c2; c3] s
           (or_introl eq_refl) 10000 (or_introl eq_refl)).
Defined.

Lemma summarize_key (k : group_key) (g : list ranked) :
  date (summarize k g) = fst (fst (fst k))
  /\ r_symbol (summarize k g) = snd (fst (fst k)).
Proof. destruct k as [[[d s] c] o]. split; reflexivity. Qed.

Variable varchar_of_double : float -> string.

(** X11: [get_daily_summary] on an open connection gives a frame, never
    [None]: its symbols are the symbols with a row in the table on that
    day, so that a day without a row gives the empty frame. On a closed
    connection it gives [None]. *)
Theorem daily_summary_symbols (self : StockDataStorage) (day : Z) :
  (is_open (conn self) = true ->
   exists frame,
     fst (get_daily_summary varchar_of_double self day) = Some frame
     /\ (forall sym,
            In sym (map s_Symbol frame)
            <-> exists r, In r (stock_snapshots (conn self))
                          /\ date_of (timestamp r) = day /\ symbol r = sym)
     /\ ((forall r, In r (stock_snapshots (conn self)) ->
                    date_of (timestamp r) <> day) -> frame = []))
  /\ (is_open (conn self) = false ->
      fst (get_daily_summary varchar_of_double self day) = None).
Proof.
  unfold get_daily_summary. split; intros Ho; rewrite Ho; [| reflexivity].
  set (rows := stock_snapshots (conn self)).
  eexists. split; [reflexivity |].
  assert (Hsym : forall sym,
             In sym (map s_Symbol
                       (map (summary_of varchar_of_double)
                          (filter (fun r => date r =? day)
                                  (daily_summary rows))))
             <-> exists r, In r rows
                           /\ date_of (timestamp r) = day /\ symbol r = sym).
  { intros sym. rewrite map_map. simpl. split.
    - intros H. apply in_map_iff in H as (s & <- & Hs).
      apply filter_In in Hs as [Hs Hd]. apply Z.eqb_eq in Hd.
      destruct (daily_summary_In rows s Hs) as (k & x & -> & Hx & Hk).
      destruct (summarize_key k (group k (ranked_data rows))) as [E1 E2].
      rewrite E1 in Hd. rewrite E2. subst k.
      exists (row x). split; [| split].
      + unfold ranked_data in Hx.
        rewrite <- (ranked_from_rows [] rows). now apply in_map.
      + exact Hd.
      + reflexivity.
    - intros (r & Hr & Hd & Hs).
      assert (Hx : exists x, In x (ranked_data rows) /\ row x = r).
      { unfold ranked_data. rewrite <- (ranked_from_rows [] rows) in Hr.
        apply in_map_iff in Hr as (x & E & Hx). eauto. }
      destruct Hx as (x & Hx & <-).
      apply in_map_iff.
      exists (summarize (key_of x) (group (key_of x) (ranked_data rows))).
      destruct (summarize_key (key_of x)
                  (group (key_of x) (ranked_data rows))) as [E1 E2].
      split; [rewrite E2, <- Hs; reflexivity |].
      apply filter_In. split.
      + unfold daily_summary. apply in_map_iff. exists (key_of x).
        split; [reflexivity |]. apply distinct_complete. now apply in_map.
      + rewrite E1. apply Z.eqb_eq. exact Hd. }
  split; [exact Hsym |].
  intros Hnone.
  destruct (map (summary_of varchar_of_double) _) as [| s0 rest] eqn:E;
    [reflexivity | exfalso].
  destruct (proj1 (Hsym (s_Symbol s0)) (or_introl eq_refl))
    as (r & Hr & Hd & _).
  exact (Hnone r Hr Hd).
Qed.

End SummaryRows.

Section SummaryRowsExamples.

Import PyFloat PyStr DataStorage Spec Terms.

(** A table with one row, of the first day. *)
Lemma daily_summary_symbols_witness :
  let c1 := mk_snapshot 1000 "AAPL" (Some "Apple") (Some 10000)
              (Some 9900) (Some 101) (Some "Yahoo Finance") in
  let self := mk_storage (of_Z 5) (mk_connection true [c1]) in
  exists frame,
    fst (get_daily_summary (fun _ => "") self 1) = Some frame
    /\ frame = [].
Proof.
  intros c1 self.
  destruct (proj1 (daily_summary_symbols (fun _ => "") self 1) eq_refl)
    as (frame & H1 & _ & H3).
  exists frame. split; [exact H1 |]. apply H3.
  intros r [<- | []]. discriminate.
Defined.

End SummaryRowsExamples.

(** ** What the analysis keeps true *)

Section AnalysisInvariant.

Import PyFloat PyStr DataStorage Spec Terms.

Lemma truediv_ok (x y q : float) :
  truediv x y = Ok q -> q = div x y /\ is_zero y = false.
Proof.
  unfold truediv. destruct (is_zero y); [discriminate |].
  intros [= <-]. now split.
Qed.

Lemma counted_snoc (a : alerts) (c : price_alert) (l : list daily_alert)
    (t : Z) :
  counted a ->
  counted (mk_alerts (significant_changes a ++ [c]) l t
             (n_significant_changes a + 1)
             (if rising c then positive_changes a + 1 else positive_changes a)
             (if rising c then negative_changes a
              else negative_changes a + 1)).
Proof.
  intros (Hn & Hp & Hm). unfold counted. simpl.
  rewrite !filter_app, !length_app. simpl.
  destruct (rising c); simpl; rewrite ?Hn, ?Hp, ?Hm; repeat split; lia.
Qed.

(** The first half of the loop body: the alerts stay, or one alert on
    the price of the row comes last. *)
Lemma check_price_step (thr : float) (S : list string) (a a1 : alerts)
    (r : comparison_row) :
  sound thr S a -> In (Symbol r) S ->
  check_price thr a r = Ok a1 ->
  sound thr S a1
  /\ total_symbols a1 = total_symbols a
  /\ (List.length (significant_changes a1)
      <= List.length (significant_changes a) + 1)%nat.
Proof.
  intros (Hc & Hj & Hd) Hin. unfold check_price.
  destruct (to_float (Current_Price r) "$") as [cur | e]; [| discriminate].
  destruct (to_float (Previous_Price r) "$") as [prev | e]; [| discriminate].
  cbn [bind].
  destruct (truediv (sub cur prev) prev) as [q | e] eqn:Eq; [| discriminate].
  cbn [bind]. apply truediv_ok in Eq as [-> _].
  fold (change_formula cur prev).
  destruct (leb thr (abs (change_formula cur prev))) eqn:El;
    intros [= <-].
  2:{ split; [exact (conj Hc (conj Hj Hd)) | split; [reflexivity | lia]]. }
  set (c := mk_price_alert (Symbol r) (Company r) cur prev
              (change_formula cur prev)
              (if ltb (of_Z 0) (change_formula cur prev)
               then "increase" else "decrease")).
  assert (Hr : rising c = ltb (of_Z 0) (change_formula cur prev)).
  { unfold rising, c. cbn [direction].
    destruct (ltb (of_Z 0) (change_formula cur prev)); reflexivity. }
  split; [| split; [reflexivity | simpl; rewrite length_app; simpl; lia]].
  split; [| split].
  - pose proof (counted_snoc a c (daily_change_alerts a) (total_symbols a) Hc)
      as H.
    rewrite Hr in H. exact H.
  - simpl. apply Forall_app. split; [assumption |].
    constructor; [| constructor]. split; [| exact Hin].
    repeat split. exact El.
  - exact Hd.
Qed.

(** The second half: the same for the alert on the daily change; the
    alerts on prices and the counters stay. *)
Lemma check_daily_step (thr : float) (S : list string) (a a2 : alerts)
    (r : comparison_row) :
  sound thr S a -> In (Symbol r) S ->
  check_daily thr a r = Ok a2 ->
  sound thr S a2
  /\ total_symbols a2 = total_symbols a
  /\ significant_changes a2 = significant_changes a.
Proof.
  intros (Hc & Hj & Hd) Hin. unfold check_daily.
  destruct (notna (Change_in_Daily_Change r)).
  2:{ intros [= <-].
      split; [exact (conj Hc (conj Hj Hd)) | split; reflexivity]. }
  destruct (to_float (Change_in_Daily_Change r) "%") as [diff | e];
    [| discriminate].
  cbn [bind].
  destruct (leb thr (abs diff)) eqn:El.
  2:{ intros [= <-].
      split; [exact (conj Hc (conj Hj Hd)) | split; reflexivity]. }
  destruct (to_float (Daily_Change r) "%") as [cur | e]; [| discriminate].
  destruct (to_float (Previous_Daily_Change r) "%") as [prev | e];
    [| discriminate].
  cbn [bind]. intros [= <-].
  split; [| split; reflexivity].
  split; [exact Hc | split; [exact Hj |]].
  simpl. apply Forall_app. split; [assumption |].
  constructor; [| constructor]. split; [exact El | exact Hin].
Qed.

Lemma analyze_row_step (thr : float) (S : list string) (a a' : alerts)
    (r : comparison_row) :
  sound thr S a -> In (Symbol r) S ->
  analyze_row thr a r = Ok a' ->
  sound thr S a'
  /\ total_symbols a' = total_symbols a
  /\ (List.length (significant_changes a')
      <= List.length (significant_changes a) + 1)%nat.
Proof.
  intros Hs Hin. unfold analyze_row.
  destruct (isna (Previous_Price r) || isna (Current_Price r)).
  { intros [= <-]. split; [exact Hs | split; [reflexivity | lia]]. }
  destruct (check_price thr a r) as [a1 | e] eqn:E1; [| discriminate].
  cbn [bind]. intros E2.
  destruct (check_price_step thr S a a1 r Hs Hin E1) as (Hs1 & Ht1 & Hl1).
  destruct (check_daily_step thr S a1 a' r Hs1 Hin E2) as (Hs2 & Ht2 & Hl2).
  split; [exact Hs2 | split; [congruence | rewrite Hl2; exact Hl1]].
Qed.

Lemma analyze_rows_steps (thr : float) (S : list string)
    (rows : list comparison_row) :
  incl (map Symbol rows) S ->
  forall a a',
    sound thr S a ->
    analyze_rows thr a rows = Ok a' ->
    sound thr S a'
    /\ total_symbols a' = total_symbols a
    /\ (List.length (significant_changes a')
        <= List.length (significant_changes a) + List.length rows)%nat.
Proof.
  induction rows as [| r rows IH]; intros Hincl a a' Hs.
  - intros [= <-]. split; [exact Hs | split; [reflexivity | simpl; lia]].
  - simpl. destruct (analyze_row thr a r) as [a1 | e] eqn:E1;
      [| discriminate].
    cbn [bind]. intros E2.
    assert (Hin : In (Symbol r) S) by (apply Hincl; now left).
    destruct (analyze_row_step thr S a a1 r Hs Hin E1) as (Hs1 & Ht1 & Hl1).
    destruct (IH (fun x Hx => Hincl x (or_intror Hx)) a1 a' Hs1 E2)
      as (Hs2 & Ht2 & Hl2).
    split; [exact Hs2 | split; [congruence | lia]].
Qed.

Lemma analysis_sound (self : StockDataStorage) (df : list comparison_row)
    (a : alerts) :
  fst (analyze_price_changes self df) = Some a ->
  sound (price_change_threshold self) (map Symbol df) a
  /\ total_symbols a = Z.of_nat (List.length df)
  /\ (List.length (significant_changes a) <= List.length df)%nat.
Proof.
  unfold analyze_price_changes.
  destruct (analyze_rows _ _ df) as [a' | e] eqn:E; [| discriminate].
  intros [= <-].
  assert (H0 : sound (price_change_threshold self) (map Symbol df)
                 (mk_alerts [] [] (Z.of_nat (List.length df)) 0 0 0)).
  { repeat split; constructor. }
  destruct (analyze_rows_steps _ _ df (incl_refl _) _ _ H0 E)
    as (Hs & Ht & Hl).
  split; [exact Hs | split; [exact Ht | exact Hl]].
Qed.

(** X12: the summary of an analysis that ended counts what the analysis
    found: the number of symbols is the number of rows of the frame, the
    significant changes are as many as the alerts on prices, at most one
    for a row, and the positive and the negative changes are the alerts
    of a rise and the others. *)
Theorem analysis_counts_agree (self : StockDataStorage)
    (df : list comparison_row) (a : alerts) :
  fst (analyze_price_changes self df) = Some a ->
  total_symbols a = Z.of_nat (List.length df)
  /\ n_significant_changes a
     = Z.of_nat (List.length (significant_changes a))
  /\ positive_changes a
     = Z.of_nat (List.length (filter rising (significant_changes a)))
  /\ positive_changes a + negative_changes a = n_significant_changes a
  /\ n_significant_changes a <= total_symbols a.
Proof.
  intros H. destruct (analysis_sound self df a H)
    as (((Hn & Hp & Hm) & _ & _) & Ht & Hl).
  split; [exact Ht | split; [exact Hn | split; [exact Hp |]]].
  split; [| lia].
  rewrite Hn, Hp, Hm.
  assert (E : forall l : list price_alert,
             (List.length (filter rising l)
              + List.length (filter (fun c => negb (rising c)) l)
              = List.length l)%nat).
  { induction l as [| c l IH]; [reflexivity |].
    simpl. destruct (rising c); simpl; lia. }
  specialize (E (significant_changes a)). lia.
Qed.

(** X13: the analysis raises no alert that its rule does not carry: an
    alert on a price is of a symbol of the frame, its percentage is the
    one of its two prices and reaches the threshold, and its direction is
    the sign of the percentage; an alert on the daily change is of a
    symbol of the frame and its difference reaches the threshold. *)
Theorem alerts_are_justified (self : StockDataStorage)
    (df : list comparison_row) (a : alerts) :
  fst (analyze_price_changes self df) = Some a ->
  Forall (fun c => justified (price_change_threshold self) c
                   /\ In (pa_symbol c) (map Symbol df))
         (significant_changes a)
  /\ Forall (fun d => leb (price_change_threshold self) (abs (change_diff d))
                      = true
                      /\ In (da_symbol d) (map Symbol df))
            (daily_change_alerts a).
Proof.
  intros H. destruct (analysis_sound self df a H) as ((_ & Hj & Hd) & _).
  split; assumption.
Qed.

(** A row with a previous price of zero stops the analysis. *)
Lemma zero_previous_row (thr : float) (a : alerts) (r : comparison_row)
    (cur prev : float) :
  has_prices r cur prev -> is_zero prev = true ->
  analyze_row thr a r = Raise ZeroDivisionError.
Proof.
  intros (sc & sp & Hc & Hp & Pc & Pp) Hz.
  unfold analyze_row, check_price. rewrite Hc, Hp. simpl isna. cbn [orb].
  rewrite (to_float_str sc "$" cur Pc), (to_float_str sp "$" prev Pp).
  cbn [bind]. unfold truediv. rewrite Hz. reflexivity.
Qed.

(** X14: a row with its two prices as texts and a previous price of zero
    makes the analysis end without a result, whatever the other rows
    are, and the report is then the sentence on no change. *)
Theorem zero_previous_price_aborts (self : StockDataStorage)
    (df : list comparison_row) (r : comparison_row) (cur prev : float) :
  In r df -> has_prices r cur prev -> is_zero prev = true ->
  fst (analyze_price_changes self df) = None
  /\ fst (generate_report self df) = no_changes.
Proof.
  intros Hin Hp Hz.
  assert (H : forall a, exists e,
             analyze_rows (price_change_threshold self) a df = Raise e).
  { induction df as [| r0 df IH]; [contradiction |].
    intros a. simpl.
    destruct Hin as [-> | Hin].
    - rewrite (zero_previous_row _ a r cur prev Hp Hz). now eexists.
    - destruct (analyze_row _ a r0) as [a1 | e]; [| now exists e].
      cbn [bind]. apply (IH Hin). }
  assert (Hnone : fst (analyze_price_changes self df) = None).
  { unfold analyze_price_changes.
    destruct (H (mk_alerts [] [] (Z.of_nat (List.length df)) 0 0 0))
      as [e ->]. reflexivity. }
  split; [exact Hnone |].
  unfold generate_report.
  destruct (analyze_price_changes self df) as [result log].
  simpl in Hnone. now subst result.
Qed.

(** A share that came from nothing, after a share that moved. *)
Lemma zero_previous_price_aborts_witness :
  let self := mk_storage (of_Z 5) (mk_connection true []) in
  let df := [moved "$100.00" "$106.00" "$6.00";
             moved "$0.00" "$5.00" "$5.00"] in
  fst (analyze_price_changes self df) = None
  /\ fst (generate_report self df) = no_changes.
Proof.
  intros self df.
  refine (zero_previous_price_aborts self df (moved "$0.00" "$5.00" "$5.00")
            (of_Z 5) (of_Z 0) (or_intror (or_introl eq_refl)) _ eq_refl).
  exists "$5.00", "$0.00". repeat split.
Defined.

(** The analysis of a rise and of a fall. *)
Lemma analysis_counts_agree_witness :
  let self := mk_storage (of_Z 5) (mk_connection true []) in
  let df := [moved "$100.00" "$106.00" "$6.00";
             moved "$100.00" "$90.00" "$-10.00";
             moved "$100.00" "$101.00" "$1.00"] in
  exists a,
    fst (analyze_price_changes self df) = Some a
    /\ total_symbols a = 3 /\ n_significant_changes a = 2
    /\ positive_changes a + negative_changes a = n_significant_changes a.
Proof.
  intros self df.
  destruct (analyze_price_changes self df) as [[a |] log] eqn:E;
    [| vm_compute in E; discriminate].
  exists a.
  destruct (analysis_counts_agree self df a) as (Ht & Hn & _ & Hs & _).
  { now rewrite E. }
  split; [reflexivity |]. split; [exact Ht |]. split; [| exact Hs].
  vm_compute in E. injection E as <- _. reflexivity.
Defined.

Lemma alerts_are_justified_witness :
  let self := mk_storage (of_Z 5) (mk_connection true []) in
  let df := [moved "$100.00" "$106.00" "$6.00"] in
  exists a,
    fst (analyze_price_changes self df) = Some a
    /\ Forall (fun c => justified (of_Z 5) c /\ In (pa_symbol c) ["AAPL"])
              (significant_changes a).
Proof.
  intros self df.
  destruct (analyze_price_changes self df) as [[a |] log] eqn:E;
    [| vm_compute in E; discriminate].
  exists a. split; [reflexivity |].
  apply (alerts_are_justified self df a). now rewrite E.
Defined.

End AnalysisInvariant.

(** ** Symbols without previous data *)

Section FreshSymbols.

Import PyFloat PyStr DataStorage Spec Terms.

Lemma find_absent (previous : list quote_row) (s : string) :
  ~ In s (map q_Symbol previous) ->
  find (fun p => String.eqb (q_Symbol p) s) previous = None.
Proof.
  induction previous as [| p previous IH]; intros H; [reflexivity |].
  simpl. destruct (String.eqb_spec (q_Symbol p) s) as [E | _].
  - exfalso. apply H. now left.
  - apply IH. intros Hin. apply H. now right.
Qed.

Lemma analyze_unset_rows (thr : float) (a : alerts) (df : list quote_row) :
  analyze_rows thr a (map unset df) = Ok a.
Proof. induction df as [| r df IH]; [reflexivity | exact IH]. Qed.

(** X15: symbols that the latest data does not hold are compared with
    nothing: their rows keep the four columns unset and no line is
    logged for them, the analysis counts them and finds no alert, and the
    report is the summary with its counters at zero. So it is on the first
    run, on an empty table. *)
Theorem fresh_symbols_raise_no_alert (self : StockDataStorage)
    (current_df previous_df : list quote_row) :
  fst (get_latest_data self) = Some previous_df ->
  (forall r, In r current_df -> ~ In (q_Symbol r) (map q_Symbol previous_df)) ->
  compare_with_previous self current_df
  = (Some (map unset current_df), [Retrieved_latest_data; Compared])
  /\ fst (analyze_price_changes self (map unset current_df))
     = Some (mk_alerts [] [] (Z.of_nat (List.length current_df)) 0 0 0)
  /\ fst (generate_report self (map unset current_df))
     = PyStr.join newline
         (summary_lines
            (mk_alerts [] [] (Z.of_nat (List.length current_df)) 0 0 0)).
Proof.
  intros Hl Hfresh.
  assert (Hrow : forall r, In r current_df ->
                           compare_row previous_df r = (unset r, [])).
  { intros r Hr. unfold compare_row.
    now rewrite (find_absent previous_df (q_Symbol r) (Hfresh r Hr)). }
  assert (Hmap : map (compare_row previous_df) current_df
                 = map (fun r => (unset r, [])) current_df)
    by (apply map_ext_in; exact Hrow).
  assert (Han : fst (analyze_price_changes self (map unset current_df))
                = Some (mk_alerts [] [] (Z.of_nat (List.length current_df))
                          0 0 0)).
  { unfold analyze_price_changes.
    rewrite analyze_unset_rows, length_map. reflexivity. }
  split; [| split; [exact Han |]].
  - unfold compare_with_previous.
    unfold get_latest_data in *.
    destruct (execute_latest (conn self)) as [df | e]; [| discriminate].
    simpl in Hl. injection Hl as ->.
    rewrite Hmap, !map_map. simpl. f_equal.
    replace (flat_map snd (map (fun r => (unset r, @nil event)) current_df))
      with (@nil event); [reflexivity |].
    clear. induction current_df as [| r df IH]; [reflexivity | exact IH].
  - unfold generate_report.
    destruct (analyze_price_changes self (map unset current_df))
      as [result log].
    simpl in Han. subst result. reflexivity.
Qed.

(** The first run: a frame of one symbol against an empty table. *)
Lemma fresh_symbols_raise_no_alert_witness :
  let r := mk_quote_row None "AAPL" (Some "Apple") (PStr "$106.00")
             (PStr "$99.00") (PStr "7.07%") (Some "Yahoo Finance") in
  let self := mk_storage (of_Z 5) (mk_connection true []) in
  fst (analyze_price_changes self (map unset [r]))
  = Some (mk_alerts [] [] 1 0 0 0).
Proof.
  intros r self.
  refine (proj1 (proj2 (fresh_symbols_raise_no_alert self [r] [] eq_refl _))).
  intros r0 _ [].
Defined.

End FreshSymbols.

(** ** The cells of the status frame *)

Section StatusCells.

Import PyFloat PyStr StockMonitor Spec Terms.






(** X17: an unchanged price gives a daily change of zero: for a price
    that is a finite number other than zero, [calculate_daily_change] of
    the price against itself is a zero, with the sign of the price. *)
Theorem unchanged_price_daily_change (s : bool) (m : positive) (e : Z) :
  calculate_daily_change (Some (S754_finite s m e)) (Some (S754_finite s m e))
  = (Some (S754_zero s), [Calculated_daily_change (S754_zero s)]).
Proof.
  set (x := S754_finite s m e : float).
  unfold calculate_daily_change.
  pose proof (daily_change_body_nonzero x x eq_refl eq_refl) as E.
  match goal with
  | |- context [daily_change_body ?a ?b] =>
      change (daily_change_body a b) with (daily_change_body (Some x) (Some x))
  end.
  rewrite E. unfold change_formula, x. rewrite sub_self_finite.
  change (of_Z 100) with (S754_finite false 7036874417766400 (-46)).
  now destruct s.
Qed.

End StatusCells.

(** ** The alerts of an analysis that ended *)

Section CompletedAnalysis.

Import PyFloat PyStr DataStorage Spec Terms.

Lemma to_float_ok (v : pyval) (c : ascii) (x : float) :
  to_float v c = Ok x ->
  exists s, v = PStr s /\ parse_float (remove_char c s) = Some x.
Proof.
  unfold to_float, str_replace. destruct v as [| y | s]; try discriminate.
  cbn [bind]. unfold float_of_str.
  destruct (parse_float (remove_char c s)) as [z |] eqn:E; [| discriminate].
  intros [= <-]. eauto.
Qed.

Lemma check_daily_keeps_prices (thr : float) (a a2 : alerts)
    (r : comparison_row) :
  check_daily thr a r = Ok a2 ->
  significant_changes a2 = significant_changes a.
Proof.
  unfold check_daily. destruct (notna (Change_in_Daily_Change r));
    [| now intros [= <-]].
  destruct (to_float (Change_in_Daily_Change r) "%") as [d | e];
    [| discriminate].
  cbn [bind]. destruct (leb thr (abs d)); [| now intros [= <-]].
  destruct (to_float (Daily_Change r) "%") as [x | e]; [| discriminate].
  destruct (to_float (Previous_Daily_Change r) "%") as [y | e];
    [| discriminate].
  cbn [bind]. now intros [= <-].
Qed.

(** A turn of the loop that ended added the alerts of the rule for its
    row. *)
Lemma analyze_row_rule (thr : float) (a a' : alerts) (r : comparison_row) :
  analyze_row thr a r = Ok a' ->
  significant_changes a'
  = (significant_changes a ++ price_alerts_of thr r)%list.
Proof.
  unfold analyze_row.
  destruct (isna (Previous_Price r) || isna (Current_Price r)) eqn:Es.
  - intros [= <-]. rewrite (price_alerts_of_skipped thr r Es).
    now rewrite app_nil_r.
  - destruct (check_price thr a r) as [a1 | e] eqn:E1; [| discriminate].
    cbn [bind]. intros E2.
    rewrite (check_daily_keeps_prices thr a1 a' r E2).
    assert (Hp : exists cur prev,
               has_prices r cur prev /\ is_zero prev = false).
    { unfold check_price in E1.
      destruct (to_float (Current_Price r) "$") as [cur | e] eqn:Ec;
        [| discriminate].
      destruct (to_float (Previous_Price r) "$") as [prev | e] eqn:Ep;
        [| discriminate].
      cbn [bind] in E1.
      destruct (truediv (sub cur prev) prev) as [q | e] eqn:Eq;
        [| discriminate].
      apply to_float_ok in Ec as (sc & Hc & Pc).
      apply to_float_ok in Ep as (sp & Hp & Pp).
      exists cur, prev. split.
      - exists sc, sp. auto.
      - unfold truediv in Eq. now destruct (is_zero prev). }
    destruct Hp as (cur & prev & Hp & Hz).
    destruct (check_price_spec thr a r cur prev Hp Hz) as (_ & a1' & E & S & _).
    rewrite E in E1. injection E1 as <-.
    now rewrite S, (price_alerts_of_prices thr r cur prev Hp).
Qed.

Lemma analyze_rows_rule (thr : float) (df : list comparison_row) :
  forall a a', analyze_rows thr a df = Ok a' ->
               significant_changes a'
               = (significant_changes a
                  ++ flat_map (price_alerts_of thr) df)%list.
Proof.
  induction df as [| r df IH]; intros a a'.
  - intros [= <-]. simpl. now rewrite app_nil_r.
  - cbn [analyze_rows flat_map].
    destruct (analyze_row thr a r) as [a1 | e] eqn:E1; [| discriminate].
    cbn [bind]. intros E2.
    rewrite (IH a1 a' E2), (analyze_row_rule thr a a1 r E1).
    now rewrite app_assoc.
Qed.

(** X18: whenever the analysis of a frame ends with a result, its alerts
    on prices are those of the rule, row by row in the order of the frame:
    for a row with both prices as texts, one alert when the absolute
    percentage of the two prices reaches the threshold and none when it
    does not, and none for a row without a previous or a current price. *)
Theorem completed_analysis_alerts (self : StockDataStorage)
    (df : list comparison_row) (a : alerts) :
  fst (analyze_price_changes self df) = Some a ->
  significant_changes a
  = flat_map (price_alerts_of (price_change_threshold self)) df.
Proof.
  unfold analyze_price_changes.
  destruct (analyze_rows _ _ df) as [a' | e] eqn:E; [| discriminate].
  intros [= <-]. now rewrite (analyze_rows_rule _ df _ _ E).
Qed.

(** A rise of six percent and a rise of one percent. *)
Lemma completed_analysis_alerts_witness :
  let self := mk_storage (of_Z 5) (mk_connection true []) in
  let df := [moved "$100.00" "$106.00" "$6.00";
             moved "$100.00" "$101.00" "$1.00"] in
  exists a,
    fst (analyze_price_changes self df) = Some a
    /\ significant_changes a
       = flat_map (price_alerts_of (price_change_threshold self)) df.
Proof.
  intros self df.
  destruct (analyze_price_changes self df) as [[a |] log] eqn:E;
    [| vm_compute in E; discriminate].
  exists a. split; [reflexivity |].
  apply (completed_analysis_alerts self df a). now rewrite E.
Defined.

End CompletedAnalysis.

(** ** The configuration *)

Section Configuration.

Import PyFloat PyStr Config Terms.

Lemma split_nonempty (c : ascii) (s : string) : split c s <> [].
Proof.
  destruct s as [| a r]; simpl; [discriminate |].
  destruct (Ascii.eqb a c); [discriminate |].
  destruct (split c r); discriminate.
Qed.













End Configuration.

(** ** The key of the second provider *)

Section ApiKey.

Import PyFloat PyStr Config Terms.

Lemma load_config_keys (dotenv : outcome environ) :
  exists symbols key,
    fst (load_config dotenv)
    = [("symbols", VList symbols); ("alpha_vantage_key", key)].
Proof.
  destruct dotenv as [env | e]; [| now exists [], VNone].
  unfold load_config, load_config_body.
  destruct (String.eqb _ ""); [now exists [], VNone |].
  destruct (map strip _) as [| x xs]; [now exists [], VNone |].
  destruct (_ || _); eexists; eexists; reflexivity.
Qed.

(** X20: [load_config] files the key of Alpha Vantage under
    ['alpha_vantage_key'], and [main] asks the configuration for
    ['alpha_vantage_api_key']: whatever the environment holds, the key
    that [main] reads is [None], and with symbols configured it logs that
    the key is not configured. A key that the environment does hold is in
    the dictionary, under the other name. *)
Theorem api_key_never_reaches_main (dotenv : outcome environ) :
  match fst (fst (Monitor.settings dotenv)) with
  | Some (symbols, api_key) =>
      api_key = VNone
      /\ In Monitor.Key_not_configured (snd (Monitor.settings dotenv))
  | None => True
  end
  /\ (forall env s k,
         dotenv = Ok env ->
         env "STOCK_SYMBOLS" = Some s -> s <> "" ->
         env "ALPHA_VANTAGE_API_KEY" = Some k ->
         k <> "" -> k <> "your_api_key_here" ->
         get (fst (load_config dotenv)) "alpha_vantage_key" VNone = VStr k
         /\ get (fst (load_config dotenv)) "alpha_vantage_api_key" VNone
            = VNone).
Proof.
  split.
  - unfold Monitor.settings.
    destruct (load_config_keys dotenv) as (symbols & key & E).
    destruct (load_config dotenv) as [config log]. simpl in E. subst config.
    change (get [("symbols", VList symbols); ("alpha_vantage_key", key)]
              "symbols" (VList [])) with (VList symbols).
    change (get [("symbols", VList symbols); ("alpha_vantage_key", key)]
              "alpha_vantage_api_key" VNone) with VNone.
    destruct symbols as [| x xs]; simpl; [exact I |].
    split; [reflexivity | right; right; now left].
  - intros env s k -> Hs Hne Hk Hk1 Hk2.
    unfold load_config, load_config_body, getenv. rewrite Hs, Hk.
    destruct (String.eqb_spec s "") as [E | _]; [congruence |].
    pose proof (split_nonempty "," s) as Hn.
    destruct (split "," s) as [| x xs]; [congruence |].
    cbn [map].
    destruct (String.eqb_spec k "") as [E | _]; [congruence |].
    destruct (String.eqb_spec k "your_api_key_here") as [E | _];
      [congruence |].
    split; reflexivity.
Qed.

(** An environment with a symbol and a key. *)
Lemma api_key_never_reaches_main_witness :
  let env := fun name =>
               if String.eqb name "STOCK_SYMBOLS" then Some "AAPL"
               else if String.eqb name "ALPHA_VANTAGE_API_KEY"
                    then Some "K3Y" else None in
  get (fst (load_config (Ok env))) "alpha_vantage_key" VNone = VStr "K3Y"
  /\ get (fst (load_config (Ok env))) "alpha_vantage_api_key" VNone = VNone.
Proof.
  intros env.
  apply (proj2 (api_key_never_reaches_main (Ok env)) env "AAPL" "K3Y" eq_refl
           eq_refl);
    [discriminate | reflexivity | discriminate | discriminate].
Defined.

End ApiKey.

(** ** Fetching, and the status frame *)

Section Fetching.

Import PyFloat PyStr StockMonitor DataStorage Clients Terms.

(** [float] reads the [.2f] text of any float: as the float itself when
    it is a zero, an infinity or a NaN, as the float nearest to its
    hundredths otherwise. *)
Lemma parse_format_2f (x : float) :
  parse_float (format_2f x) = Some (hundredths x).
Proof.
  destruct x as [s | s | | s m e].
  - now destruct s.
  - now destruct s.
  - reflexivity.
  - simpl format_2f. unfold hundredths.
    change (of_decimal s (cents_of m e) (-2))
      with (div_round s (cents_of m e) 100).
    apply parse_signed_fixed2. apply cents_of_nonneg.
Qed.

Lemma price_column_reads (x : float) :
  column_to_float "$" [PStr ("$" ++ format_2f x)] = Ok [hundredths x].
Proof.
  unfold column_to_float. simpl existsb. cbn [orb map_outcome].
  change (remove_char "$" ("$" ++ format_2f x))
    with (remove_char "$" (format_2f x)).
  rewrite (format_2f_clean "$" x mark_dollar).
  unfold float_of_str. rewrite parse_format_2f. reflexivity.
Qed.

Lemma percent_column_reads (x : float) :
  column_to_float "%" [PStr (format_2f x ++ "%")] = Ok [hundredths x].
Proof.
  unfold column_to_float. simpl existsb. cbn [orb map_outcome].
  rewrite remove_char_app, (format_2f_clean "%" x mark_percent).
  change (remove_char "%" "%") with "".
  rewrite append_empty_r.
  unfold float_of_str. rewrite parse_format_2f. reflexivity.
Qed.

(** X21: [get_stock_data] gives a frame exactly when the provider gave
    the price, the previous close and the change, and this frame is one
    that the conversions of [save_stock_data] read, whatever floats the
    provider gave: each cell comes back as its float rounded to two
    decimal places. A frame is there only for a symbol that
    [validate_symbol] accepts. *)
Theorem fetched_frame_is_readable (symbol : string) (i : ticker_info) :
  match regularMarketPrice i, previousClose i, regularMarketChangePercent i
  with
  | Some p, Some c, Some d =>
      exists df,
        fst (Monitor.get_stock_data symbol (Ok i)) = Some df
        /\ map q_Symbol df = [symbol]
        /\ numeric_columns df
           = Ok ([hundredths p], [hundredths c], [hundredths d])
        /\ fst (Monitor.validate_symbol symbol (Ok i)) = true
  | _, _, _ => fst (Monitor.get_stock_data symbol (Ok i)) = None
  end.
Proof.
  unfold Monitor.get_stock_data, Monitor.validate_symbol.
  destruct (regularMarketPrice i) as [p |]; [| reflexivity].
  destruct (previousClose i) as [c |]; [| reflexivity].
  destruct (regularMarketChangePercent i) as [d |]; [| reflexivity].
  eexists. split; [reflexivity |]. split; [reflexivity |].
  split; [| reflexivity].
  unfold numeric_columns. cbn [map q_Current_Price q_Previous_Close
                                 q_Daily_Change].
  rewrite !price_column_reads, percent_column_reads. reflexivity.
Qed.

Variable yahoo : string -> outcome ticker_info.
Variable alpha : string -> outcome (option quote * option string).

Lemma stock_status_row_symbol (symbol : string) (ds : list reading)
    (names : list string) :
  q_Symbol (fst (stock_status_row symbol ds names)) = symbol.
Proof.
  unfold stock_status_row. destruct ds as [| d ds]; [reflexivity |].
  destruct (calculate_average_price _) as [[ap ac] log1].
  destruct (calculate_daily_change ap ac) as [dc log2]. reflexivity.
Qed.

Lemma status_of_symbol (key : option string) (symbol : string) :
  q_Symbol (fst (Monitor.status_of yahoo alpha key symbol)) = symbol.
Proof.
  unfold Monitor.status_of.
  match goal with
  | |- context [stock_status_row symbol ?ds ?ns] =>
      pose proof (stock_status_row_symbol symbol ds ns) as H;
      destruct (stock_status_row symbol ds ns) as [r log]
  end.
  exact H.
Qed.

Lemma status_fold (key : option string) (symbols : list string)
    (results : list quote_row) (log : list Monitor.event) :
  map q_Symbol
      (fst (fold_left (Monitor.status_step yahoo alpha key) symbols
              (results, log)))
  = (map q_Symbol results ++ symbols)%list.
Proof.
  revert results log. induction symbols as [| s symbols IH];
    intros results log.
  - simpl. now rewrite app_nil_r.
  - cbn [fold_left].
    change (Monitor.status_step yahoo alpha key (results, log) s)
      with (let '(r, l) := Monitor.status_of yahoo alpha key s in
            ((results ++ [r])%list, (log ++ l)%list)).
    pose proof (status_of_symbol key s) as Hs.
    destruct (Monitor.status_of yahoo alpha key s) as [r l].
    rewrite IH, map_app. cbn [fst map] in *.
    rewrite Hs, <- app_assoc. reflexivity.
Qed.

(** X22: the status frame has one row for each symbol asked for, in the
    order asked, whatever the providers answer: a symbol without an
    answer has its row of placeholders. *)
Theorem status_frame_rows (symbols : list string)
    (alpha_vantage_key : option string) :
  map q_Symbol
      (fst (Monitor.get_stock_status yahoo alpha symbols alpha_vantage_key))
  = symbols.
Proof.
  unfold Monitor.get_stock_status.
  pose proof (status_fold alpha_vantage_key symbols [] []) as H.
  destruct (fold_left _ symbols ([], [])) as [results log].
  simpl in H. destruct results as [| r rs]; exact H.
Qed.

(** X23: the key that [validate_symbol] looks for is not the one that the
    client of Yahoo reads. With Yahoo alone, a symbol whose entries hold
    ['regularMarketPrice'] and no ['currentPrice'] is validated, and its
    row of the status frame has placeholders for the prices and for the
    change, and names Yahoo Finance as its source. *)
Theorem validated_symbol_without_price (symbol : string) (i : ticker_info)
    (p : float) :
  yahoo symbol = Ok i ->
  regularMarketPrice i = Some p -> currentPrice i = None ->
  fst (Monitor.validate_symbol symbol (yahoo symbol)) = true
  /\ exists company,
       fst (Monitor.status_of yahoo alpha None symbol)
       = mk_quote_row None symbol (Some company) na na na
           (Some "Yahoo Finance").
Proof.
  intros Hy Hp Hc. rewrite Hy. split.
  - unfold Monitor.validate_symbol. now rewrite Hp.
  - unfold Monitor.status_of. rewrite Hy.
    unfold yahoo_get_stock_data. rewrite Hc. cbn [app].
    unfold stock_status_row.
    set (d := mk_reading None (previousClose i) _).
    assert (E : calculate_average_price (map Some [d])
                = ((None, None), [No_valid_prices])).
    { unfold calculate_average_price, average_price_body.
      cbn [map fold_left collect price d].
      destruct (prev_close d) as [c |]; [destruct (truthy c) |];
        reflexivity. }
    rewrite E.
    change (calculate_daily_change None None)
      with (@None float, [Cannot_calculate_daily_change]).
    eexists. reflexivity.
Qed.

End Fetching.

Section FetchingExamples.

Import PyFloat PyStr StockMonitor DataStorage Clients Terms.

(** A provider that knows the market price and the close of a share. *)
Lemma validated_symbol_without_price_witness :
  let i := mk_ticker_info None (Some (of_Z 106)) (Some (of_Z 100))
             (Some (of_Z 6)) (Some "Apple") in
  exists company,
    fst (Monitor.status_of (fun _ => Ok i) (fun _ => Raise ValueError) None
           "AAPL")
    = mk_quote_row None "AAPL" (Some company) na na na (Some "Yahoo Finance").
Proof.
  intros i.
  exact (proj2 (validated_symbol_without_price (fun _ => Ok i)
                  (fun _ => Raise ValueError) "AAPL" i (of_Z 106)
                  eq_refl eq_refl eq_refl)).
Defined.

End FetchingExamples.

(** ** One turn of the loop of the monitor *)

Section MonitorCycle.

Import PyFloat PyStr DataStorage Spec Terms.

Variable cast : Z -> float -> outcome (option Z).
Variable info : string -> outcome Clients.ticker_info.

Lemma column_cells (c : ascii) (col : list pyval) (xs : list float) :
  column_to_float c col = Ok xs -> Forall2 (cell_float c) col xs.
Proof.
  unfold column_to_float.
  destruct (existsb is_str col || forallb is_none col); [| discriminate].
  intros H. apply map_outcome_spec in H.
  eapply Forall2_impl; [| exact H].
  intros v x. destruct v as [| y | s]; simpl; congruence.
Qed.

(** The rows that a save adds, with their values: each comes from the
    cells of its row of the frame through the cast. *)
Lemma save_attempt_values (self : StockDataStorage) (df : list quote_row)
    (ts : Z) (c : connection) :
  save_attempt cast self df ts = Ok c ->
  exists new,
    stock_snapshots c = (stock_snapshots (conn self) ++ new)%list
    /\ Forall2 (fun r sn =>
                  symbol sn = q_Symbol r
                  /\ exists x z,
                       cell_float "$" (q_Current_Price r) x
                       /\ cast 10 x = Ok (current_price sn)
                       /\ cell_float "%" (q_Daily_Change r) z
                       /\ cast 5 z = Ok (daily_change sn))
               df new.
Proof.
  unfold save_attempt, numeric_columns. intros H.
  destruct (column_to_float "$" (map q_Current_Price df)) as [cp | e] eqn:E1;
    [| discriminate].
  cbn [bind] in H.
  destruct (column_to_float "$" (map q_Previous_Close df)) as [pc | e] eqn:E2;
    [| discriminate].
  cbn [bind] in H.
  destruct (column_to_float "%" (map q_Daily_Change df)) as [dc | e] eqn:E3;
    [| discriminate].
  cbn [bind] in H. unfold execute_insert in H.
  destruct (is_open (conn self)); [| discriminate].
  cbn [negb] in H.
  match type of H with
  | bind (map_outcome ?f ?l) _ = _ =>
      destruct (map_outcome f l) as [rows | e] eqn:Er; [| discriminate]
  end.
  cbn [bind] in H. unfold append_rows in H.
  destruct (pk_unique (stock_snapshots (conn self) ++ rows));
    [| discriminate].
  injection H as <-. exists rows. split; [reflexivity |].
  apply column_cells in E1, E3.
  apply column_to_float_length in E2. rewrite length_map in E2.
  clear -E1 E2 E3 Er.
  revert cp pc dc rows E1 E2 E3 Er.
  induction df as [| r df IH]; intros cp pc dc rows E1 E2 E3 Er.
  - simpl in Er. injection Er as <-. constructor.
  - simpl in E1, E3. inversion E1 as [| ? x ? cp' Hx Hcp]; subst.
    inversion E3 as [| ? z ? dc' Hz Hdc]; subst.
    destruct pc as [| y pc']; [discriminate |].
    simpl in Er.
    destruct (cast 10 x) as [x' | e] eqn:Cx; [| discriminate].
    cbn [bind] in Er.
    destruct (cast 10 y) as [y' | e]; [| discriminate]. cbn [bind] in Er.
    destruct (cast 5 z) as [z' | e] eqn:Cz; [| discriminate].
    cbn [bind] in Er.
    match type of Er with
    | bind (map_outcome ?f ?l) _ = _ =>
        destruct (map_outcome f l) as [rows' | e] eqn:Er'; [| discriminate]
    end.
    cbn [bind] in Er. injection Er as <-.
    constructor.
    + split; [reflexivity |]. exists x, z. simpl. auto.
    + apply (IH cp' pc' dc' rows' Hcp); [simpl in E2; lia | exact Hdc |].
      exact Er'.
Qed.

(** When the cast gives the stored values back, the rows added for the
    latest data of the table are copies of its rows. *)
Lemma saved_copies (L new : list snapshot) :
  Forall (kept_by cast) L ->
  Forall2 (fun r sn =>
             symbol sn = q_Symbol r
             /\ exists x z,
                  cell_float "$" (q_Current_Price r) x
                  /\ cast 10 x = Ok (current_price sn)
                  /\ cell_float "%" (q_Daily_Change r) z
                  /\ cast 5 z = Ok (daily_change sn))
          (map latest_row L) new ->
  Forall2 copy_of L new.
Proof.
  intros Htyped. revert new.
  induction L as [| sn L IH]; intros new H;
    inversion H as [| ? sn' ? new' Hr Hrest]; subst; constructor.
  - inversion Htyped as [| ? ? (Hp & Hd) _]; subst.
    destruct Hr as (Hs & x & z & Cx & Kx & Cz & Kz).
    unfold copy_of. split; [exact Hs |].
    split.
    + change (to_float (q_Current_Price (latest_row sn)) "$" = Ok x) in Cx.
      rewrite latest_price_float in Cx.
      destruct (current_price sn) as [d |]; [| discriminate Cx].
      injection Cx as <-. simpl in Hp.
      rewrite Hp in Kx. now injection Kx as <-.
    + change (to_float (q_Daily_Change (latest_row sn)) "%" = Ok z) in Cz.
      rewrite latest_change_float in Cz.
      destruct (daily_change sn) as [d |]; [| discriminate Cz].
      injection Cz as <-. simpl in Hd.
      rewrite Hd in Kz. now injection Kz as <-.
  - apply IH; [| assumption]. now inversion Htyped.
Qed.

Lemma copy_refl (L : list snapshot) : Forall2 copy_of L L.
Proof. induction L; constructor; [repeat split | assumption]. Qed.

(** The stamped latest data echoes a frame that holds a copy of each of
    its rows, without a symbol twice. *)
Lemma stamped_echo (now : Z) (previous : list quote_row)
    (L new : list snapshot) :
  NoDup (map q_Symbol previous) ->
  Forall2 copy_of L new ->
  (forall sn', In sn' new -> In (latest_row sn') previous) ->
  Forall2 (echoes previous)
          (Monitor.stamped now (map latest_row L)) L.
Proof.
  intros Hnd H. induction H as [| sn sn' L new (Hs & Hp & Hd) _ IH];
    intros Hin; [constructor |].
  simpl. constructor.
  - split; [split; reflexivity |].
    exists (latest_row sn'). split.
    + pose proof (find_own_symbol q_Symbol previous (latest_row sn') Hnd
                    (Hin sn' (or_introl eq_refl))) as F.
      simpl in F. simpl. rewrite <- Hs. exact F.
    + unfold quotes, latest_row. simpl. now rewrite Hp, Hd.
  - apply IH. intros x Hx. apply Hin. now right.
Qed.

(** The report on a frame that echoes the table. *)
Lemma echo_report (self : StockDataStorage) (previous current : list quote_row)
    (L : list snapshot) :
  ltb (of_Z 0) (price_change_threshold self) = true ->
  Forall2 (echoes previous) current L ->
  fst (generate_report self
         (map (fun r => fst (compare_row previous r)) current))
  = if existsb zero_priced L then no_changes
    else quiet_report (List.length current).
Proof.
  intros Hthr H. unfold generate_report, analyze_price_changes.
  rewrite (echo_rows _ previous current L Hthr H), length_map.
  destruct (existsb zero_priced L); reflexivity.
Qed.

(** X24: a turn of the loop of [main] saves again what the storage
    already holds and compares it with itself. With the primary key, a
    positive threshold, a cast that gives the stored values back and a
    clock ahead of the table, what the turn prints is never an alert: it
    is the summary with the number of symbols of the latest data and its
    counters at zero, or, when a stored price of zero stops the analysis,
    the sentence on no change. *)
Theorem monitor_cycle_reports_no_change (data_storage : StockDataStorage)
    (valid_symbols : list string) (now : Z) :
  let rows := stock_snapshots (conn data_storage) in
  let L := filter (is_latest (max_timestamp rows)) rows in
  pk_unique rows = true ->
  ltb (of_Z 0) (price_change_threshold data_storage) = true ->
  Forall (kept_by cast) rows ->
  (forall sn, In sn rows -> timestamp sn < now) ->
  fst (fst (Monitor.cycle cast info data_storage valid_symbols now))
  = if is_open (conn data_storage)
    then Some (newline
               ++ (if existsb zero_priced L then no_changes
                   else quiet_report (List.length L)))
    else None.
Proof.
  intros rows L Hpk Hthr Htyped Hclock.
  unfold Monitor.cycle.
  assert (Hlatest : get_latest_data data_storage
                    = if is_open (conn data_storage)
                      then (Some (map latest_row L), [Retrieved_latest_data])
                      else (None, [Error_retrieving_latest_data
                                     (DuckDBError ConnectionClosed)])).
  { unfold get_latest_data, execute_latest.
    destruct (is_open (conn data_storage)); reflexivity. }
  rewrite Hlatest.
  destruct (is_open (conn data_storage)) eqn:Ho; [| reflexivity].
  set (df := map latest_row L).
  rewrite save_result.
  assert (HndL : NoDup (map q_Symbol df)).
  { unfold df. rewrite map_map. simpl. now apply latest_rows_symbols. }
  assert (HtypedL : Forall (kept_by cast) L).
  { apply Forall_forall. intros sn Hsn. apply filter_In in Hsn as [Hsn _].
    rewrite Forall_forall in Htyped. now apply Htyped. }
  assert (Hlen : List.length (Monitor.stamped now df) = List.length L).
  { unfold Monitor.stamped, df. now rewrite !length_map. }
  destruct (save_attempt cast data_storage df now) as [c | e] eqn:Es.
  - (* the copy went into the table *)
    destruct (save_attempt_ok cast data_storage df now c Es)
      as (Hoc & new0 & Hrows0 & Hst & Hpk').
    destruct (save_attempt_values data_storage df now c Es)
      as (new & Hrows & Hval).
    assert (new0 = new).
    { rewrite Hrows0 in Hrows. now apply app_inv_head in Hrows. }
    subst new0.
    pose proof (saved_copies L new HtypedL Hval) as Hcopy.
    destruct (stored_symbols now df new Hst) as [Hsym Hts].
    set (saved := mk_storage (price_change_threshold data_storage) c).
    assert (Hprev : fst (get_latest_data saved) = Some (map latest_row new)).
    { unfold get_latest_data, execute_latest, saved. simpl conn.
      rewrite Hoc, Hrows. simpl. do 2 f_equal.
      destruct new as [| sn0 new'].
      - (* nothing to copy: the table was empty of latest rows *)
        inversion Hcopy; subst. rewrite app_nil_r.
        fold rows. fold L. congruence.
      - apply (latest_of_appended _ (sn0 :: new') now);
          [discriminate | exact Hts | exact Hclock]. }
    pose proof (compare_with_previous_map saved (Monitor.stamped now df)
                  (map latest_row new) Hprev) as Hcmp.
    destruct (compare_with_previous saved (Monitor.stamped now df))
      as [comparison log5].
    simpl in Hcmp. subst comparison.
    assert (Hecho : Forall2 (echoes (map latest_row new))
                      (Monitor.stamped now df) L).
    { apply (stamped_echo now (map latest_row new) L new).
      - assert (E : map q_Symbol (map latest_row new) = map symbol new)
          by (rewrite map_map; reflexivity).
        rewrite E, Hsym. exact HndL.
      - exact Hcopy.
      - intros sn' Hin. now apply in_map. }
    pose proof (echo_report saved (map latest_row new)
                  (Monitor.stamped now df) L Hthr Hecho) as Hrep.
    destruct (generate_report saved _) as [report log6].
    simpl in Hrep. subst report. simpl fst. now rewrite Hlen.
  - (* the save failed: the storage is as it was *)
    pose proof (compare_with_previous_map data_storage
                  (Monitor.stamped now df) df) as Hcmp.
    rewrite Hlatest in Hcmp. specialize (Hcmp eq_refl).
    destruct (compare_with_previous data_storage (Monitor.stamped now df))
      as [comparison log5].
    simpl in Hcmp. subst comparison.
    assert (Hecho : Forall2 (echoes df) (Monitor.stamped now df) L).
    { apply (stamped_echo now df L L HndL (copy_refl L)).
      intros sn' Hin. now apply in_map. }
    pose proof (echo_report data_storage df (Monitor.stamped now df) L
                  Hthr Hecho) as Hrep.
    destruct (generate_report data_storage _) as [report log6].
    simpl in Hrep. subst report. simpl fst. now rewrite Hlen.
Qed.

End MonitorCycle.

Section MonitorCycleExamples.

Import PyFloat PyStr DataStorage Spec Terms.

(** A poll of two shares, one of which moved by six percent since the
    poll before: the turn prints the summary of two symbols, no alert. *)
Lemma monitor_cycle_reports_no_change_witness :
  let a1 := mk_snapshot 1000 "AAPL" (Some "Apple") (Some 10000) (Some 9900)
              (Some 101) (Some "Yahoo Finance") in
  let a2 := mk_snapshot 2000 "AAPL" (Some "Apple") (Some 10600) (Some 9900)
              (Some 707) (Some "Yahoo Finance") in
  let m2 := mk_snapshot 2000 "MSFT" (Some "Microsoft") (Some 40000)
              (Some 40100) (Some (-25)) (Some "Yahoo Finance") in
  let self := mk_storage (of_Z 5) (mk_connection true [a1; a2; m2]) in
  fst (fst (Monitor.cycle nearest_hundredth (fun _ => Raise ValueError) self
              ["AAPL"; "MSFT"] 3000))
  = Some (newline ++ quiet_report 2).
Proof.
  intros a1 a2 m2 self.
  refine (monitor_cycle_reports_no_change nearest_hundredth
            (fun _ => Raise ValueError) self ["AAPL"; "MSFT"] 3000
            eq_refl eq_refl _ _).
  - repeat constructor; vm_compute; reflexivity.
  - intros sn [<- | [<- | [<- | []]]]; simpl; lia.
Defined.

End MonitorCycleExamples.
